(** * Plugin loading and lifecycle manager (PluginService.ts)

    A shallow embedding of
    [packages/lib/services/plugins/PluginService.ts] and the properties
    its specification states about it.

    - JavaScript strings are [string]s of 8-bit code units.
    - Objects used as dictionaries whose iteration order is irrelevant
      (the plugin registry) are [gmap]s; the settings object, which the
      code walks with [for ... in], is an association list in property
      order.  A lookup [o[k]] is a lookup of an own property: ids that name
      a member of [Object.prototype] are not modelled.
    - Objects that the code shares by reference (the registry mapping,
      plugin instances, settings objects) live in explicit heaps.
    - The file system behind [shim.fsDriver()] is a finite map from paths
      to contents; a directory is there through the files under it.
    - What the service does to its collaborators (file system writes,
      archive extraction, store dispatches, runner calls, log entries) is
      recorded in an event trace.
    - [async] functions are run to completion one after the other: an
      exception is a [Throw] result which leaves the state as it was when
      the exception was raised.
    - The module is compiled in strict mode: an assignment to a property
      of a primitive value throws. *)

From Stdlib Require Import Ascii String List ZArith Lia Bool.
From stdpp Require Import gmap strings list fin_maps pretty.

Set Warnings "-register-all".

Local Open Scope string_scope.
Local Open Scope list_scope.

(** ** JavaScript string primitives used by the service *)

Module JsString.

Definition LF : ascii := ascii_of_nat 10.
Definition DQUOTE : ascii := ascii_of_nat 34.

(** [quoted s] is [s] between two double-quote characters. *)
Definition quoted (s : string) : string :=
  String DQUOTE (s +:+ String DQUOTE "").

(** White space and line terminators removed by [String.prototype.trim],
    over 8-bit code units: TAB, LF, VT, FF, CR, SPACE and NBSP. *)
Definition isWhiteSpace (c : ascii) : bool :=
  let n := nat_of_ascii c in
  (((9 <=? n) && (n <=? 13)) || (n =? 32) || (n =? 160))%nat.

Definition isEmpty (s : string) : bool :=
  match s with EmptyString => true | String _ _ => false end.

Fixpoint trimStart (s : string) : string :=
  match s with
  | EmptyString => EmptyString
  | String c r => if isWhiteSpace c then trimStart r else s
  end.

Fixpoint trimEnd (s : string) : string :=
  match s with
  | EmptyString => EmptyString
  | String c r =>
      let r' := trimEnd r in
      if isWhiteSpace c && isEmpty r' then EmptyString else String c r'
  end.

Definition trim (s : string) : string := trimEnd (trimStart s).

(** [s.split('\n')] *)
Fixpoint splitLines (s : string) : list string :=
  match s with
  | EmptyString => [EmptyString]
  | String c r =>
      if Ascii.eqb c LF then EmptyString :: splitLines r
      else match splitLines r with
           | l :: ls => String c l :: ls
           | [] => [String c EmptyString]
           end
  end.

(** [lines.join('\n')] *)
Definition joinLines (lines : list string) : string :=
  String.concat (String LF EmptyString) lines.

(** [s.indexOf(p) === 0] *)
Definition startsWith (s p : string) : bool := String.prefix p s.

Fixpoint revString (s acc : string) : string :=
  match s with
  | EmptyString => acc
  | String c r => revString r (String c acc)
  end.

(** [s.endsWith(p)] *)
Definition endsWith (s p : string) : bool :=
  String.prefix (revString p "") (revString s "").

Definition lowerChar (c : ascii) : ascii :=
  let n := nat_of_ascii c in
  if ((65 <=? n) && (n <=? 90))%nat then ascii_of_nat (n + 32) else c.

(** [s.toLowerCase()] on the ASCII letters. *)
Fixpoint toLowerCase (s : string) : string :=
  match s with
  | EmptyString => EmptyString
  | String c r => String (lowerChar c) (toLowerCase r)
  end.

(** [s.substr(0, n)] *)
Definition substr0 (n : nat) (s : string) : string := String.substring 0 n s.

End JsString.

Import JsString.

(** ** Errors

    The service throws plain [Error] objects; the constructors name the
    throw sites after the specification's error taxonomy. *)

Inductive Error : Type :=
| ManifestNotFound                       (* 'Could not find manifest' *)
| ManifestDecodeError                    (* JSON.parse throws *)
| MissingPluginId                        (* 'Could not load plugin: ID is not set' *)
| DuplicateId (id : string)              (* 'There is already a plugin with this ID' *)
| ExtractionFailure (path : string)      (* 'Missing manifest file at: ...' *)
| VersionTooOld (id : string)            (* 'Plugin ... was disabled because it requires ...' *)
| PluginNotFound (id : string)           (* 'Plugin not found: ...' *)
| FileNotFound (path : string)           (* the file system driver rejects *)
| ArchiveError (path : string)           (* tar.extract rejects *)
| TypeError                              (* property access on a non-object *)
| InvalidVersion                         (* compare-versions rejects its argument *)
| RunnerError (id : string)              (* the plugin runner rejects *)
| OutOfFuel.                             (* the embedding's recursion bound *)

Inductive Result (A : Type) : Type :=
| Return (a : A)
| Throw (e : Error).
Arguments Return {A} a.
Arguments Throw {A} e.

(** ** ManifestParser: [parsePluginJsBundle] *)

Inductive ScanState : Type := StateStarted | StateInManifest.

Definition manifestOpening : string := "/* joplin-manifest:".
Definition manifestClosing : string := "*/".

Record ParsedBundle : Type := mkParsedBundle {
  pb_scriptText : string;
  pb_manifestText : string;
}.

(** The [for (let line of lines)] loop; [break] returns the accumulator. *)
Fixpoint scanLines (state : ScanState) (lines : list string)
    (manifestText : list string) : list string :=
  match lines with
  | [] => manifestText
  | line :: rest =>
      let line := trim line in
      match state with
      | StateStarted =>
          if String.eqb line manifestOpening
          then scanLines StateInManifest rest manifestText
          else scanLines StateStarted rest manifestText
      | StateInManifest =>
          if startsWith line manifestClosing
          then manifestText
          else scanLines StateInManifest rest (manifestText ++ [line])
      end
  end.

Definition parsePluginJsBundle (jsBundleString : string) : Result ParsedBundle :=
  let scriptText := jsBundleString in
  let lines := splitLines scriptText in
  let manifestText := scanLines StateStarted lines [] in
  match manifestText with
  | [] => Throw ManifestNotFound
  | _ => Return (mkParsedBundle scriptText (joinLines manifestText))
  end.

(** The specification's reading of the parser: the trimmed lines strictly
    between the first line equal to the opening sentinel and the first
    later line that starts with the closing sentinel. *)
Fixpoint afterOpening (lines : list string) : option (list string) :=
  match lines with
  | [] => None
  | l :: rest => if String.eqb l manifestOpening then Some rest else afterOpening rest
  end.

Fixpoint beforeClosing (lines : list string) : list string :=
  match lines with
  | [] => []
  | l :: rest => if startsWith l manifestClosing then [] else l :: beforeClosing rest
  end.

Definition manifestBlock (scriptText : string) : list string :=
  match afterOpening (map trim (splitLines scriptText)) with
  | None => []
  | Some rest => beforeClosing rest
  end.


(** ** JavaScript values

    [JSON.parse] returns a value of type [any]; so does
    [serializePluginSettings], and [unserializePluginSettings] accepts
    one.  An object is the list of its own enumerable properties in
    property order. *)

Inductive JsAny : Type :=
| JsNull
| JsBoolean (b : bool)
| JsNumber (n : Z)
| JsStr (s : string)
| JsObject (props : list (string * JsAny)).

Module JsObj.

Abbreviation Props := (list (string * JsAny)).

(** [o[k]]; [None] is [undefined]. *)
Fixpoint get (k : string) (props : Props) : option JsAny :=
  match props with
  | [] => None
  | (k', v) :: rest => if String.eqb k' k then Some v else get k rest
  end.

(** [o[k] = v]: an existing property keeps its place, a new one goes last. *)
Fixpoint set (k : string) (v : JsAny) (props : Props) : Props :=
  match props with
  | [] => [(k, v)]
  | (k', v') :: rest =>
      if String.eqb k' k then (k', v) :: rest else (k', v') :: set k v rest
  end.

Definition keys (props : Props) : list string := map fst props.

(** Truthiness of [o[k]] *)
Definition truthy (v : option JsAny) : bool :=
  match v with
  | None | Some JsNull => false
  | Some (JsBoolean b) => b
  | Some (JsNumber n) => negb (Z.eqb n 0)
  | Some (JsStr s) => negb (isEmpty s)
  | Some (JsObject _) => true
  end.

Fixpoint indexedChars (i : nat) (s : string) : Props :=
  match s with
  | EmptyString => []
  | String c r => (pretty i, JsStr (String c EmptyString)) :: indexedChars (S i) r
  end.

(** The properties copied by a spread [{ ...v }]: the own enumerable
    properties of an object, the indexed characters of a string, and
    nothing for the other primitives, [null] and [undefined]. *)
Definition spread (v : option JsAny) : Props :=
  match v with
  | Some (JsObject props) => props
  | Some (JsStr s) => indexedChars 0 s
  | _ => []
  end.

(** [{ ...a, ...b }] *)
Definition assign (a b : Props) : Props :=
  fold_left (fun acc kv => set (fst kv) (snd kv) acc) b a.

(** [v === s] for a string [s] *)
Definition strictEqStr (v : option JsAny) (s : string) : bool :=
  match v with
  | Some (JsStr t) => String.eqb t s
  | _ => false
  end.

(** [v[k]] where [v] may be a primitive, which has no such property. *)
Definition prop (v : option JsAny) (k : string) : option JsAny :=
  match v with
  | Some (JsObject props) => get k props
  | _ => None
  end.

(** The string held by a property, empty when it holds none. *)
Definition asString (v : option JsAny) : string :=
  match v with
  | Some (JsStr t) => t
  | _ => EmptyString
  end.

End JsObj.

(** ** Data model *)

(** Modelled from the spec: the normalized manifest built by
    [manifestFromObject] (utils/manifestFromObject.ts is not part of the
    sources at hand): "normalized metadata with at least [id] and
    [app_min_version]; all other fields pass through opaquely". *)
Record Manifest : Type := mkManifest {
  manifest_id : string;
  manifest_app_min_version : string;
  manifest_fields : JsObj.Props;
}.

(** Modelled from the spec: [manifestFromObject] (not part of the sources
    at hand) keeps [id] and [app_min_version] and passes the other fields
    through. *)
Definition manifestFromObject (o : JsObj.Props) : Manifest :=
  {| manifest_id := JsObj.asString (JsObj.get "id" o);
     manifest_app_min_version := JsObj.asString (JsObj.get "app_min_version" o);
     manifest_fields := o |}.

(** Modelled from the spec: the [Plugin] entity (Plugin.ts is not part of
    the sources at hand): base directory, manifest, script text, the
    [devMode] flag "set by the loader context", and "a list of accumulated
    deprecation notices"; its [id] is the manifest's. *)
Record Plugin : Type := mkPlugin {
  plugin_baseDir : string;
  plugin_manifest : Manifest;
  plugin_scriptText : string;
  plugin_devMode : bool;
  plugin_deprecationNotices : list (string * string);
}.

(** Modelled from the spec: the getter [plugin.id] of [Plugin]. *)
Definition plugin_id (p : Plugin) : string := manifest_id (plugin_manifest p).

(** Modelled from the spec: the constructor of [Plugin]; the dispatch
    callback it is given is the store of the event trace. *)
Definition newPlugin (baseDir : string) (manifest : Manifest) (scriptText : string) : Plugin :=
  mkPlugin baseDir manifest scriptText false [].

(** Modelled from the spec: [plugin.deprecationNotice(goneInVersion, message)]
    of [Plugin] adds to the accumulated notices. *)
Definition deprecationNotice (goneInVersion message : string) (p : Plugin) : Plugin :=
  mkPlugin (plugin_baseDir p) (plugin_manifest p) (plugin_scriptText p) (plugin_devMode p)
    (plugin_deprecationNotices p ++ [(goneInVersion, message)]).

(** Modelled from the spec: the setter [plugin.devMode = devMode] of [Plugin]. *)
Definition setDevMode (devMode : bool) (p : Plugin) : Plugin :=
  mkPlugin (plugin_baseDir p) (plugin_manifest p) (plugin_scriptText p) devMode
    (plugin_deprecationNotices p).

Record PluginSetting : Type := mkPluginSetting {
  enabled : bool;
  deleted : bool;
}.

Definition defaultPluginSetting : PluginSetting :=
  {| enabled := true; deleted := false |}.

(** The JavaScript object of a setting. *)
Definition settingToJs (setting : PluginSetting) : JsAny :=
  JsObject [("enabled", JsBoolean (enabled setting)); ("deleted", JsBoolean (deleted setting))].

(** [PluginSettings], in the order in which [for ... in] visits it. *)
Abbreviation PluginSettings := (list (string * PluginSetting)).

Module Settings.

Fixpoint get (k : string) (s : PluginSettings) : option PluginSetting :=
  match s with
  | [] => None
  | (k', v) :: rest => if String.eqb k' k then Some v else get k rest
  end.

(** [delete s[k]] *)
Fixpoint remove (k : string) (s : PluginSettings) : PluginSettings :=
  match s with
  | [] => []
  | (k', v) :: rest => if String.eqb k' k then remove k rest else (k', v) :: remove k rest
  end.

Definition keys (s : PluginSettings) : list string := map fst s.

End Settings.

(** References into the heaps. *)
Abbreviation loc := positive.

(** [Plugins]: plugin id to (a reference to) the plugin. *)
Abbreviation Plugins := (gmap string loc).

Record Stat : Type := mkStat {
  stat_path : string;
  stat_isDirectory : bool;
}.

Inductive Action : Type :=
| PLUGIN_ADD (id : string).   (* views: {}, contentScripts: {} *)

Inductive LogEntry : Type :=
| NameStartsWithUnderscore (pluginPath : string)
| LoadingPluginFrom (path : string)
| NotRunningDisabledPlugin (id : string)
| CouldNotLoadPlugin (pluginPath : string) (error : Error)
| InstallingPlugin (jplPath : string)
| UninstallingPlugin (pluginId : string)
| CouldNotFindPluginPath (pluginId : string).

(** What the service does to its collaborators, in order. *)
Inductive Event : Type :=
| FsRemove (path : string)
| FsMkdir (path : string)
| FsWriteFile (path content : string)
| FsCopy (source dest : string)
| TarExtract (file cwd : string)
| StoreDispatch (action : Action)
| RunnerRun (plugin : loc)
| Log (entry : LogEntry).

Abbreviation Files := (gmap string string).

Record State : Type := mkState {
  appVersion_ : string;
  plugins_ : loc;                       (* the field [this.plugins_] *)
  registries : gmap loc Plugins;        (* the mapping objects it has pointed to *)
  pluginObjs : gmap loc Plugin;         (* [Plugin] instances *)
  settingsObjs : gmap loc PluginSettings;
  files : Files;                        (* the file system behind [shim.fsDriver()] *)
  events : list Event;                  (* oldest first *)
}.

Definition withPlugins_ (l : loc) (s : State) : State :=
  mkState (appVersion_ s) l (registries s) (pluginObjs s) (settingsObjs s) (files s) (events s).
Definition withRegistries (r : gmap loc Plugins) (s : State) : State :=
  mkState (appVersion_ s) (plugins_ s) r (pluginObjs s) (settingsObjs s) (files s) (events s).
Definition withPluginObjs (o : gmap loc Plugin) (s : State) : State :=
  mkState (appVersion_ s) (plugins_ s) (registries s) o (settingsObjs s) (files s) (events s).
Definition withSettingsObjs (o : gmap loc PluginSettings) (s : State) : State :=
  mkState (appVersion_ s) (plugins_ s) (registries s) (pluginObjs s) o (files s) (events s).
Definition withFiles (f : Files) (s : State) : State :=
  mkState (appVersion_ s) (plugins_ s) (registries s) (pluginObjs s) (settingsObjs s) f (events s).
Definition withEvents (e : list Event) (s : State) : State :=
  mkState (appVersion_ s) (plugins_ s) (registries s) (pluginObjs s) (settingsObjs s) (files s) e.

(** The mapping [this.plugins_] points to; the getter [plugins] returns the
    reference [plugins_ s] itself. *)
Definition currentPlugins (s : State) : Plugins :=
  default ∅ (registries s !! plugins_ s).

(** The service after [initialize]: an empty registry, no events yet. *)
Definition initialState (appVersion : string) (fs : Files) : State :=
  mkState appVersion 1%positive {[1%positive := ∅]} ∅ ∅ fs [].

(** ** The service monad: state and exceptions *)

Definition M (A : Type) : Type := State -> Result A * State.

Definition ret {A} (a : A) : M A := fun s => (Return a, s).

Definition throw {A} (e : Error) : M A := fun s => (Throw e, s).

Definition bind {A B} (m : M A) (k : A -> M B) : M B :=
  fun s =>
    match m s with
    | (Return a, s') => k a s'
    | (Throw e, s') => (Throw e, s')
    end.

(** [try { body } catch (error) { handler }] *)
Definition tryCatch {A} (body : M A) (handler : Error -> M A) : M A :=
  fun s =>
    match body s with
    | (Return a, s') => (Return a, s')
    | (Throw e, s') => handler e s'
    end.

Definition gets {A} (f : State -> A) : M A := fun s => (Return (f s), s).

Definition modify (f : State -> State) : M unit := fun s => (Return tt, f s).

Declare Scope service_scope.
Delimit Scope service_scope with service.
Notation "x <- c1 ;; c2" := (bind c1 (fun x => c2))
  (at level 100, c1 at next level, right associativity) : service_scope.
Notation "c1 ;; c2" := (bind c1 (fun _ => c2))
  (at level 100, right associativity) : service_scope.
Local Open Scope service_scope.

(** [for (const x of xs) body] *)
Fixpoint forEach {A} (xs : list A) (body : A -> M unit) : M unit :=
  match xs with
  | [] => ret tt
  | x :: rest => body x ;; forEach rest body
  end.

(** A rejected promise of a collaborator *)
Definition orThrow {A} (o : option A) (e : Error) : M A :=
  match o with
  | Some a => ret a
  | None => throw e
  end.

Definition liftResult {A} (r : Result A) : M A := fun s => (r, s).

Definition emit (e : Event) : M unit :=
  modify (fun s => withEvents (events s ++ [e]) s).

Definition logger (entry : LogEntry) : M unit := emit (Log entry).

(** *** Plugin instances *)

Definition allocPlugin (p : Plugin) : M loc :=
  fun s =>
    let l := fresh (dom (pluginObjs s)) in
    (Return l, withPluginObjs (<[l := p]> (pluginObjs s)) s).

Definition readPlugin (l : loc) : M Plugin :=
  fun s =>
    match pluginObjs s !! l with
    | Some p => (Return p, s)
    | None => (Throw TypeError, s)
    end.

Definition modifyPlugin (l : loc) (f : Plugin -> Plugin) : M unit :=
  modify (fun s => withPluginObjs (alter f l (pluginObjs s)) s).

(** *** The file system driver on [files] *)

Definition underDir (dir path : string) : bool :=
  String.eqb path dir || startsWith path (dir +:+ "/").

Definition fsRemoved (dir : string) (fs : Files) : Files :=
  filter (fun kv => underDir dir (fst kv) = false) fs.

Definition fsExtracted (cwd : string) (entries : list (string * string)) (fs : Files) : Files :=
  fold_left (fun acc e => <[cwd +:+ "/" +:+ fst e := snd e]> acc) entries fs.

Definition fsReadFile (path : string) : M string :=
  fs <- gets files ;; orThrow (fs !! path) (FileNotFound path).

Definition fsExists (path : string) : M bool :=
  fs <- gets files ;; ret (bool_decide (is_Some (fs !! path))).

Definition fsRemove (path : string) : M unit :=
  emit (FsRemove path) ;;
  modify (fun s => withFiles (fsRemoved path (files s)) s).

Definition fsMkdir (path : string) : M unit := emit (FsMkdir path).

Definition fsWriteFile (path content : string) : M unit :=
  emit (FsWriteFile path content) ;;
  modify (fun s => withFiles (<[path := content]> (files s)) s).

Definition fsCopy (source dest : string) : M unit :=
  content <- fsReadFile source ;;
  emit (FsCopy source dest) ;;
  modify (fun s => withFiles (<[dest := content]> (files s)) s).

(** ** PluginService *)

Definition appMinVersionNotice : string :=
  "The manifest must contain an " +:+ quoted "app_min_version"
  +:+ " key, which should be the minimum version of the app you support. It was automatically set to "
  +:+ quoted "1.4" +:+ ", but please update your manifest.json file.".

Definition idNotice (id : string) : string :=
  "The manifest must contain an " +:+ quoted "id"
  +:+ " key, which should be a globally unique ID for your plugin, such as "
  +:+ quoted "com.example.MyPlugin" +:+ " or a UUID. It was automatically set to "
  +:+ quoted id +:+ ", but please update your manifest.json file.".

(** The collaborators that are not part of the sources at hand. *)
Class Host : Type := mkHost {
  (* path-utils *)
  filename : string -> string;
  dirname : string -> string;
  rtrimSlashes : string -> string;
  uslug : string -> string;
  (* digest of a file's content *)
  md5 : string -> string;
  (* [None]: SyntaxError *)
  JSON_parse : string -> option JsAny;
  JSON_stringify : JsAny -> string;
  (* archive content to (relative path, content); [None]: not an archive *)
  tarEntries : string -> option (list (string * string));
  (* [None]: an argument is not a version *)
  compareVersions : string -> string -> option Z;
  (* [shim.fsDriver().readDirStats]; [None]: no such directory *)
  readDirStats : Files -> string -> option (list Stat);
  (* [this.runner_.run] *)
  runnerRun : Plugin -> Result unit;
  (* [Setting.value('tempDir')], [Setting.value('pluginDir')] *)
  tempDir : string;
  pluginDir : string;
  (* bound on the nesting of [loadPluginFromPath] and
     [loadPluginFromPackage], which call each other *)
  fuel : nat;
}.

Section PluginService.

Context `{Host}.

Definition makePluginId (source : string) : string :=
  substr0 32 (uslug source).

(** *** PluginRegistry *)

Definition setPluginAt (pluginId : string) (plugin : loc) : M unit :=
  modify (fun s =>
    let l := fresh (dom (registries s)) in
    withPlugins_ l
      (withRegistries (<[l := <[pluginId := plugin]> (currentPlugins s)]> (registries s)) s)).

Definition deletePluginAt (pluginId : string) : M unit :=
  current <- gets currentPlugins ;;
  match current !! pluginId with
  | None => ret tt
  | Some _ =>
      (* this.plugins_ = { ...this.plugins_ } *)
      modify (fun s =>
        let l := fresh (dom (registries s)) in
        withPlugins_ l (withRegistries (<[l := currentPlugins s]> (registries s)) s)) ;;
      (* delete this.plugins_[pluginId] *)
      modify (fun s =>
        withRegistries (alter (delete pluginId) (plugins_ s) (registries s)) s)
  end.

Definition pluginById (id : string) : M loc :=
  current <- gets currentPlugins ;;
  orThrow (current !! id) (PluginNotFound id).

(** *** Loading *)

Definition loadPlugin (baseDir manifestText scriptText pluginIdIfNotSpecified : string)
    : M loc :=
  let baseDir := rtrimSlashes baseDir in
  parsed <- orThrow (JSON_parse manifestText) ManifestDecodeError ;;
  match parsed with
  | JsObject manifestObj =>
      let deprecationNotices : list string := [] in
      let '(manifestObj, deprecationNotices) :=
        if negb (JsObj.truthy (JsObj.get "app_min_version" manifestObj))
        then (JsObj.set "app_min_version" (JsStr "1.4") manifestObj,
              deprecationNotices ++ [appMinVersionNotice])
        else (manifestObj, deprecationNotices) in
      let '(manifestObj, deprecationNotices) :=
        if negb (JsObj.truthy (JsObj.get "id" manifestObj))
        then (JsObj.set "id" (JsStr pluginIdIfNotSpecified) manifestObj,
              deprecationNotices ++ [idNotice pluginIdIfNotSpecified])
        else (manifestObj, deprecationNotices) in
      let manifest := manifestFromObject manifestObj in
      plugin <- allocPlugin (newPlugin baseDir manifest scriptText) ;;
      forEach deprecationNotices
        (fun msg => modifyPlugin plugin (deprecationNotice "1.5" msg)) ;;
      p <- readPlugin plugin ;;
      if isEmpty (plugin_id p) then throw MissingPluginId else ret plugin
  | _ => throw TypeError
  end.

Definition loadPluginFromJsBundle (baseDir jsBundleString pluginIdIfNotSpecified : string)
    : M loc :=
  let baseDir := rtrimSlashes baseDir in
  r <- liftResult (parsePluginJsBundle jsBundleString) ;;
  loadPlugin baseDir (pb_manifestText r) (pb_scriptText r) pluginIdIfNotSpecified.

(** Returns [null] on any error. *)
Definition loadManifestToObject (path : string) : M (option JsAny) :=
  tryCatch
    (manifestText <- fsReadFile path ;;
     v <- orThrow (JSON_parse manifestText) ManifestDecodeError ;;
     ret (Some v))
    (fun _ => ret None).

Definition md5File (path : string) : M string :=
  content <- fsReadFile path ;; ret (md5 content).

Definition tarExtract (file cwd : string) : M unit :=
  archive <- fsReadFile file ;;
  emit (TarExtract file cwd) ;;
  entries <- orThrow (tarEntries archive) (ArchiveError file) ;;
  modify (fun s => withFiles (fsExtracted cwd entries (files s)) s).

(** [!manifest || manifest._package_hash !== hash] *)
Definition cacheMiss (manifest : option JsAny) (hash : string) : bool :=
  negb (JsObj.truthy manifest)
  || negb (JsObj.strictEqStr (JsObj.prop manifest "_package_hash") hash).

(** [loadPluginFromPackage], given the [loadPluginFromPath] it ends with. *)
Definition loadPluginFromPackageWith (loadPluginFromPath : string -> M loc)
    (baseDir path : string) : M loc :=
  let baseDir := rtrimSlashes baseDir in
  let fname := filename path in
  hash <- md5File path ;;
  let unpackDir := tempDir +:+ "/" +:+ fname in
  let manifestFilePath := unpackDir +:+ "/manifest.json" in
  manifest <- loadManifestToObject manifestFilePath ;;
  (if cacheMiss manifest hash then
     fsRemove unpackDir ;;
     fsMkdir unpackDir ;;
     tarExtract path unpackDir ;;
     manifest <- loadManifestToObject manifestFilePath ;;
     if negb (JsObj.truthy manifest) then throw (ExtractionFailure manifestFilePath)
     else
       match manifest with
       | Some (JsObject props) =>
           let manifest := JsObject (JsObj.set "_package_hash" (JsStr hash) props) in
           fsWriteFile manifestFilePath (JSON_stringify manifest)
       | _ => throw TypeError   (* assignment to a property of a primitive *)
       end
   else ret tt) ;;
  loadPluginFromPath unpackDir.

Fixpoint loadPluginFromPathN (n : nat) (path : string) : M loc :=
  match n with
  | O => throw OutOfFuel
  | S n' =>
      let path := rtrimSlashes path in
      if endsWith (toLowerCase path) ".js" then
        let baseDir := dirname path in
        jsBundleString <- fsReadFile path ;;
        loadPluginFromJsBundle baseDir jsBundleString (filename path)
      else if endsWith (toLowerCase path) ".jpl" then
        loadPluginFromPackageWith (loadPluginFromPathN n') (dirname path) path
      else
        hasManifest <- fsExists (path +:+ "/manifest.json") ;;
        let distPath := if hasManifest then path else path +:+ "/dist" in
        logger (LoadingPluginFrom path) ;;
        scriptText <- fsReadFile (distPath +:+ "/index.js") ;;
        manifestText <- fsReadFile (distPath +:+ "/manifest.json") ;;
        let pluginId := makePluginId (filename path) in
        loadPlugin distPath manifestText scriptText pluginId
  end.

Definition loadPluginFromPath : string -> M loc := loadPluginFromPathN fuel.

Definition loadPluginFromPackage : string -> string -> M loc :=
  loadPluginFromPackageWith loadPluginFromPath.

(** *** Running *)

Definition pluginEnabled (settings : PluginSettings) (pluginId : string) : bool :=
  match Settings.get pluginId settings with
  | None => true
  | Some setting => enabled setting   (* [enabled !== false] *)
  end.

Definition runPlugin (plugin : loc) : M unit :=
  p <- readPlugin plugin ;;
  appVersion <- gets appVersion_ ;;
  c <- orThrow (compareVersions appVersion (manifest_app_min_version (plugin_manifest p)))
         InvalidVersion ;;
  (if (c <? 0)%Z then throw (VersionTooOld (plugin_id p))
   else emit (StoreDispatch (PLUGIN_ADD (plugin_id p)))) ;;
  emit (RunnerRun plugin) ;;
  liftResult (runnerRun p).

(** The body of the loop of [loadAndRunPlugins]; [continue] is [ret tt]. *)
Definition loadAndRunCandidate (settings : PluginSettings) (devMode : bool)
    (pluginPath : string) : M unit :=
  if startsWith (filename pluginPath) "_" then
    logger (NameStartsWithUnderscore pluginPath)
  else
    tryCatch
      (plugin <- loadPluginFromPath pluginPath ;;
       p <- readPlugin plugin ;;
       current <- gets currentPlugins ;;
       (if bool_decide (is_Some (current !! plugin_id p))
        then throw (DuplicateId (plugin_id p)) else ret tt) ;;
       setPluginAt (plugin_id p) plugin ;;
       if negb (pluginEnabled settings (plugin_id p)) then
         logger (NotRunningDisabledPlugin (plugin_id p))
       else
         modifyPlugin plugin (setDevMode devMode) ;;
         runPlugin plugin)
      (fun error => logger (CouldNotLoadPlugin pluginPath error)).

Definition scanPluginDir (dir : string) : M (list string) :=
  fs <- gets files ;;
  stats <- orThrow (readDirStats fs dir) (FileNotFound dir) ;;
  ret (map (fun stat => dir +:+ "/" +:+ stat_path stat)
         (List.filter
            (fun stat =>
               stat_isDirectory stat
               || endsWith (toLowerCase (stat_path stat)) ".js"
               || endsWith (toLowerCase (stat_path stat)) ".jpl")
            stats)).

(** [pluginDirOrPaths] is a directory ([inl]) or a list of paths ([inr]). *)
Definition loadAndRunPlugins (pluginDirOrPaths : string + list string)
    (settings : PluginSettings) (devMode : bool) : M unit :=
  pluginPaths <- match pluginDirOrPaths with
                 | inr paths => ret paths
                 | inl dir => scanPluginDir dir
                 end ;;
  forEach pluginPaths (loadAndRunCandidate settings devMode).

(** *** Installing and uninstalling *)

Definition installPlugin (jplPath : string) : M loc :=
  logger (InstallingPlugin jplPath) ;;
  preloadedPlugin <- loadPluginFromPath jplPath ;;
  pre <- readPlugin preloadedPlugin ;;
  let destPath := pluginDir +:+ "/" +:+ plugin_id pre +:+ ".jpl" in
  fsCopy jplPath destPath ;;
  plugin <- loadPluginFromPath destPath ;;
  p <- readPlugin plugin ;;
  current <- gets currentPlugins ;;
  (if bool_decide (is_Some (current !! plugin_id p)) then ret tt
   else setPluginAt (plugin_id p) plugin) ;;
  ret plugin.

Fixpoint findPluginStat (pluginId : string) (stats : list Stat) : option string :=
  match stats with
  | [] => None
  | stat :: rest =>
      if String.eqb (filename (stat_path stat)) pluginId
      then Some (pluginDir +:+ "/" +:+ stat_path stat)
      else findPluginStat pluginId rest
  end.

Definition pluginPath (pluginId : string) : M (option string) :=
  fs <- gets files ;;
  stats <- orThrow (readDirStats fs pluginDir) (FileNotFound pluginDir) ;;
  ret (findPluginStat pluginId stats).

Definition uninstallPlugin (pluginId : string) : M unit :=
  logger (UninstallingPlugin pluginId) ;;
  path <- pluginPath pluginId ;;
  match path with
  | None => logger (CouldNotFindPluginPath pluginId)
  | Some path => fsRemove path
  end ;;
  deletePluginAt pluginId.

Definition readSettings (l : loc) : M PluginSettings :=
  objs <- gets settingsObjs ;; orThrow (objs !! l) TypeError.

(** [newSettings = { ...settings }; delete newSettings[pluginId]] *)
Definition copySettingsWithout (settings : loc) (pluginId : string) : M loc :=
  o <- readSettings settings ;;
  fun s =>
    let l := fresh (dom (settingsObjs s)) in
    let s' := withSettingsObjs (<[l := o]> (settingsObjs s)) s in
    (Return l, withSettingsObjs (alter (Settings.remove pluginId) l (settingsObjs s')) s').

(** The loop of [uninstallPlugins] over the keys of [settings], threading
    the variable [newSettings]. *)
Fixpoint uninstallPluginsLoop (settings : loc) (pluginIds : list string)
    (newSettings : loc) : M loc :=
  match pluginIds with
  | [] => ret newSettings
  | pluginId :: rest =>
      o <- readSettings settings ;;
      setting <- orThrow (Settings.get pluginId o) TypeError ;;
      if deleted setting then
        uninstallPlugin pluginId ;;
        newSettings <- copySettingsWithout settings pluginId ;;
        uninstallPluginsLoop settings rest newSettings
      else
        uninstallPluginsLoop settings rest newSettings
  end.

Definition uninstallPlugins (settings : loc) : M loc :=
  let newSettings := settings in
  o <- readSettings settings ;;
  uninstallPluginsLoop settings (Settings.keys o) newSettings.

(** *** SettingsCodec *)

Definition defaultPluginSettingObj : JsObj.Props :=
  JsObj.spread (Some (settingToJs defaultPluginSetting)).

(** [{ ...defaultPluginSetting(), ...entry }] *)
Definition mergeOverDefault (entry : option JsAny) : JsAny :=
  JsObject (JsObj.assign defaultPluginSettingObj (JsObj.spread entry)).

Definition unserializePluginSettings (settings : JsAny) : JsAny :=
  let output := JsObj.spread (Some settings) in
  JsObject
    (fold_left
       (fun output pluginId =>
          JsObj.set pluginId (mergeOverDefault (JsObj.get pluginId output)) output)
       (JsObj.keys output) output).

Definition serializePluginSettings (settings : JsAny) : JsAny :=
  JsStr (JSON_stringify settings).

End PluginService.

(** ** A host to run the service on

    Small stand-ins for the collaborators, so that the service can be run
    on concrete inputs: path utilities, a slug function, a JSON codec for
    the values of [JsAny] (no escapes, no arrays), an archive format that
    lists one [path|content] entry per line, dotted version numbers, and a
    directory listing read off the flat file system. *)

Module Demo.

Fixpoint lastIndexOf (c : ascii) (s : string) : option nat :=
  match s with
  | EmptyString => None
  | String c' r =>
      match lastIndexOf c r with
      | Some i => Some (S i)
      | None => if Ascii.eqb c' c then Some O else None
      end
  end.

Definition basename (path : string) : string :=
  match lastIndexOf "/" path with
  | Some i => String.substring (S i) (String.length path - S i) path
  | None => path
  end.

Definition filename (path : string) : string :=
  let name := basename path in
  match lastIndexOf "." name with
  | Some i => String.substring 0 i name
  | None => name
  end.

Definition dirname (path : string) : string :=
  match lastIndexOf "/" path with
  | Some i => String.substring 0 i path
  | None => EmptyString
  end.

Fixpoint rtrimSlashes (path : string) : string :=
  match path with
  | EmptyString => EmptyString
  | String c r =>
      let r' := rtrimSlashes r in
      if Ascii.eqb c "/" && isEmpty r' then EmptyString else String c r'
  end.

Definition slugChar (c : ascii) : ascii :=
  if Ascii.eqb c " " then "-"%char else lowerChar c.

Fixpoint uslug (source : string) : string :=
  match source with
  | EmptyString => EmptyString
  | String c r => String (slugChar c) (uslug r)
  end.

Fixpoint checksum (acc : N) (content : string) : N :=
  match content with
  | EmptyString => acc
  | String c r => checksum ((acc * 31 + N.of_nat (nat_of_ascii c)) mod 4294967296)%N r
  end.

Definition md5 (content : string) : string :=
  "h" +:+ pretty (checksum 7 content).

(** *** JSON *)

Fixpoint stringify (v : JsAny) : string :=
  match v with
  | JsNull => "null"
  | JsBoolean true => "true"
  | JsBoolean false => "false"
  | JsNumber n => pretty n
  | JsStr s => quoted s
  | JsObject props =>
      "{" +:+
      (fix members (ps : list (string * JsAny)) : string :=
         match ps with
         | [] => "}"
         | (k, v) :: rest =>
             quoted k +:+ ":" +:+ stringify v
             +:+ match rest with [] => "" | _ :: _ => "," end +:+ members rest
         end) props
  end.

(** The characters up to the closing quote, and what follows it. *)
Fixpoint readString (s : string) : option (string * string) :=
  match s with
  | EmptyString => None
  | String c r =>
      if Ascii.eqb c DQUOTE then Some (EmptyString, r)
      else match readString r with
           | Some (str, rest) => Some (String c str, rest)
           | None => None
           end
  end.

Definition isDigit (c : ascii) : bool :=
  let n := nat_of_ascii c in ((48 <=? n) && (n <=? 57))%nat.

Fixpoint readDigits (acc : N) (s : string) : N * string :=
  match s with
  | String c r =>
      if isDigit c then readDigits (acc * 10 + N.of_nat (nat_of_ascii c - 48)) r
      else (acc, s)
  | EmptyString => (acc, s)
  end.

Definition dropPrefix (p s : string) : option string :=
  if String.prefix p s
  then Some (String.substring (String.length p) (String.length s - String.length p) s)
  else None.

Fixpoint parseValue (n : nat) (s : string) : option (JsAny * string) :=
  match n with
  | O => None
  | S n' =>
      let s := trimStart s in
      match s with
      | EmptyString => None
      | String c r =>
          if Ascii.eqb c "{" then parseMembers n' r []
          else if Ascii.eqb c DQUOTE then
            match readString r with
            | Some (str, rest) => Some (JsStr str, rest)
            | None => None
            end
          else if isDigit c then
            let '(k, rest) := readDigits 0 s in Some (JsNumber (Z.of_N k), rest)
          else
            match dropPrefix "null" s, dropPrefix "true" s, dropPrefix "false" s with
            | Some rest, _, _ => Some (JsNull, rest)
            | _, Some rest, _ => Some (JsBoolean true, rest)
            | _, _, Some rest => Some (JsBoolean false, rest)
            | _, _, _ => None
            end
      end
  end
with parseMembers (n : nat) (s : string) (acc : JsObj.Props) : option (JsAny * string) :=
  match n with
  | O => None
  | S n' =>
      match trimStart s with
      | EmptyString => None
      | String c r =>
          if Ascii.eqb c "}" then Some (JsObject acc, r)
          else if Ascii.eqb c "," then parseMembers n' r acc
          else if Ascii.eqb c DQUOTE then
            match readString r with
            | Some (k, rest) =>
                match trimStart rest with
                | String c' rest' =>
                    if Ascii.eqb c' ":" then
                      match parseValue n' rest' with
                      | Some (v, rest'') => parseMembers n' rest'' (acc ++ [(k, v)])
                      | None => None
                      end
                    else None
                | EmptyString => None
                end
            | None => None
            end
          else None
      end
  end.

Definition parse (text : string) : option JsAny :=
  match parseValue (S (String.length text)) text with
  | Some (v, rest) => if isEmpty (trimStart rest) then Some v else None
  | None => None
  end.

(** *** Archives *)

Fixpoint splitAtBar (s : string) : option (string * string) :=
  match s with
  | EmptyString => None
  | String c r =>
      if Ascii.eqb c "|" then Some (EmptyString, r)
      else match splitAtBar r with
           | Some (a, b) => Some (String c a, b)
           | None => None
           end
  end.

Fixpoint archiveEntries (lines : list string) : option (list (string * string)) :=
  match lines with
  | [] => Some []
  | l :: rest =>
      match splitAtBar l, archiveEntries rest with
      | Some e, Some es => Some (e :: es)
      | _, _ => None
      end
  end.

Definition tarEntries (archive : string) : option (list (string * string)) :=
  archiveEntries (splitLines archive).

(** *** Versions *)

Fixpoint versionParts (n : nat) (s : string) : option (list N) :=
  match n with
  | O => None
  | S n' =>
      match s with
      | EmptyString => None
      | String c _ =>
          if isDigit c then
            match readDigits 0 s with
            | (k, EmptyString) => Some [k]
            | (k, String d rest) =>
                if Ascii.eqb d "." then
                  match versionParts n' rest with
                  | Some ks => Some (k :: ks)
                  | None => None
                  end
                else None
            end
          else None
      end
  end.

Fixpoint compareParts (a b : list N) {struct a} : Z :=
  match a with
  | [] => if forallb (N.eqb 0) b then 0 else (-1)
  | x :: a' =>
      match b with
      | [] => if (0 <? x)%N then 1 else compareParts a' []
      | y :: b' =>
          if (x <? y)%N then (-1) else if (y <? x)%N then 1 else compareParts a' b'
      end
  end.

Definition compareVersions (v1 v2 : string) : option Z :=
  match versionParts (S (String.length v1)) v1, versionParts (S (String.length v2)) v2 with
  | Some a, Some b => Some (compareParts a b)
  | _, _ => None
  end.

(** *** Directory listing *)

Fixpoint indexOfSlash (s : string) : option nat :=
  match s with
  | EmptyString => None
  | String c r =>
      if Ascii.eqb c "/" then Some O
      else match indexOfSlash r with Some i => Some (S i) | None => None end
  end.

Definition statOf (dir path : string) : option Stat :=
  match dropPrefix (dir +:+ "/") path with
  | None => None
  | Some rest =>
      match indexOfSlash rest with
      | Some i => Some (mkStat (String.substring 0 i rest) true)
      | None => Some (mkStat rest false)
      end
  end.

Fixpoint addStat (st : Stat) (stats : list Stat) : list Stat :=
  match stats with
  | [] => [st]
  | st' :: rest =>
      if String.eqb (stat_path st') (stat_path st) then stats else st' :: addStat st rest
  end.

Definition readDirStats (fs : Files) (dir : string) : option (list Stat) :=
  let stats :=
    fold_left
      (fun acc kv => match statOf dir (fst kv) with
                     | Some st => addStat st acc
                     | None => acc
                     end)
      (map_to_list fs) [] in
  match stats with
  | [] => None
  | _ => Some stats
  end.

(** *** A plugin folder *)

Definition nl : string := String LF "".

Definition manifestJson (id minVersion : string) : string :=
  "{" +:+ quoted "id" +:+ ":" +:+ quoted id +:+ ","
  +:+ quoted "app_min_version" +:+ ":" +:+ quoted minVersion +:+ "}".

Definition bundle (manifest code : string) : string :=
  manifestOpening +:+ nl +:+ manifest +:+ nl +:+ manifestClosing +:+ nl +:+ code.

Definition package (manifest code : string) : string :=
  "manifest.json|" +:+ manifest +:+ nl +:+ "index.js|" +:+ code.

Definition demoFiles : Files :=
  list_to_map
    [("/p/a.js", bundle (manifestJson "MyPlugin" "1.4") "a()");
     ("/p/broken.js", "console.log(1)");
     ("/p/a2.js", bundle (manifestJson "MyPlugin" "1.4") "a2()");
     ("/p/b.js", bundle (manifestJson "myplugin" "1.4") "b()");
     ("/p/_off.js", bundle (manifestJson "off" "1.4") "off()");
     ("/p/new.js", bundle (manifestJson "new" "9.0") "n()");
     ("/p/c.jpl", package (manifestJson "org.pkg" "1.4") "c()");
     ("/plugins/x.jpl", package (manifestJson "x" "1.4") "x()")].

(** The host application is at version 1.5. *)
Definition start : State := initialState "1.5" demoFiles.

Definition host : Host :=
  mkHost filename dirname rtrimSlashes uslug md5 parse stringify tarEntries
    compareVersions readDirStats (fun _ => Return tt) "/tmp" "/plugins" 3.

End Demo.

(** ** Vocabulary of the properties *)

(** The manifest object after the two defaulting steps of [loadPlugin],
    the notices they record, and the id the plugin ends up with. *)
Definition defaultedManifestObj (fallbackId : string) (o : JsObj.Props) : JsObj.Props :=
  let o1 := if JsObj.truthy (JsObj.get "app_min_version" o) then o
            else JsObj.set "app_min_version" (JsStr "1.4") o in
  if JsObj.truthy (JsObj.get "id" o) then o1 else JsObj.set "id" (JsStr fallbackId) o1.

Definition defaultingNotices (fallbackId : string) (o : JsObj.Props) : list string :=
  (if JsObj.truthy (JsObj.get "app_min_version" o) then [] else [appMinVersionNotice])
  ++ (if JsObj.truthy (JsObj.get "id" o) then [] else [idNotice fallbackId]).

Definition idAfterDefaulting (fallbackId : string) (o : JsObj.Props) : string :=
  if JsObj.truthy (JsObj.get "id" o) then JsObj.asString (JsObj.get "id" o)
  else fallbackId.

(** [wp m s Q]: running [m] from [s] ends with a result and a state that
    satisfy [Q]. *)
Definition wp {A} (m : M A) (s : State) (Q : Result A -> State -> Prop) : Prop :=
  Q (m s).1 (m s).2.

(** What loading may change: it allocates plugin instances, writes files
    and emits events; the registry, the settings objects and the plugin
    instances that exist already are left alone. *)
Record loadFrame (s s' : State) : Prop := mkLoadFrame {
  frame_appVersion_ : appVersion_ s' = appVersion_ s;
  frame_plugins_ : plugins_ s' = plugins_ s;
  frame_registries : registries s' = registries s;
  frame_settingsObjs : settingsObjs s' = settingsObjs s;
  frame_pluginObjs : forall l p, pluginObjs s !! l = Some p -> pluginObjs s' !! l = Some p;
  frame_events : exists evs, events s' = events s ++ evs;
}.

(** A loaded plugin is a new instance. *)
Definition loadPost (s : State) (r : Result loc) (s' : State) : Prop :=
  loadFrame s s'
  /\ match r with
     | Return l => pluginObjs s !! l = None /\ is_Some (pluginObjs s' !! l)
     | Throw _ => True
     end.

(** What the batch loop may change on top of loading: it registers new
    ids.  Entries, mapping objects and plugin instances that exist already
    stay as they are. *)
Record batchFrame (s s' : State) : Prop := mkBatchFrame {
  batch_appVersion_ : appVersion_ s' = appVersion_ s;
  batch_settingsObjs : settingsObjs s' = settingsObjs s;
  batch_entries : forall id l, currentPlugins s !! id = Some l -> currentPlugins s' !! id = Some l;
  batch_snapshots : forall l m, registries s !! l = Some m -> registries s' !! l = Some m;
  batch_pluginObjs : forall l p, pluginObjs s !! l = Some p -> pluginObjs s' !! l = Some p;
  batch_events : exists evs, events s' = events s ++ evs;
}.

(** Every registry entry refers to a plugin instance whose id is the key
    it is stored under. *)
Definition registryWf (s : State) : Prop :=
  forall id l, currentPlugins s !! id = Some l ->
    exists p, pluginObjs s !! l = Some p /\ plugin_id p = id.

(** The states the service can be in: it starts in an [initialState]
    and is driven through its public methods, while its environment
    changes the file system and builds settings objects. *)
Inductive reachable `{Host} : State -> Prop :=
| reachable_initial appVersion fs :
    reachable (initialState appVersion fs)
| reachable_files s fs :
    reachable s -> reachable (withFiles fs s)
| reachable_settings s objs :
    reachable s -> reachable (withSettingsObjs objs s)
| reachable_loadPluginFromPath s path :
    reachable s -> reachable (loadPluginFromPath path s).2
| reachable_loadAndRunPlugins s pluginDirOrPaths settings devMode :
    reachable s -> reachable (loadAndRunPlugins pluginDirOrPaths settings devMode s).2
| reachable_runPlugin s plugin :
    reachable s -> reachable (runPlugin plugin s).2
| reachable_installPlugin s jplPath :
    reachable s -> reachable (installPlugin jplPath s).2
| reachable_uninstallPlugin s pluginId :
    reachable s -> reachable (uninstallPlugin pluginId s).2
| reachable_uninstallPlugins s settings :
    reachable s -> reachable (uninstallPlugins settings s).2.

(** [s'] keeps what [s] had registered, and is well formed if [s] was. *)
Definition keepsRegistry (s s' : State) : Prop :=
  batchFrame s s' /\ (registryWf s -> registryWf s').

(** The canonical unpack target of a package and its manifest. *)
Definition unpackDirOf `{Host} (path : string) : string :=
  tempDir +:+ "/" +:+ filename path.

Definition manifestFilePathOf `{Host} (path : string) : string :=
  unpackDirOf path +:+ "/manifest.json".

(** What [loadManifestToObject] finds at [path]. *)
Definition manifestObjectAt `{Host} (fs : Files) (path : string) : option JsAny :=
  match fs !! path with
  | Some manifestText => JSON_parse manifestText
  | None => None
  end.

Definition isTarExtract (e : Event) : bool :=
  match e with TarExtract _ _ => true | _ => false end.

Definition isFsRemove (e : Event) : bool :=
  match e with FsRemove _ => true | _ => false end.

(** How often the archive extraction has run. *)
Definition extractions (evs : list Event) : nat :=
  length (List.filter isTarExtract evs).

(** [s'] has the files of [s], and got there without wiping or extracting. *)
Definition readsOnly (s s' : State) : Prop :=
  files s' = files s
  /\ exists evs, events s' = events s ++ evs
       /\ Forall (fun e => isTarExtract e = false /\ isFsRemove e = false) evs.

(** A previously unpacked manifest at the canonical unpack target of
    [path] carries the hash [hash]. *)
Definition cached `{Host} (fs : Files) (path hash : string) : Prop :=
  exists props,
    manifestObjectAt fs (manifestFilePathOf path) = Some (JsObject props)
    /\ JsObj.get "_package_hash" props = Some (JsStr hash).

(** The state after the wipe and the extraction of [entries]. *)
Definition unpacked `{Host} (path : string) (entries : list (string * string)) (s : State)
    : State :=
  let unpackDir := unpackDirOf path in
  withFiles (fsExtracted unpackDir entries (fsRemoved unpackDir (files s)))
    (withEvents
       (events s ++ [FsRemove unpackDir; FsMkdir unpackDir; TarExtract path unpackDir]) s).

(** The state after the stamped manifest [text] has been written back. *)
Definition stamped `{Host} (path text : string) (s : State) : State :=
  withFiles (<[manifestFilePathOf path := text]> (files s))
    (withEvents (events s ++ [FsWriteFile (manifestFilePathOf path) text]) s).

(** The JavaScript value of a settings mapping. *)
Definition settingsToJs (settings : PluginSettings) : JsAny :=
  JsObject (map (fun kv => (fst kv, settingToJs (snd kv))) settings).

(** Each stored entry merged over the default. *)
Definition mergedEntries (stored : JsObj.Props) : JsObj.Props :=
  map (fun kv => (fst kv, mergeOverDefault (Some (snd kv)))) stored.

(** The uniqueness the specification words: no two registered ids have
    the same normalized (slugified, case-insensitive) form. *)
Definition normalizedIdsUnique `{Host} (s : State) : Prop :=
  forall id1 id2,
    is_Some (currentPlugins s !! id1) -> is_Some (currentPlugins s !! id2) ->
    makePluginId id1 = makePluginId id2 -> id1 = id2.

(** States that differ only in the file system, the events and the
    settings objects. *)
Definition sameRegistry (s s' : State) : Prop :=
  plugins_ s' = plugins_ s /\ registries s' = registries s /\ pluginObjs s' = pluginObjs s.

(** The id whose removal the loop of [uninstallPlugins] ends with: the
    last of [pluginIds] that [settings] flags deleted, if any. *)
Fixpoint lastDeleted (settings : PluginSettings) (pluginIds : list string)
    (acc : option string) : option string :=
  match pluginIds with
  | [] => acc
  | pluginId :: rest =>
      lastDeleted settings rest
        (match Settings.get pluginId settings with
         | Some setting => if deleted setting then Some pluginId else acc
         | None => acc
         end)
  end.

(** ** Further methods of the service *)

(** The rest of [Plugin] that the service uses, and the order in which
    [for ... in] visits the registry. *)
Class PluginApi : Type := mkPluginApi {
  (* [plugin.contentScriptById(id)] of [Plugin] (not part of the sources
     at hand): whether what it returns is truthy *)
  contentScriptById : Plugin -> string -> bool;
  (* the own keys of a mapping object in [for ... in] order *)
  forInKeys : Plugins -> list string;
}.

(** [RepositoryApi] (not part of the sources at hand): [downloadPlugin]
    fetches a package and returns the path it saved it at. *)
Class RepositoryApi : Type := mkRepositoryApi {
  downloadPlugin : string -> M string;
}.

Section FurtherMethods.

Context `{Host} `{PluginApi} `{RepositoryApi}.

(** The loop of [pluginIdByContentScriptId]; [return pluginId] ends it. *)
Fixpoint findContentScript (contentScriptId : string) (pluginIds : list string)
    : M (option string) :=
  match pluginIds with
  | [] => ret None
  | pluginId :: rest =>
      current <- gets currentPlugins ;;
      plugin <- orThrow (current !! pluginId) TypeError ;;
      p <- readPlugin plugin ;;
      if contentScriptById p contentScriptId then ret (Some pluginId)
      else findContentScript contentScriptId rest
  end.

(** [None] is [null]. *)
Definition pluginIdByContentScriptId (contentScriptId : string) : M (option string) :=
  current <- gets currentPlugins ;;
  findContentScript contentScriptId (forInKeys current).

Definition installPluginFromRepo (pluginId : string) : M loc :=
  pluginPath <- downloadPlugin pluginId ;;
  plugin <- installPlugin pluginPath ;;
  fsRemove pluginPath ;;
  ret plugin.

End FurtherMethods.

(** ** Vocabulary of the further properties *)

(** The events that announce a plugin to the store or hand it to the runner. *)
Definition isRunEvent (e : Event) : bool :=
  match e with StoreDispatch _ | RunnerRun _ => true | _ => false end.

(** [s'] continues the trace of [s] without announcing or running a plugin. *)
Definition runsNothing (s s' : State) : Prop :=
  exists evs, events s' = events s ++ evs /\ Forall (fun e => isRunEvent e = false) evs.

(** The mapping objects and plugin instances of [s] are in [s'] as they were. *)
Definition objectsKept (s s' : State) : Prop :=
  (forall l m, registries s !! l = Some m -> registries s' !! l = Some m)
  /\ (forall l p, pluginObjs s !! l = Some p -> pluginObjs s' !! l = Some p).

(** One call of a public method of the service. *)
Inductive serviceStep `{Host} : State -> State -> Prop :=
| step_loadPluginFromJsBundle s baseDir jsBundleString pluginIdIfNotSpecified :
    serviceStep s (loadPluginFromJsBundle baseDir jsBundleString pluginIdIfNotSpecified s).2
| step_loadPluginFromPackage s baseDir path :
    serviceStep s (loadPluginFromPackage baseDir path s).2
| step_loadPluginFromPath s path :
    serviceStep s (loadPluginFromPath path s).2
| step_loadAndRunPlugins s pluginDirOrPaths settings devMode :
    serviceStep s (loadAndRunPlugins pluginDirOrPaths settings devMode s).2
| step_runPlugin s plugin :
    serviceStep s (runPlugin plugin s).2
| step_installPlugin s jplPath :
    serviceStep s (installPlugin jplPath s).2
| step_uninstallPlugin s pluginId :
    serviceStep s (uninstallPlugin pluginId s).2
| step_uninstallPlugins s settings :
    serviceStep s (uninstallPlugins settings s).2.

(** A returned plugin has an id. *)
Definition loadedWithId (r : Result loc) (s' : State) : Prop :=
  match r with
  | Return plugin => exists p, pluginObjs s' !! plugin = Some p /\ plugin_id p <> ""
  | Throw _ => True
  end.

(** Whether [settings] flags [pluginId] deleted. *)
Definition flaggedDeleted (settings : PluginSettings) (pluginId : string) : bool :=
  match Settings.get pluginId settings with
  | Some setting => deleted setting
  | None => false
  end.

(** The ids of the [PLUGIN_ADD] actions among [evs], and the plugins handed
    to the runner, both in order. *)
Definition dispatchedIds (evs : list Event) : list string :=
  omap (fun e => match e with StoreDispatch (PLUGIN_ADD id) => Some id | _ => None end) evs.

Definition runnerCalls (evs : list Event) : list loc :=
  omap (fun e => match e with RunnerRun plugin => Some plugin | _ => None end) evs.

(** The events [evs] lead from [s] to [s'] and start only plugins that
    are enabled and were registered on the way, each of them once. *)
Definition startsFresh (settings : PluginSettings) (s s' : State) (evs : list Event) : Prop :=
  events s' = events s ++ evs
  /\ NoDup (dispatchedIds evs)
  /\ (forall id, id ∈ dispatchedIds evs ->
        pluginEnabled settings id = true
        /\ currentPlugins s !! id = None
        /\ is_Some (currentPlugins s' !! id))
  /\ (forall plugin, plugin ∈ runnerCalls evs ->
        exists p, pluginObjs s' !! plugin = Some p
                  /\ currentPlugins s' !! plugin_id p = Some plugin
                  /\ plugin_id p ∈ dispatchedIds evs).

(** ** More to run the service on *)

Module Samples.

(** A plugin kept as a directory and built into [dist]; its manifest
    names no id. *)
Definition folderFiles : Files :=
  list_to_map
    [("/d/My Folder/dist/index.js", "f()");
     ("/d/My Folder/dist/manifest.json", "{}")].

Definition folderStart : State := initialState "1.5" folderFiles.


(** The plugin directory loaded, and a settings object that flags [x]
    deleted. *)
Definition flagged : PluginSettings :=
  [("x", mkPluginSetting true true); ("y", mkPluginSetting false false)].

Definition installedStart : State :=
  withSettingsObjs {[1%positive := flagged]}
    (loadAndRunPlugins (H := Demo.host) (inl "/plugins") [] false Demo.start).2.

(** Every plugin has the one content script named after it; [for ... in]
    visits the ids in the order of the map. *)
Definition api : PluginApi :=
  mkPluginApi
    (fun p contentScriptId => String.eqb contentScriptId (plugin_id p +:+ "/script"))
    (fun m => fst <$> map_to_list m).

(** A repository whose packages are in [/p] already. *)
Definition repo : RepositoryApi :=
  mkRepositoryApi (fun pluginId => ret ("/p/" +:+ pluginId +:+ ".jpl")).

End Samples.

(* ================================================================= *)
(** * Properties *)

(** ** ManifestParser *)

Lemma scanLines_inManifest (lines acc : list string) :
  scanLines StateInManifest lines acc = acc ++ beforeClosing (map trim lines).
Proof.
  revert acc. induction lines as [|l lines IH]; intros acc; simpl.
  - by rewrite app_nil_r.
  - destruct (startsWith (trim l) manifestClosing).
    + by rewrite app_nil_r.
    + by rewrite IH, <- app_assoc.
Qed.

Lemma scanLines_started (lines acc : list string) :
  scanLines StateStarted lines acc
  = acc ++ match afterOpening (map trim lines) with
           | None => []
           | Some rest => beforeClosing rest
           end.
Proof.
  induction lines as [|l lines IH]; simpl.
  - by rewrite app_nil_r.
  - destruct (String.eqb (trim l) manifestOpening).
    + apply scanLines_inManifest.
    + apply IH.
Qed.

Lemma parsePluginJsBundle_manifestBlock (scriptText : string) :
  parsePluginJsBundle scriptText
  = match manifestBlock scriptText with
    | [] => Throw ManifestNotFound
    | block => Return (mkParsedBundle scriptText (joinLines block))
    end.
Proof.
  unfold parsePluginJsBundle, manifestBlock.
  rewrite scanLines_started. cbn [app].
  by destruct (afterOpening _) as [rest|]; [destruct (beforeClosing rest)|].
Qed.

Lemma afterOpening_first (pre rest : list string) :
  Forall (fun l => l <> manifestOpening) pre ->
  afterOpening (pre ++ manifestOpening :: rest) = Some rest.
Proof.
  induction 1 as [|l pre Hl _ IH]; cbn [afterOpening app].
  - by rewrite String.eqb_refl.
  - apply String.eqb_neq in Hl. by rewrite Hl.
Qed.

Lemma afterOpening_none (lines : list string) :
  Forall (fun l => l <> manifestOpening) lines -> afterOpening lines = None.
Proof.
  induction 1 as [|l pre Hl _ IH]; cbn [afterOpening]; [done|].
  apply String.eqb_neq in Hl. by rewrite Hl.
Qed.

Lemma beforeClosing_first (mid post : list string) (close : string) :
  Forall (fun l => startsWith l manifestClosing = false) mid ->
  startsWith close manifestClosing = true ->
  beforeClosing (mid ++ close :: post) = mid.
Proof.
  intros Hmid Hclose. induction Hmid as [|l mid Hl _ IH]; cbn [beforeClosing app].
  - by rewrite Hclose.
  - by rewrite Hl, IH.
Qed.

Lemma beforeClosing_all (mid : list string) :
  Forall (fun l => startsWith l manifestClosing = false) mid ->
  beforeClosing mid = mid.
Proof.
  induction 1 as [|l mid Hl _ IH]; cbn [beforeClosing]; [done|]. by rewrite Hl, IH.
Qed.

(** C6. For every script text, [parsePluginJsBundle] returns the script
    text unchanged together with the trimmed lines strictly between the
    first line equal (after trimming) to the opening sentinel and the first
    later line starting with the closing sentinel, joined with newlines; it
    fails with [ManifestNotFound] when there is no opening sentinel line and
    when no line was accumulated. *)
Theorem parsePluginJsBundle_contract (scriptText : string) :
  (parsePluginJsBundle scriptText
   = match manifestBlock scriptText with
     | [] => Throw ManifestNotFound
     | block => Return (mkParsedBundle scriptText (joinLines block))
     end)
  /\ (forall pre mid close post,
        map trim (splitLines scriptText) = pre ++ manifestOpening :: mid ++ close :: post ->
        Forall (fun l => l <> manifestOpening) pre ->
        Forall (fun l => startsWith l manifestClosing = false) mid ->
        startsWith close manifestClosing = true ->
        mid <> [] ->
        parsePluginJsBundle scriptText
        = Return (mkParsedBundle scriptText (joinLines mid)))
  /\ (Forall (fun l => l <> manifestOpening) (map trim (splitLines scriptText)) ->
      parsePluginJsBundle scriptText = Throw ManifestNotFound)
  /\ (forall pre rest,
        map trim (splitLines scriptText) = pre ++ manifestOpening :: rest ->
        Forall (fun l => l <> manifestOpening) pre ->
        rest = [] \/ (exists close post,
                       rest = close :: post /\ startsWith close manifestClosing = true) ->
        parsePluginJsBundle scriptText = Throw ManifestNotFound).
Proof.
  split; [apply parsePluginJsBundle_manifestBlock|].
  rewrite parsePluginJsBundle_manifestBlock. unfold manifestBlock.
  split; [|split].
  - intros pre mid close post -> Hpre Hmid Hclose Hne.
    rewrite afterOpening_first, beforeClosing_first by done.
    by destruct mid.
  - intros Hnone. by rewrite afterOpening_none.
  - intros pre rest -> Hpre [->|(close & post & -> & Hclose)];
      rewrite afterOpening_first by done; cbn [beforeClosing]; [done|].
    by rewrite Hclose.
Qed.

(** ** PluginRegistry: copy on replace *)

Lemma fresh_registry_ne (s : State) (l : loc) :
  is_Some (registries s !! l) -> fresh (dom (registries s)) <> l.
Proof.
  intros Hl Heq. apply elem_of_dom in Hl. rewrite <- Heq in Hl.
  by apply is_fresh in Hl.
Qed.



Lemma currentPlugins_withFiles (fs : Files) s :
  currentPlugins (withFiles fs s) = currentPlugins s.
Proof. reflexivity. Qed.

Lemma setPluginAt_state (pluginId : string) (plugin : loc) (s : State) :
  setPluginAt pluginId plugin s
  = (Return tt,
     withPlugins_ (fresh (dom (registries s)))
       (withRegistries
          (<[fresh (dom (registries s)) := <[pluginId := plugin]> (currentPlugins s)]>
             (registries s)) s)).
Proof. reflexivity. Qed.

Lemma setPluginAt_current (pluginId : string) (plugin : loc) (s : State) :
  currentPlugins (setPluginAt pluginId plugin s).2 = <[pluginId := plugin]> (currentPlugins s).
Proof.
  rewrite setPluginAt_state. unfold currentPlugins at 1. simpl.
  by rewrite lookup_insert_eq.
Qed.

Lemma setPluginAt_snapshot (pluginId : string) (plugin : loc) (s : State) (l : loc) :
  is_Some (registries s !! l) ->
  registries (setPluginAt pluginId plugin s).2 !! l = registries s !! l.
Proof.
  intros Hl. rewrite setPluginAt_state. simpl.
  apply lookup_insert_ne. by apply fresh_registry_ne.
Qed.

Lemma deletePluginAt_absent (pluginId : string) (s : State) :
  currentPlugins s !! pluginId = None ->
  deletePluginAt pluginId s = (Return tt, s).
Proof.
  intros Hnone. unfold deletePluginAt, bind, gets. by rewrite Hnone.
Qed.

Lemma deletePluginAt_present (pluginId : string) (s : State) :
  is_Some (currentPlugins s !! pluginId) ->
  deletePluginAt pluginId s
  = (Return tt,
     withPlugins_ (fresh (dom (registries s)))
       (withRegistries
          (<[fresh (dom (registries s)) := delete pluginId (currentPlugins s)]>
             (registries s)) s)).
Proof.
  intros [l Hl]. unfold deletePluginAt, bind, gets, modify. rewrite Hl. simpl.
  unfold withRegistries, withPlugins_. simpl.
  f_equal. f_equal. apply map_eq. intros l'.
  rewrite lookup_alter.
  destruct (decide (fresh (dom (registries s)) = l')) as [->|Hne].
  - by rewrite !lookup_insert_eq.
  - by rewrite !lookup_insert_ne.
Qed.

Lemma deletePluginAt_current (pluginId : string) (s : State) :
  currentPlugins (deletePluginAt pluginId s).2 = delete pluginId (currentPlugins s).
Proof.
  destruct (currentPlugins s !! pluginId) as [l|] eqn:Hl.
  - rewrite deletePluginAt_present by eauto.
    unfold currentPlugins at 1. simpl. by rewrite lookup_insert_eq.
  - rewrite deletePluginAt_absent by done. simpl.
    symmetry. by apply delete_id.
Qed.

Lemma deletePluginAt_snapshot (pluginId : string) (s : State) (l : loc) :
  is_Some (registries s !! l) ->
  registries (deletePluginAt pluginId s).2 !! l = registries s !! l.
Proof.
  intros Hl. destruct (currentPlugins s !! pluginId) as [l'|] eqn:Hcur.
  - rewrite deletePluginAt_present by eauto. simpl.
    apply lookup_insert_ne. by apply fresh_registry_ne.
  - by rewrite deletePluginAt_absent.
Qed.

(** C3. Every registry mutation ([setPluginAt], and [deletePluginAt] of a
    registered id) makes [this.plugins_] point to a new mapping object, and
    a reference to the mapping obtained before the mutation has exactly the
    same contents after it. *)
Theorem registry_snapshot_isolation (s : State) (snapshot : loc) (contents : Plugins) :
  registries s !! snapshot = Some contents ->
  (forall pluginId plugin,
      let s' := (setPluginAt pluginId plugin s).2 in
      registries s' !! snapshot = Some contents
      /\ plugins_ s' <> snapshot
      /\ currentPlugins s' = <[pluginId := plugin]> (currentPlugins s))
  /\ (forall pluginId,
      let s' := (deletePluginAt pluginId s).2 in
      registries s' !! snapshot = Some contents
      /\ (is_Some (currentPlugins s !! pluginId) -> plugins_ s' <> snapshot)
      /\ currentPlugins s' = delete pluginId (currentPlugins s)).
Proof.
  intros Hsnap. split.
  - intros pluginId plugin s'. subst s'. split; [|split].
    + rewrite setPluginAt_snapshot; eauto.
    + rewrite setPluginAt_state. simpl. apply fresh_registry_ne; eauto.
    + apply setPluginAt_current.
  - intros pluginId s'. subst s'. split; [|split].
    + rewrite deletePluginAt_snapshot; eauto.
    + intros Hin. rewrite deletePluginAt_present by done. simpl.
      apply fresh_registry_ne; eauto.
    + apply deletePluginAt_current.
Qed.

(** ** Objects as property lists *)

Lemma JsObj_get_set_eq (k : string) (v : JsAny) (o : JsObj.Props) :
  JsObj.get k (JsObj.set k v o) = Some v.
Proof.
  induction o as [|[k' v'] o IH]; simpl.
  - by rewrite String.eqb_refl.
  - destruct (String.eqb k' k) eqn:Hk; simpl; by rewrite Hk.
Qed.

Lemma JsObj_get_set_ne (k k0 : string) (v : JsAny) (o : JsObj.Props) :
  k0 <> k -> JsObj.get k (JsObj.set k0 v o) = JsObj.get k o.
Proof.
  intros Hne. induction o as [|[k' v'] o IH]; simpl.
  - apply String.eqb_neq in Hne. by rewrite Hne.
  - destruct (String.eqb k' k0) eqn:Hk0; simpl.
    + apply String.eqb_eq in Hk0. subst k'.
      apply String.eqb_neq in Hne. by rewrite Hne.
    + by rewrite IH.
Qed.

(** ** LifecycleOrchestrator: [loadPlugin] *)

Section LoadPlugin.

Context `{Host}.

Lemma idAfterDefaulting_get (fallbackId : string) (o : JsObj.Props) :
  JsObj.asString (JsObj.get "id" (defaultedManifestObj fallbackId o))
  = idAfterDefaulting fallbackId o.
Proof.
  unfold defaultedManifestObj, idAfterDefaulting.
  destruct (JsObj.truthy (JsObj.get "id" o)).
  - destruct (JsObj.truthy (JsObj.get "app_min_version" o)); [done|].
    by rewrite JsObj_get_set_ne.
  - by rewrite JsObj_get_set_eq.
Qed.

(** What [loadPlugin] does once the manifest text has decoded to an object. *)
Lemma loadPlugin_decoded (baseDir manifestText scriptText fallbackId : string)
    (o : JsObj.Props) (s : State) :
  JSON_parse manifestText = Some (JsObject o) ->
  loadPlugin baseDir manifestText scriptText fallbackId s
  = let plugin := fresh (dom (pluginObjs s)) in
    let p := mkPlugin (rtrimSlashes baseDir)
               (manifestFromObject (defaultedManifestObj fallbackId o)) scriptText false
               (map (pair "1.5") (defaultingNotices fallbackId o)) in
    (if isEmpty (idAfterDefaulting fallbackId o) then Throw MissingPluginId
     else Return plugin,
     withPluginObjs (<[plugin := p]> (pluginObjs s)) s).
Proof.
  intros Hparse. cbv zeta.
  rewrite <- idAfterDefaulting_get.
  unfold loadPlugin, bind, orThrow. rewrite Hparse. unfold ret at 1.
  unfold defaultedManifestObj, defaultingNotices.
  destruct (JsObj.truthy (JsObj.get "app_min_version" o)) eqn:Hmin; cbn [negb];
    [|rewrite JsObj_get_set_ne by done];
    destruct (JsObj.truthy (JsObj.get "id" o)) eqn:Hid; cbn [negb app map forEach];
    unfold allocPlugin, bind, modifyPlugin, modify, ret, readPlugin, throw; cbn;
    rewrite ?alter_insert_eq, ?lookup_insert_eq; cbn;
    unfold plugin_id; cbn;
    by destruct (isEmpty _).
Qed.

Lemma isEmpty_true (x : string) : isEmpty x = true <-> x = "".
Proof. destruct x; simpl; split; congruence. Qed.

Lemma idNotice_ne_appMinVersionNotice (id : string) :
  idNotice id <> appMinVersionNotice.
Proof. unfold idNotice, appMinVersionNotice. cbn. discriminate. Qed.

Lemma defaulted_app_min_version (fallbackId : string) (o : JsObj.Props) :
  JsObj.truthy (JsObj.get "app_min_version" o) = false ->
  manifest_app_min_version (manifestFromObject (defaultedManifestObj fallbackId o)) = "1.4".
Proof.
  intros Hmin. unfold manifestFromObject, defaultedManifestObj. cbn [manifest_app_min_version].
  rewrite Hmin. destruct (JsObj.truthy (JsObj.get "id" o)).
  - by rewrite JsObj_get_set_eq.
  - rewrite JsObj_get_set_ne by done. by rewrite JsObj_get_set_eq.
Qed.

(** C7. For a manifest text that decodes to an object: when
    [app_min_version] is lacking, the loaded plugin's manifest has
    [app_min_version] "1.4" and exactly one of its deprecation notices is
    the one about that default; when [id] is lacking the fallback id is
    substituted and a deprecation notice records it; and [loadPlugin]
    fails with [MissingPluginId] exactly when the id is still empty after
    the defaulting (otherwise it returns the plugin). *)
Theorem loadPlugin_defaulting (baseDir manifestText scriptText fallbackId : string)
    (o : JsObj.Props) (s : State) :
  JSON_parse manifestText = Some (JsObject o) ->
  let r := loadPlugin baseDir manifestText scriptText fallbackId s in
  (r.1 = Throw MissingPluginId <-> idAfterDefaulting fallbackId o = "")
  /\ (idAfterDefaulting fallbackId o <> "" ->
      exists plugin p,
        r.1 = Return plugin
        /\ pluginObjs r.2 !! plugin = Some p
        /\ plugin_id p = idAfterDefaulting fallbackId o
        /\ (JsObj.truthy (JsObj.get "app_min_version" o) = false ->
            manifest_app_min_version (plugin_manifest p) = "1.4"
            /\ length (filter (fun n => n = ("1.5", appMinVersionNotice))
                         (plugin_deprecationNotices p)) = 1%nat
            /\ (JsObj.truthy (JsObj.get "id" o) = true ->
                plugin_deprecationNotices p = [("1.5", appMinVersionNotice)]))
        /\ (JsObj.truthy (JsObj.get "id" o) = false ->
            plugin_id p = fallbackId
            /\ ("1.5", idNotice fallbackId) ∈ plugin_deprecationNotices p)).
Proof.
  intros Hparse r. subst r.
  rewrite (loadPlugin_decoded _ _ _ _ _ _ Hparse). cbv zeta. cbn [fst snd].
  split.
  - destruct (isEmpty (idAfterDefaulting fallbackId o)) eqn:He.
    + apply isEmpty_true in He. by split.
    + split; [done|]. intros Hid. apply isEmpty_true in Hid. congruence.
  - intros Hne. eexists _, _.
    split.
    { destruct (isEmpty (idAfterDefaulting fallbackId o)) eqn:He; [|done].
      by apply isEmpty_true in He. }
    split; [apply lookup_insert_eq|].
    split.
    { unfold plugin_id. cbn [plugin_manifest manifestFromObject manifest_id].
      apply idAfterDefaulting_get. }
    cbn [plugin_manifest plugin_deprecationNotices]. split.
    + intros Hmin. split; [by apply defaulted_app_min_version|].
      unfold defaultingNotices. rewrite Hmin.
      destruct (JsObj.truthy (JsObj.get "id" o)); cbn [app map].
      * rewrite filter_cons_True by done. by split.
      * rewrite filter_cons_True by done.
        rewrite filter_cons_False; [by split|].
        intros Heq. apply (idNotice_ne_appMinVersionNotice fallbackId). congruence.
    + intros Hid. split.
      * unfold plugin_id. cbn [plugin_manifest manifestFromObject manifest_id].
        rewrite idAfterDefaulting_get. unfold idAfterDefaulting. by rewrite Hid.
      * unfold defaultingNotices. rewrite Hid.
        rewrite map_app. cbn [map]. set_solver.
Qed.

End LoadPlugin.

(** ** LifecycleOrchestrator: [runPlugin] *)

Section RunPlugin.

Context `{Host}.

Lemma pluginById_registered (id : string) (plugin : loc) (s : State) :
  currentPlugins s !! id = Some plugin ->
  pluginById id s = (Return plugin, s).
Proof.
  intros Hreg. unfold pluginById, bind, gets, orThrow. by rewrite Hreg.
Qed.

Lemma runPlugin_too_old (plugin : loc) (p : Plugin) (c : Z) (s : State) :
  pluginObjs s !! plugin = Some p ->
  compareVersions (appVersion_ s) (manifest_app_min_version (plugin_manifest p)) = Some c ->
  (c < 0)%Z ->
  runPlugin plugin s = (Throw (VersionTooOld (plugin_id p)), s).
Proof.
  intros Hp Hc Hlt. unfold runPlugin, bind, readPlugin, gets, orThrow.
  rewrite Hp, Hc. unfold ret.
  apply Z.ltb_lt in Hlt. by rewrite Hlt.
Qed.

Lemma runPlugin_compatible (plugin : loc) (p : Plugin) (c : Z) (s : State) :
  pluginObjs s !! plugin = Some p ->
  compareVersions (appVersion_ s) (manifest_app_min_version (plugin_manifest p)) = Some c ->
  (0 <= c)%Z ->
  runPlugin plugin s
  = (runnerRun p,
     withEvents (events s ++ [StoreDispatch (PLUGIN_ADD (plugin_id p)); RunnerRun plugin]) s).
Proof.
  intros Hp Hc Hge. unfold runPlugin, bind, readPlugin, gets, orThrow.
  rewrite Hp, Hc. unfold ret.
  apply Z.ltb_ge in Hge. rewrite Hge.
  unfold emit, modify, liftResult. cbn.
  by rewrite <- app_assoc.
Qed.

(** C8. For a registered plugin whose [app_min_version] exceeds the host
    version, [runPlugin] fails with [VersionTooOld], dispatches nothing to
    the store and does not call the runner, and the plugin is still
    retrievable by id; when the host version is at least
    [app_min_version], [runPlugin] dispatches the registration event and
    then delegates to the runner. *)
Theorem runPlugin_version_gate (id : string) (plugin : loc) (p : Plugin) (c : Z) (s : State) :
  currentPlugins s !! id = Some plugin ->
  pluginObjs s !! plugin = Some p ->
  compareVersions (appVersion_ s) (manifest_app_min_version (plugin_manifest p)) = Some c ->
  let r := runPlugin plugin s in
  ((c < 0)%Z ->
     r.1 = Throw (VersionTooOld (plugin_id p))
     /\ r.2 = s
     /\ events r.2 = events s
     /\ currentPlugins r.2 !! id = Some plugin
     /\ pluginById id r.2 = (Return plugin, r.2))
  /\ ((0 <= c)%Z ->
     r.1 = runnerRun p
     /\ events r.2
        = events s ++ [StoreDispatch (PLUGIN_ADD (plugin_id p)); RunnerRun plugin]
     /\ pluginById id r.2 = (Return plugin, r.2)).
Proof.
  intros Hreg Hp Hc r. subst r. split.
  - intros Hlt. rewrite (runPlugin_too_old _ _ _ _ Hp Hc Hlt). cbn [fst snd].
    repeat split; auto using pluginById_registered.
  - intros Hge. rewrite (runPlugin_compatible _ _ _ _ Hp Hc Hge). cbn [fst snd].
    split; [done|]. split; [done|].
    by apply pluginById_registered.
Qed.

End RunPlugin.

(** ** Reasoning about the service monad *)

Section Wp.

Context {A B : Type}.

Lemma wp_ret (a : A) s Q : Q (Return a) s -> wp (ret a) s Q.
Proof. done. Qed.

Lemma wp_throw (e : Error) s (Q : Result A -> State -> Prop) :
  Q (Throw e) s -> wp (throw e) s Q.
Proof. done. Qed.

Lemma wp_bind (m : M A) (k : A -> M B) s Q :
  wp m s (fun r s' => match r with
                      | Return a => wp (k a) s' Q
                      | Throw e => Q (Throw e) s'
                      end) ->
  wp (bind m k) s Q.
Proof. unfold wp, bind. by destruct (m s) as [[a|e] s']. Qed.

Lemma wp_tryCatch (body : M A) (handler : Error -> M A) s Q :
  wp body s (fun r s' => match r with
                         | Return a => Q (Return a) s'
                         | Throw e => wp (handler e) s' Q
                         end) ->
  wp (tryCatch body handler) s Q.
Proof. unfold wp, tryCatch. by destruct (body s) as [[a|e] s']. Qed.

Lemma wp_gets (f : State -> A) s Q : Q (Return (f s)) s -> wp (gets f) s Q.
Proof. done. Qed.

Lemma wp_orThrow (o : option A) (e : Error) s Q :
  match o with Some a => Q (Return a) s | None => Q (Throw e) s end ->
  wp (orThrow o e) s Q.
Proof. by destruct o. Qed.

Lemma wp_liftResult (r : Result A) s Q : Q r s -> wp (liftResult r) s Q.
Proof. done. Qed.

Lemma wp_mono (m : M A) s (Q Q' : Result A -> State -> Prop) :
  wp m s Q -> (forall r s', Q r s' -> Q' r s') -> wp m s Q'.
Proof. unfold wp. auto. Qed.

End Wp.

Lemma wp_modify (f : State -> State) s Q : Q (Return tt) (f s) -> wp (modify f) s Q.
Proof. done. Qed.

Lemma wp_forEach {A} (I : State -> Prop) (xs : list A) (body : A -> M unit) s Q :
  I s ->
  (forall x s, I s ->
     wp (body x) s (fun r s' => match r with
                                | Return _ => I s'
                                | Throw e => Q (Throw e) s'
                                end)) ->
  (forall s, I s -> Q (Return tt) s) ->
  wp (forEach xs body) s Q.
Proof.
  intros HI Hbody Hend. revert s HI.
  induction xs as [|x xs IH]; intros s HI; cbn [forEach].
  - apply wp_ret. auto.
  - apply wp_bind. eapply wp_mono; [by apply Hbody|].
    intros [[]|e] s' Hr; auto.
Qed.

Ltac wp_step :=
  cbv zeta;
  lazymatch goal with
  | |- wp (bind _ _) _ _ => apply wp_bind
  | |- wp (ret _) _ _ => apply wp_ret
  | |- wp (throw _) _ _ => apply wp_throw
  | |- wp (gets _) _ _ => apply wp_gets
  | |- wp (modify _) _ _ => apply wp_modify
  | |- wp (orThrow ?o _) _ _ => apply wp_orThrow; destruct o eqn:?
  | |- wp (liftResult _) _ _ => apply wp_liftResult
  | |- wp (tryCatch _ _) _ _ => apply wp_tryCatch
  | |- wp (emit _) _ _ => unfold emit
  | |- wp (logger _) _ _ => unfold logger
  | |- wp (fsReadFile _) _ _ => unfold fsReadFile
  | |- wp (fsExists _) _ _ => unfold fsExists
  | |- wp (fsRemove _) _ _ => unfold fsRemove
  | |- wp (fsMkdir _) _ _ => unfold fsMkdir
  | |- wp (fsWriteFile _ _) _ _ => unfold fsWriteFile
  | |- wp (fsCopy _ _) _ _ => unfold fsCopy
  | |- wp (if ?b then _ else _) _ _ => destruct b eqn:?
  | |- wp (match ?x with _ => _ end) _ _ => destruct x eqn:?
  end.

(** ** Loading leaves the registry alone *)

Lemma loadFrame_refl s : loadFrame s s.
Proof. split; auto. exists []. by rewrite app_nil_r. Qed.

Lemma loadFrame_trans s1 s2 s3 : loadFrame s1 s2 -> loadFrame s2 s3 -> loadFrame s1 s3.
Proof.
  intros [? ? ? ? Ho1 [e1 He1]] [? ? ? ? Ho2 [e2 He2]].
  split; try congruence; auto.
  exists (e1 ++ e2). by rewrite He2, He1, app_assoc.
Qed.

Lemma loadFrame_events s evs : loadFrame s (withEvents (events s ++ evs) s).
Proof. split; auto. by exists evs. Qed.

Lemma loadFrame_files s fs : loadFrame s (withFiles fs s).
Proof. split; auto. exists []. by rewrite app_nil_r. Qed.

Lemma loadFrame_current s s' : loadFrame s s' -> currentPlugins s' = currentPlugins s.
Proof. intros [? Hp Hr ? ? ?]. unfold currentPlugins. by rewrite Hp, Hr. Qed.

Lemma loadPost_frame s s' s'' (r : Result loc) :
  loadFrame s s' -> loadPost s' r s'' -> loadPost s r s''.
Proof.
  intros Hf [Hf' Hr]. split; [by eapply loadFrame_trans|].
  destruct r as [l|e]; [|done]. destruct Hr as [Hnone Hsome]. split; [|done].
  destruct (pluginObjs s !! l) as [p|] eqn:Hl; [|done].
  apply (frame_pluginObjs _ _ Hf) in Hl. congruence.
Qed.

Lemma loadPost_throw s s' e : loadFrame s s' -> loadPost s (Throw e) s'.
Proof. by split. Qed.

Ltac frame_solve :=
  repeat first
    [ assumption
    | apply loadFrame_refl
    | (eapply loadFrame_trans; [|apply loadFrame_files])
    | (eapply loadFrame_trans; [|apply loadFrame_events])
    | (eapply loadFrame_trans; [|eassumption]) ].

Ltac wp_load_step :=
  first
    [ wp_step
    | lazymatch goal with
      | |- wp (loadManifestToObject _) _ _ => unfold loadManifestToObject
      | |- wp (md5File _) _ _ => unfold md5File
      | |- wp (tarExtract _ _) _ _ => unfold tarExtract
      end ];
  cbv beta iota.

Section LoadFrame.

Context `{Host}.

Lemma loadPlugin_post (baseDir manifestText scriptText fallbackId : string) s0 s :
  loadFrame s0 s ->
  wp (loadPlugin baseDir manifestText scriptText fallbackId) s (loadPost s0).
Proof.
  intros Hf. unfold wp. eapply loadPost_frame; [done|].
  destruct (JSON_parse manifestText) as [parsed|] eqn:Hparse.
  - destruct parsed as [| | | |o];
      try (unfold loadPlugin, bind, orThrow; rewrite Hparse; cbn;
           apply loadPost_throw, loadFrame_refl).
    rewrite (loadPlugin_decoded _ _ _ _ _ _ Hparse). cbv zeta. cbn [fst snd].
    assert (Hfresh : pluginObjs s !! fresh (dom (pluginObjs s)) = None).
    { apply not_elem_of_dom, is_fresh. }
    split.
    + split; auto.
      * intros l p Hl. cbn. rewrite lookup_insert_ne; [done|]. congruence.
      * exists []. by rewrite app_nil_r.
    + destruct (isEmpty _); [done|]. split; [done|].
      cbn. rewrite lookup_insert_eq. eauto.
  - unfold loadPlugin, bind, orThrow. rewrite Hparse. cbn.
    apply loadPost_throw, loadFrame_refl.
Qed.

Lemma loadPluginFromJsBundle_post (baseDir jsBundleString fallbackId : string) s0 s :
  loadFrame s0 s ->
  wp (loadPluginFromJsBundle baseDir jsBundleString fallbackId) s (loadPost s0).
Proof.
  intros Hf. unfold loadPluginFromJsBundle.
  repeat wp_load_step.
  destruct (parsePluginJsBundle jsBundleString) as [r|e].
  - by apply loadPlugin_post.
  - by apply loadPost_throw.
Qed.

Lemma loadPluginFromPackageWith_post (load : string -> M loc) (baseDir path : string) s0 s :
  (forall path s, loadFrame s0 s -> wp (load path) s (loadPost s0)) ->
  loadFrame s0 s ->
  wp (loadPluginFromPackageWith load baseDir path) s (loadPost s0).
Proof.
  intros Hload Hf. unfold loadPluginFromPackageWith.
  repeat wp_load_step;
    try (apply loadPost_throw; frame_solve);
    try (apply Hload; frame_solve).
Qed.

Lemma loadPluginFromPathN_post (n : nat) (path : string) s0 s :
  loadFrame s0 s ->
  wp (loadPluginFromPathN n path) s (loadPost s0).
Proof.
  revert path s. induction n as [|n IH]; intros path s Hf; cbn [loadPluginFromPathN].
  - apply wp_throw. by apply loadPost_throw.
  - cbv zeta.
    destruct (endsWith (toLowerCase (rtrimSlashes path)) ".js").
    { repeat wp_load_step;
        [by apply loadPluginFromJsBundle_post | by apply loadPost_throw]. }
    destruct (endsWith (toLowerCase (rtrimSlashes path)) ".jpl").
    { by apply loadPluginFromPackageWith_post. }
    repeat wp_load_step;
      try (apply loadPost_throw; frame_solve);
      try (apply loadPlugin_post; frame_solve).
Qed.

Lemma loadPluginFromPath_post (path : string) s :
  wp (loadPluginFromPath path) s (loadPost s).
Proof. apply loadPluginFromPathN_post, loadFrame_refl. Qed.

End LoadFrame.

(** ** LifecycleOrchestrator: the batch discovery loop *)

Section Batch.

Context `{Host}.

Variables (settings : PluginSettings) (devMode : bool).

Lemma loadAndRunCandidate_underscore (pluginPath : string) s :
  startsWith (filename pluginPath) "_" = true ->
  loadAndRunCandidate settings devMode pluginPath s
  = (Return tt, withEvents (events s ++ [Log (NameStartsWithUnderscore pluginPath)]) s).
Proof. intros Hu. unfold loadAndRunCandidate. by rewrite Hu. Qed.

Lemma loadAndRunCandidate_returns (pluginPath : string) s :
  (loadAndRunCandidate settings devMode pluginPath s).1 = Return tt.
Proof.
  unfold loadAndRunCandidate. destruct (startsWith _ _); [done|].
  unfold tryCatch. by destruct (bind _ _ s) as [[[]|e] s'].
Qed.

Lemma loadAndRunCandidate_load_fails (pluginPath : string) (e : Error) s s' :
  startsWith (filename pluginPath) "_" = false ->
  loadPluginFromPath pluginPath s = (Throw e, s') ->
  loadAndRunCandidate settings devMode pluginPath s
  = (Return tt, withEvents (events s' ++ [Log (CouldNotLoadPlugin pluginPath e)]) s').
Proof.
  intros Hu Hload. unfold loadAndRunCandidate. rewrite Hu.
  unfold tryCatch, bind at 1. by rewrite Hload.
Qed.

Lemma loadAndRunCandidate_duplicate (pluginPath : string) (plugin : loc) (p : Plugin) s s' :
  startsWith (filename pluginPath) "_" = false ->
  loadPluginFromPath pluginPath s = (Return plugin, s') ->
  pluginObjs s' !! plugin = Some p ->
  is_Some (currentPlugins s' !! plugin_id p) ->
  loadAndRunCandidate settings devMode pluginPath s
  = (Return tt,
     withEvents (events s' ++ [Log (CouldNotLoadPlugin pluginPath (DuplicateId (plugin_id p)))]) s').
Proof.
  intros Hu Hload Hp Hdup. unfold loadAndRunCandidate. rewrite Hu.
  unfold tryCatch, bind at 1. rewrite Hload.
  unfold bind, readPlugin, gets. rewrite Hp.
  by rewrite bool_decide_eq_true_2.
Qed.

Lemma loadAndRunCandidate_disabled (pluginPath : string) (plugin : loc) (p : Plugin) s s' :
  startsWith (filename pluginPath) "_" = false ->
  loadPluginFromPath pluginPath s = (Return plugin, s') ->
  pluginObjs s' !! plugin = Some p ->
  currentPlugins s' !! plugin_id p = None ->
  pluginEnabled settings (plugin_id p) = false ->
  loadAndRunCandidate settings devMode pluginPath s
  = (Return tt,
     let s'' := (setPluginAt (plugin_id p) plugin s').2 in
     withEvents (events s'' ++ [Log (NotRunningDisabledPlugin (plugin_id p))]) s'').
Proof.
  intros Hu Hload Hp Hfree Hoff. unfold loadAndRunCandidate. rewrite Hu.
  unfold tryCatch, bind at 1. rewrite Hload.
  unfold bind, readPlugin, gets. rewrite Hp.
  rewrite bool_decide_eq_false_2 by (rewrite Hfree; by intros [? ?]).
  unfold ret. rewrite setPluginAt_state. by rewrite Hoff.
Qed.

Lemma loadAndRunCandidate_enabled (pluginPath : string) (plugin : loc) (p : Plugin) s s' :
  startsWith (filename pluginPath) "_" = false ->
  loadPluginFromPath pluginPath s = (Return plugin, s') ->
  pluginObjs s' !! plugin = Some p ->
  currentPlugins s' !! plugin_id p = None ->
  pluginEnabled settings (plugin_id p) = true ->
  loadAndRunCandidate settings devMode pluginPath s
  = (Return tt,
     let s'' := (setPluginAt (plugin_id p) plugin s').2 in
     (tryCatch (runPlugin plugin)
        (fun error => logger (CouldNotLoadPlugin pluginPath error))
        (withPluginObjs (alter (setDevMode devMode) plugin (pluginObjs s'')) s'')).2).
Proof.
  intros Hu Hload Hp Hfree Hon. unfold loadAndRunCandidate. rewrite Hu.
  unfold tryCatch at 1, bind at 1. rewrite Hload.
  unfold bind at 1, readPlugin at 1. rewrite Hp.
  unfold bind at 1, gets.
  rewrite bool_decide_eq_false_2 by (rewrite Hfree; by intros [? ?]).
  unfold bind at 1, ret. unfold bind at 1. rewrite setPluginAt_state. rewrite Hon.
  cbn [negb]. unfold bind at 1, modifyPlugin, modify. cbv zeta.
  unfold tryCatch.
  by destruct (runPlugin plugin _) as [[[]|e] s3].
Qed.

End Batch.

(** ** What the batch loop preserves *)

Lemma batchFrame_refl s : batchFrame s s.
Proof. split; auto. exists []. by rewrite app_nil_r. Qed.

Lemma batchFrame_trans s1 s2 s3 : batchFrame s1 s2 -> batchFrame s2 s3 -> batchFrame s1 s3.
Proof.
  intros [? ? ? ? ? [e1 He1]] [? ? ? ? ? [e2 He2]].
  split; try congruence; auto.
  exists (e1 ++ e2). by rewrite He2, He1, app_assoc.
Qed.

Lemma loadFrame_batchFrame s s' : loadFrame s s' -> batchFrame s s'.
Proof.
  intros Hf. pose proof (loadFrame_current _ _ Hf) as Hcur.
  destruct Hf as [? ? Hr ? ? ?]. split; auto.
  - intros id l. by rewrite Hcur.
  - intros l m. by rewrite Hr.
Qed.

Lemma batchFrame_events s evs : batchFrame s (withEvents (events s ++ evs) s).
Proof. apply loadFrame_batchFrame, loadFrame_events. Qed.

Lemma batchFrame_setPluginAt (id : string) (plugin : loc) s :
  currentPlugins s !! id = None ->
  batchFrame s (setPluginAt id plugin s).2.
Proof.
  intros Hfree. split.
  - by rewrite setPluginAt_state.
  - by rewrite setPluginAt_state.
  - intros id' l Hl. rewrite setPluginAt_current.
    rewrite lookup_insert_ne; [done|]. congruence.
  - intros l m Hl. rewrite setPluginAt_snapshot; eauto.
  - by rewrite setPluginAt_state.
  - exists []. rewrite setPluginAt_state. cbn. by rewrite app_nil_r.
Qed.

Lemma batchFrame_alter (f : Plugin -> Plugin) (plugin : loc) s0 s :
  batchFrame s0 s ->
  pluginObjs s0 !! plugin = None ->
  batchFrame s0 (withPluginObjs (alter f plugin (pluginObjs s)) s).
Proof.
  intros [? ? ? ? Hobjs ?] Hnew. split; auto.
  intros l p Hl. cbn. rewrite lookup_alter_ne; [auto|]. congruence.
Qed.

Lemma registryWf_loadFrame s s' : registryWf s -> loadFrame s s' -> registryWf s'.
Proof.
  intros Hwf Hf id l. rewrite (loadFrame_current _ _ Hf). intros Hl.
  destruct (Hwf _ _ Hl) as (p & Hp & Hid).
  exists p. split; [|done]. by apply (frame_pluginObjs _ _ Hf).
Qed.

Lemma registryWf_setPluginAt (plugin : loc) (p : Plugin) s :
  registryWf s ->
  pluginObjs s !! plugin = Some p ->
  registryWf (setPluginAt (plugin_id p) plugin s).2.
Proof.
  intros Hwf Hp id l. rewrite setPluginAt_current.
  rewrite setPluginAt_state. cbn [snd].
  destruct (decide (plugin_id p = id)) as [<-|Hne].
  - rewrite lookup_insert_eq. intros [= <-]. eauto.
  - rewrite lookup_insert_ne by done. apply Hwf.
Qed.

Lemma registryWf_alter (f : Plugin -> Plugin) (plugin : loc) s :
  (forall p, plugin_id (f p) = plugin_id p) ->
  registryWf s ->
  registryWf (withPluginObjs (alter f plugin (pluginObjs s)) s).
Proof.
  intros Hf Hwf id l Hl. destruct (Hwf id l Hl) as (p & Hp & Hid). cbn.
  destruct (decide (plugin = l)) as [->|Hne].
  - exists (f p). rewrite lookup_alter_eq, Hp. split; [done|]. by rewrite Hf.
  - exists p. by rewrite lookup_alter_ne.
Qed.

Section BatchFrame.

Context `{Host}.

Lemma runPlugin_frame (plugin : loc) s0 s Q :
  loadFrame s0 s ->
  (forall r s', loadFrame s0 s' -> Q r s') ->
  wp (runPlugin plugin) s Q.
Proof.
  intros Hf HQ. unfold runPlugin, readPlugin.
  apply wp_bind. unfold wp at 1. cbn beta.
  destruct (pluginObjs s !! plugin) as [p|]; cbn [fst snd]; [|by apply HQ].
  repeat (wp_step; cbv beta iota); apply HQ; frame_solve.
Qed.

Lemma runPlugin_logged_frame (plugin : loc) (pluginPath : string) s :
  loadFrame s
    (tryCatch (runPlugin plugin)
       (fun error => logger (CouldNotLoadPlugin pluginPath error)) s).2.
Proof.
  change (wp (tryCatch (runPlugin plugin)
                (fun error => logger (CouldNotLoadPlugin pluginPath error))) s
            (fun _ s' => loadFrame s s')).
  apply wp_tryCatch. apply (runPlugin_frame plugin s s); [apply loadFrame_refl|].
  intros [[]|e] s' Hf; [done|].
  repeat (wp_step; cbv beta iota). frame_solve.
Qed.

End BatchFrame.

Section BatchLoop.

Context `{Host}.

Variables (settings : PluginSettings) (devMode : bool).

Lemma setDevMode_id (d : bool) (p : Plugin) : plugin_id (setDevMode d p) = plugin_id p.
Proof. reflexivity. Qed.

(** One candidate keeps what exists already, and keeps the registry well
    formed. *)
Lemma loadAndRunCandidate_frame (pluginPath : string) s :
  let s' := (loadAndRunCandidate settings devMode pluginPath s).2 in
  batchFrame s s' /\ (registryWf s -> registryWf s').
Proof.
  cbv zeta.
  destruct (startsWith (filename pluginPath) "_") eqn:Hu.
  { rewrite loadAndRunCandidate_underscore by done. cbn [snd].
    split; [apply batchFrame_events|].
    intros Hwf. eapply registryWf_loadFrame; [done|apply loadFrame_events]. }
  pose proof (loadPluginFromPath_post pluginPath s) as Hpost.
  unfold wp in Hpost.
  destruct (loadPluginFromPath pluginPath s) as [[plugin|e] s1] eqn:Hload;
    cbn [fst snd] in Hpost; destruct Hpost as [Hf Hres].
  2:{ rewrite (loadAndRunCandidate_load_fails _ _ _ _ _ _ Hu Hload). cbn [snd].
      assert (loadFrame s (withEvents (events s1 ++ [Log (CouldNotLoadPlugin pluginPath e)]) s1))
        as Hf' by frame_solve.
      split; [by apply loadFrame_batchFrame|].
      intros Hwf. by eapply registryWf_loadFrame. }
  destruct Hres as [Hnew [p Hp]].
  destruct (currentPlugins s1 !! plugin_id p) as [l0|] eqn:Hcur.
  { rewrite (loadAndRunCandidate_duplicate _ _ _ _ _ _ _ Hu Hload Hp) by eauto. cbn [snd].
    assert (loadFrame s
              (withEvents (events s1
                 ++ [Log (CouldNotLoadPlugin pluginPath (DuplicateId (plugin_id p)))]) s1))
      as Hf' by frame_solve.
    split; [by apply loadFrame_batchFrame|].
    intros Hwf. by eapply registryWf_loadFrame. }
  assert (batchFrame s (setPluginAt (plugin_id p) plugin s1).2) as Hreg.
  { eapply batchFrame_trans; [by apply loadFrame_batchFrame|].
    by apply batchFrame_setPluginAt. }
  assert (registryWf s -> registryWf (setPluginAt (plugin_id p) plugin s1).2) as Hwfreg.
  { intros Hwf. apply registryWf_setPluginAt; [|done]. by eapply registryWf_loadFrame. }
  destruct (pluginEnabled settings (plugin_id p)) eqn:Hon.
  - rewrite (loadAndRunCandidate_enabled _ _ _ _ _ _ _ Hu Hload Hp Hcur Hon).
    cbv zeta. cbn [snd].
    set (s2 := (setPluginAt (plugin_id p) plugin s1).2) in *.
    set (s3 := withPluginObjs (alter (setDevMode devMode) plugin (pluginObjs s2)) s2).
    pose proof (runPlugin_logged_frame plugin pluginPath s3) as Hrun.
    split.
    + eapply batchFrame_trans; [|by apply loadFrame_batchFrame].
      by apply batchFrame_alter.
    + intros Hwf. eapply registryWf_loadFrame; [|done].
      apply registryWf_alter; [apply setDevMode_id|auto].
  - rewrite (loadAndRunCandidate_disabled _ _ _ _ _ _ _ Hu Hload Hp Hcur Hon).
    cbv zeta. cbn [snd].
    split.
    + eapply batchFrame_trans; [done|apply batchFrame_events].
    + intros Hwf. eapply registryWf_loadFrame; [auto|apply loadFrame_events].
Qed.

Lemma forEach_candidates (pluginPaths : list string) s :
  let r := forEach pluginPaths (loadAndRunCandidate settings devMode) s in
  r.1 = Return tt /\ batchFrame s r.2 /\ (registryWf s -> registryWf r.2).
Proof.
  cbv zeta. revert s.
  induction pluginPaths as [|pluginPath rest IH]; intros s; cbn [forEach].
  - cbn. split; [done|]. split; [apply batchFrame_refl|done].
  - unfold bind.
    pose proof (loadAndRunCandidate_returns settings devMode pluginPath s) as Hret.
    pose proof (loadAndRunCandidate_frame pluginPath s) as [Hf Hwf].
    destruct (loadAndRunCandidate settings devMode pluginPath s) as [r s1].
    cbn [fst snd] in *. subst r.
    destruct (IH s1) as (Hr & Hf' & Hwf').
    split; [done|]. split; [by eapply batchFrame_trans|auto].
Qed.

Lemma forEach_candidates_app (pre post : list string) s :
  forEach (pre ++ post) (loadAndRunCandidate settings devMode) s
  = forEach post (loadAndRunCandidate settings devMode)
      (forEach pre (loadAndRunCandidate settings devMode) s).2.
Proof.
  revert s. induction pre as [|pluginPath pre IH]; intros s; cbn [app forEach].
  - done.
  - unfold bind.
    pose proof (loadAndRunCandidate_returns settings devMode pluginPath s) as Hret.
    destruct (loadAndRunCandidate settings devMode pluginPath s) as [r s1].
    cbn [fst] in Hret. subst r. apply IH.
Qed.

Lemma loadAndRunPlugins_paths (pluginPaths : list string) s :
  loadAndRunPlugins (inr pluginPaths) settings devMode s
  = forEach pluginPaths (loadAndRunCandidate settings devMode) s.
Proof. reflexivity. Qed.

Lemma loadAndRunPlugins_split (pre post : list string) (candidate : string) s :
  loadAndRunPlugins (inr (pre ++ candidate :: post)) settings devMode s
  = loadAndRunPlugins (inr post) settings devMode
      (loadAndRunCandidate settings devMode candidate
         (loadAndRunPlugins (inr pre) settings devMode s).2).2.
Proof.
  rewrite !loadAndRunPlugins_paths, forEach_candidates_app.
  cbn [forEach]. unfold bind at 1.
  set (s1 := (forEach pre _ s).2).
  pose proof (loadAndRunCandidate_returns settings devMode candidate s1) as Hret.
  destruct (loadAndRunCandidate settings devMode candidate s1) as [r s2].
  cbn [fst] in Hret. by subst r.
Qed.


Lemma loadAndRunPlugins_scan (dir : string) (stats : list Stat) s :
  readDirStats (files s) dir = Some stats ->
  loadAndRunPlugins (inl dir) settings devMode s
  = loadAndRunPlugins
      (inr (map (fun stat => dir +:+ "/" +:+ stat_path stat)
              (List.filter
                 (fun stat =>
                    stat_isDirectory stat
                    || endsWith (toLowerCase (stat_path stat)) ".js"
                    || endsWith (toLowerCase (stat_path stat)) ".jpl")
                 stats)))
      settings devMode s.
Proof.
  intros Hstats. unfold loadAndRunPlugins, scanPluginDir, bind at 1 2, gets, orThrow.
  unfold bind at 1. by rewrite Hstats.
Qed.

(** C10. The underscore marker is tested in the loop body of
    [loadAndRunPlugins], so for every candidate, whether it comes from an
    explicit list of paths or from a directory scan: a candidate whose
    file name begins with '_' is skipped before anything is loaded, and
    all it leaves is a log entry - it is neither registered nor run. *)
Theorem underscore_candidate_skipped (pluginPath : string) :
  startsWith (filename pluginPath) "_" = true ->
  (forall s,
      loadAndRunCandidate settings devMode pluginPath s
      = (Return tt, withEvents (events s ++ [Log (NameStartsWithUnderscore pluginPath)]) s))
  /\ (forall pre post s,
        let s1 := (loadAndRunPlugins (inr pre) settings devMode s).2 in
        loadAndRunPlugins (inr (pre ++ pluginPath :: post)) settings devMode s
        = loadAndRunPlugins (inr post) settings devMode
            (withEvents (events s1 ++ [Log (NameStartsWithUnderscore pluginPath)]) s1))
  /\ (forall dir stats s,
        readDirStats (files s) dir = Some stats ->
        exists scanned,
          loadAndRunPlugins (inl dir) settings devMode s
          = loadAndRunPlugins (inr scanned) settings devMode s
          /\ forall stat, In stat stats ->
               (stat_isDirectory stat
                || endsWith (toLowerCase (stat_path stat)) ".js"
                || endsWith (toLowerCase (stat_path stat)) ".jpl") = true ->
               In (dir +:+ "/" +:+ stat_path stat) scanned).
Proof.
  intros Hu. split; [|split].
  - intros s. by apply loadAndRunCandidate_underscore.
  - intros pre post s s1. subst s1.
    rewrite loadAndRunPlugins_split. by rewrite loadAndRunCandidate_underscore.
  - intros dir stats s Hstats. eexists. split.
    + by apply loadAndRunPlugins_scan.
    + intros stat Hin Hkeep. apply in_map_iff. exists stat. split; [done|].
      apply filter_In. by split.
Qed.

End BatchLoop.

(** ** The registry invariant *)

Lemma registryWf_initial (appVersion : string) (fs : Files) :
  registryWf (initialState appVersion fs).
Proof. intros id l. unfold currentPlugins. cbn. by rewrite lookup_singleton_eq. Qed.

Lemma registryWf_deletePluginAt (pluginId : string) s :
  registryWf s -> registryWf (deletePluginAt pluginId s).2.
Proof.
  intros Hwf id l. rewrite deletePluginAt_current.
  intros Hl. apply lookup_delete_Some in Hl as [_ Hl].
  destruct (Hwf _ _ Hl) as (p & Hp & Hid). exists p. split; [|done].
  destruct (currentPlugins s !! pluginId) eqn:Hcur.
  - by rewrite deletePluginAt_present by eauto.
  - by rewrite deletePluginAt_absent.
Qed.

Lemma sameRegistry_wf s s' : sameRegistry s s' -> registryWf s -> registryWf s'.
Proof.
  intros (Hp & Hr & Ho) Hwf id l. unfold currentPlugins. rewrite Hp, Hr, Ho. apply Hwf.
Qed.

Section Invariant.

Context `{Host}.

Lemma keepsRegistry_refl s : keepsRegistry s s.
Proof. split; [apply batchFrame_refl|done]. Qed.

Lemma keepsRegistry_loadFrame s0 s s' :
  keepsRegistry s0 s -> loadFrame s s' -> keepsRegistry s0 s'.
Proof.
  intros [Hb Hwf] Hf. split.
  - eapply batchFrame_trans; [done|by apply loadFrame_batchFrame].
  - intros Hwf0. eapply registryWf_loadFrame; [auto|done].
Qed.

Lemma keepsRegistry_trans s0 s s' :
  keepsRegistry s0 s -> keepsRegistry s s' -> keepsRegistry s0 s'.
Proof.
  intros [Hb Hwf] [Hb' Hwf']. split; [by eapply batchFrame_trans|auto].
Qed.

Lemma keepsRegistry_setPluginAt (plugin : loc) (p : Plugin) s0 s :
  keepsRegistry s0 s ->
  currentPlugins s !! plugin_id p = None ->
  pluginObjs s !! plugin = Some p ->
  keepsRegistry s0 (setPluginAt (plugin_id p) plugin s).2.
Proof.
  intros [Hb Hwf] Hfree Hp. split.
  - eapply batchFrame_trans; [done|by apply batchFrame_setPluginAt].
  - intros Hwf0. apply registryWf_setPluginAt; auto.
Qed.

Lemma wp_readPlugin (l : loc) s (Q : Result Plugin -> State -> Prop) :
  match pluginObjs s !! l with
  | Some p => Q (Return p) s
  | None => Q (Throw TypeError) s
  end ->
  wp (readPlugin l) s Q.
Proof. unfold wp, readPlugin. by destruct (pluginObjs s !! l). Qed.

Lemma installPlugin_frame (jplPath : string) s :
  wp (installPlugin jplPath) s (fun _ s' => keepsRegistry s s').
Proof.
  unfold installPlugin.
  repeat (wp_step; cbv beta iota).
  eapply wp_mono; [apply loadPluginFromPath_post|].
  intros [preloaded|e] s1 [Hf1 _];
    [|by eapply keepsRegistry_loadFrame; [apply keepsRegistry_refl|frame_solve]].
  assert (loadFrame s s1) as Hs1 by frame_solve. clear Hf1.
  apply wp_bind, wp_readPlugin.
  destruct (pluginObjs s1 !! preloaded) as [pre|];
    [|by eapply keepsRegistry_loadFrame; [apply keepsRegistry_refl|]].
  repeat (wp_step; cbv beta iota);
    [|by eapply keepsRegistry_loadFrame; [apply keepsRegistry_refl|]].
  eapply wp_mono; [apply loadPluginFromPath_post|].
  intros [plugin|e] s2 [Hf2 Hres];
    [|by eapply keepsRegistry_loadFrame; [apply keepsRegistry_refl|frame_solve]].
  assert (loadFrame s s2) as Hs2 by frame_solve. clear Hf2.
  apply wp_bind, wp_readPlugin.
  destruct (pluginObjs s2 !! plugin) as [p|] eqn:Hp;
    [|by eapply keepsRegistry_loadFrame; [apply keepsRegistry_refl|]].
  repeat (wp_step; cbv beta iota).
  - by eapply keepsRegistry_loadFrame; [apply keepsRegistry_refl|].
  - unfold wp. apply keepsRegistry_setPluginAt; [|by apply bool_decide_eq_false_1, eq_None_not_Some in Heqb|done].
    by eapply keepsRegistry_loadFrame; [apply keepsRegistry_refl|].
Qed.

Ltac same_registry_solve :=
  eapply sameRegistry_wf; [|eassumption]; by repeat split.

Lemma uninstallPlugin_wf (pluginId : string) s :
  registryWf s -> wp (uninstallPlugin pluginId) s (fun _ s' => registryWf s').
Proof.
  intros Hwf. unfold uninstallPlugin, pluginPath.
  repeat (wp_step; cbv beta iota); try same_registry_solve;
    unfold wp; apply registryWf_deletePluginAt; same_registry_solve.
Qed.

Lemma uninstallPluginsLoop_wf (settings : loc) (pluginIds : list string) (newSettings : loc) s :
  registryWf s ->
  wp (uninstallPluginsLoop settings pluginIds newSettings) s (fun _ s' => registryWf s').
Proof.
  revert newSettings s.
  induction pluginIds as [|pluginId rest IH]; intros newSettings s Hwf;
    cbn [uninstallPluginsLoop].
  - by apply wp_ret.
  - unfold readSettings.
    repeat (wp_step; cbv beta iota); try done; [|by apply IH].
    eapply wp_mono; [by apply uninstallPlugin_wf|].
    intros [[]|e] s1 Hwf1; [|done].
    unfold copySettingsWithout, readSettings.
    repeat (wp_step; cbv beta iota); try done.
    unfold wp at 1. cbn [fst snd]. apply IH. same_registry_solve.
Qed.

Lemma uninstallPlugins_wf (settings : loc) s :
  registryWf s -> wp (uninstallPlugins settings) s (fun _ s' => registryWf s').
Proof.
  intros Hwf. unfold uninstallPlugins, readSettings.
  repeat (wp_step; cbv beta iota); try done.
  by apply uninstallPluginsLoop_wf.
Qed.

Lemma loadAndRunPlugins_frame (pluginDirOrPaths : string + list string)
    (settings : PluginSettings) (devMode : bool) s :
  keepsRegistry s (loadAndRunPlugins pluginDirOrPaths settings devMode s).2.
Proof.
  destruct pluginDirOrPaths as [dir|paths].
  - destruct (readDirStats (files s) dir) as [stats|] eqn:Hstats.
    + rewrite (loadAndRunPlugins_scan _ _ _ _ _ Hstats), loadAndRunPlugins_paths.
      destruct (forEach_candidates settings devMode
                  (map (fun stat => dir +:+ "/" +:+ stat_path stat)
                     (List.filter
                        (fun stat =>
                           stat_isDirectory stat
                           || endsWith (toLowerCase (stat_path stat)) ".js"
                           || endsWith (toLowerCase (stat_path stat)) ".jpl")
                        stats)) s) as (_ & Hb & Hwf).
      by split.
    + unfold loadAndRunPlugins, scanPluginDir, bind, gets, orThrow. rewrite Hstats.
      apply keepsRegistry_refl.
  - rewrite loadAndRunPlugins_paths.
    destruct (forEach_candidates settings devMode paths s) as (_ & Hb & Hwf).
    by split.
Qed.

(** Every reachable state has a well-formed registry. *)
Lemma reachable_registryWf s : reachable s -> registryWf s.
Proof.
  induction 1 as [appVersion fs|s fs _ IH|s objs _ IH|s path _ IH
                  |s arg settings devMode _ IH|s plugin _ IH|s jplPath _ IH
                  |s pluginId _ IH|s settings _ IH].
  - apply registryWf_initial.
  - same_registry_solve.
  - same_registry_solve.
  - eapply registryWf_loadFrame; [done|].
    apply (loadPluginFromPath_post path s).
  - by apply loadAndRunPlugins_frame.
  - eapply registryWf_loadFrame; [done|].
    apply (runPlugin_frame plugin s s (fun _ s' => loadFrame s s'));
      [apply loadFrame_refl|auto].
  - by apply (installPlugin_frame jplPath s).
  - by apply (uninstallPlugin_wf pluginId s).
  - by apply (uninstallPlugins_wf settings s).
Qed.

End Invariant.

(** ** PackageExtractor *)

Section Package.

Context `{Host}.

Lemma loadManifestToObject_run (path : string) s :
  loadManifestToObject path s = (Return (manifestObjectAt (files s) path), s).
Proof.
  cbv [loadManifestToObject manifestObjectAt tryCatch bind fsReadFile gets orThrow ret throw].
  destruct (files s !! path) as [text|]; [|reflexivity].
  by destruct (JSON_parse text).
Qed.

Lemma md5File_run (path archive : string) s :
  files s !! path = Some archive ->
  md5File path s = (Return (md5 archive), s).
Proof.
  intros Hfile. cbv [md5File bind fsReadFile gets orThrow ret throw]. by rewrite Hfile.
Qed.

(** Cache hit: nothing is wiped or extracted, the plugin is loaded from the
    directory that is there. *)
Lemma loadPluginFromPackageWith_hit (load : string -> M loc)
    (baseDir path archive : string) s :
  files s !! path = Some archive ->
  cacheMiss (manifestObjectAt (files s) (manifestFilePathOf path)) (md5 archive) = false ->
  loadPluginFromPackageWith load baseDir path s = load (unpackDirOf path) s.
Proof.
  intros Hfile Hhit. unfold loadPluginFromPackageWith. cbv zeta.
  unfold bind at 1. rewrite (md5File_run _ _ _ Hfile).
  unfold bind at 1. rewrite loadManifestToObject_run.
  fold (unpackDirOf path). fold (manifestFilePathOf path).
  rewrite Hhit. reflexivity.
Qed.

Lemma fsRemoved_outside (dir path : string) (fs : Files) :
  underDir dir path = false -> fsRemoved dir fs !! path = fs !! path.
Proof.
  intros Hout. unfold fsRemoved.
  destruct (fs !! path) as [content|] eqn:Hfile.
  - by apply map_lookup_filter_Some.
  - apply map_lookup_filter_None. left. done.
Qed.

Lemma fsRemoved_inside (dir path : string) (fs : Files) :
  underDir dir path = true -> fsRemoved dir fs !! path = None.
Proof.
  intros Hin. unfold fsRemoved. apply map_lookup_filter_None. right.
  intros content _. cbn. by rewrite Hin.
Qed.

Lemma prefix_append (p x : string) : String.prefix p (p +:+ x) = true.
Proof.
  induction p as [|c p IH].
  - by destruct x.
  - change (String c p +:+ x) with (String c (p +:+ x)). cbn [String.prefix].
    destruct (ascii_dec c c); [apply IH|congruence].
Qed.

Lemma underDir_child (dir name : string) : underDir dir (dir +:+ "/" +:+ name) = true.
Proof.
  unfold underDir, startsWith. apply orb_true_iff. right.
  induction dir as [|c dir IH].
  - apply (prefix_append "/" name).
  - change (String c dir +:+ "/" +:+ name) with (String c (dir +:+ "/" +:+ name)).
    change (String c dir +:+ "/") with (String c (dir +:+ "/")).
    cbn [String.prefix].
    destruct (ascii_dec c c); [apply IH|congruence].
Qed.

Lemma fsExtracted_outside (cwd path : string) (entries : list (string * string)) (fs : Files) :
  underDir cwd path = false -> fsExtracted cwd entries fs !! path = fs !! path.
Proof.
  intros Hout. unfold fsExtracted. revert fs.
  induction entries as [|[name content] entries IH]; intros fs; cbn [fold_left fst snd].
  - done.
  - rewrite IH. apply lookup_insert_ne. intros <-.
    by rewrite underDir_child in Hout.
Qed.

Lemma fsRemove_run (path : string) s :
  fsRemove path s
  = (Return tt, withFiles (fsRemoved path (files s)) (withEvents (events s ++ [FsRemove path]) s)).
Proof. reflexivity. Qed.

Lemma fsMkdir_run (path : string) s :
  fsMkdir path s = (Return tt, withEvents (events s ++ [FsMkdir path]) s).
Proof. reflexivity. Qed.

Lemma fsWriteFile_run (path content : string) s :
  fsWriteFile path content s
  = (Return tt,
     withFiles (<[path := content]> (files s))
       (withEvents (events s ++ [FsWriteFile path content]) s)).
Proof. reflexivity. Qed.

Lemma tarExtract_run (file cwd archive : string) (entries : list (string * string)) s :
  files s !! file = Some archive ->
  tarEntries archive = Some entries ->
  tarExtract file cwd s
  = (Return tt,
     withFiles (fsExtracted cwd entries (files s))
       (withEvents (events s ++ [TarExtract file cwd]) s)).
Proof.
  intros Hfile Hentries.
  cbv [tarExtract bind fsReadFile gets orThrow ret throw emit modify].
  rewrite Hfile. cbn. by rewrite Hentries.
Qed.

(** Cache miss: the target is wiped, the archive extracted, and the
    manifest found there is stamped with the hash and written back. *)
Lemma loadPluginFromPackageWith_miss (load : string -> M loc)
    (baseDir path archive : string) (entries : list (string * string)) s :
  files s !! path = Some archive ->
  cacheMiss (manifestObjectAt (files s) (manifestFilePathOf path)) (md5 archive) = true ->
  underDir (unpackDirOf path) path = false ->
  tarEntries archive = Some entries ->
  let unpackDir := unpackDirOf path in
  let s1 :=
    withFiles (fsExtracted unpackDir entries (fsRemoved unpackDir (files s)))
      (withEvents
         (events s ++ [FsRemove unpackDir; FsMkdir unpackDir; TarExtract path unpackDir]) s) in
  loadPluginFromPackageWith load baseDir path s
  = match manifestObjectAt (files s1) (manifestFilePathOf path) with
    | Some (JsObject props) =>
        let text :=
          JSON_stringify (JsObject (JsObj.set "_package_hash" (JsStr (md5 archive)) props)) in
        load unpackDir
          (withFiles (<[manifestFilePathOf path := text]> (files s1))
             (withEvents (events s1 ++ [FsWriteFile (manifestFilePathOf path) text]) s1))
    | manifest =>
        (Throw (if JsObj.truthy manifest then TypeError
                else ExtractionFailure (manifestFilePathOf path)), s1)
    end.
Proof.
  intros Hfile Hmiss Hout Hentries unpackDir s1.
  unfold loadPluginFromPackageWith. cbv zeta.
  unfold bind at 1. rewrite (md5File_run _ _ _ Hfile).
  unfold bind at 1. rewrite loadManifestToObject_run.
  fold (unpackDirOf path). fold (manifestFilePathOf path). fold unpackDir.
  rewrite Hmiss.
  unfold bind at 1. unfold bind at 1. rewrite fsRemove_run.
  unfold bind at 1. rewrite fsMkdir_run.
  unfold bind at 1.
  rewrite (tarExtract_run _ _ archive entries);
    [|by cbn; rewrite fsRemoved_outside|done].
  unfold bind at 1. rewrite loadManifestToObject_run.
  assert (withFiles
            (fsExtracted unpackDir entries
               (files
                  (withEvents
                     (events (withFiles (fsRemoved unpackDir (files s))
                                (withEvents (events s ++ [FsRemove unpackDir]) s))
                      ++ [FsMkdir unpackDir])
                     (withFiles (fsRemoved unpackDir (files s))
                        (withEvents (events s ++ [FsRemove unpackDir]) s)))))
            (withEvents
               (events
                  (withEvents
                     (events (withFiles (fsRemoved unpackDir (files s))
                                (withEvents (events s ++ [FsRemove unpackDir]) s))
                      ++ [FsMkdir unpackDir])
                     (withFiles (fsRemoved unpackDir (files s))
                        (withEvents (events s ++ [FsRemove unpackDir]) s)))
                ++ [TarExtract path unpackDir])
               (withEvents
                  (events (withFiles (fsRemoved unpackDir (files s))
                             (withEvents (events s ++ [FsRemove unpackDir]) s))
                   ++ [FsMkdir unpackDir])
                  (withFiles (fsRemoved unpackDir (files s))
                     (withEvents (events s ++ [FsRemove unpackDir]) s)))) = s1) as ->.
  { subst s1. unfold withFiles, withEvents. cbn. by rewrite <- !app_assoc. }
  generalize (manifestObjectAt (files s1) (manifestFilePathOf path)). intros manifest.
  destruct manifest as [[|b|n|str|props]|]; cbn [JsObj.truthy negb]; try reflexivity.
  - by destruct b.
  - by destruct (Z.eqb n 0).
  - by destruct (isEmpty str).
Qed.

Lemma readsOnly_refl s : readsOnly s s.
Proof. split; [done|]. exists []. by rewrite app_nil_r. Qed.

Lemma readsOnly_log s0 s entry :
  readsOnly s0 s -> readsOnly s0 (withEvents (events s ++ [Log entry]) s).
Proof.
  intros (Hfiles & evs & Hevs & Hquiet). split; [done|].
  exists (evs ++ [Log entry]). cbn. rewrite Hevs, app_assoc. split; [done|].
  apply Forall_app. split; [done|]. by repeat constructor.
Qed.

Lemma readsOnly_pluginObjs s0 s objs :
  readsOnly s0 s -> readsOnly s0 (withPluginObjs objs s).
Proof. done. Qed.

Lemma loadPlugin_readsOnly (baseDir manifestText scriptText fallbackId : string) s0 s :
  readsOnly s0 s ->
  wp (loadPlugin baseDir manifestText scriptText fallbackId) s (fun _ s' => readsOnly s0 s').
Proof.
  intros Hr. unfold wp.
  destruct (JSON_parse manifestText) as [parsed|] eqn:Hparse.
  - destruct parsed as [| | | |o];
      try (unfold loadPlugin, bind, orThrow; by rewrite Hparse).
    by rewrite (loadPlugin_decoded _ _ _ _ _ _ Hparse).
  - unfold loadPlugin, bind, orThrow. by rewrite Hparse.
Qed.

(** Loading a bundle or a directory only reads the file system. *)
Lemma loadPluginFromPathN_readsOnly (n : nat) (path : string) s :
  endsWith (toLowerCase (rtrimSlashes path)) ".jpl" = false ->
  wp (loadPluginFromPathN n path) s (fun _ s' => readsOnly s s').
Proof.
  intros Hjpl. pose proof (readsOnly_refl s) as Hr.
  destruct n as [|n]; cbn [loadPluginFromPathN]; [by apply wp_throw|].
  cbv zeta. rewrite Hjpl.
  destruct (endsWith (toLowerCase (rtrimSlashes path)) ".js").
  - unfold loadPluginFromJsBundle.
    repeat (wp_step; cbv beta iota); try done.
    match goal with
    | |- context [parsePluginJsBundle ?text] =>
        destruct (parsePluginJsBundle text) as [r|e]; [|done]
    end.
    by apply loadPlugin_readsOnly.
  - repeat (wp_step; cbv beta iota);
      try (by apply readsOnly_log);
      by apply loadPlugin_readsOnly, readsOnly_log.
Qed.

Lemma cacheMiss_false (manifest : option JsAny) (hash : string) :
  cacheMiss manifest hash = false
  <-> exists props, manifest = Some (JsObject props)
        /\ JsObj.get "_package_hash" props = Some (JsStr hash).
Proof.
  unfold cacheMiss. rewrite orb_false_iff, !negb_false_iff. split.
  - intros [Htruthy Heq].
    destruct manifest as [[|b|n|str|props]|]; try discriminate Heq.
    exists props. split; [done|]. cbn in Heq.
    destruct (JsObj.get "_package_hash" props) as [[|b|n|str|props']|]; try discriminate Heq.
    cbn in Heq. apply String.eqb_eq in Heq. by subst.
  - intros (props & -> & Hget). split; [done|]. cbn. rewrite Hget. cbn.
    apply String.eqb_refl.
Qed.

Lemma extractions_app (evs1 evs2 : list Event) :
  extractions (evs1 ++ evs2) = (extractions evs1 + extractions evs2)%nat.
Proof. unfold extractions. by rewrite List.filter_app, length_app. Qed.

Lemma extractions_quiet (evs : list Event) :
  Forall (fun e => isTarExtract e = false /\ isFsRemove e = false) evs ->
  extractions evs = 0%nat.
Proof.
  unfold extractions. induction 1 as [|e evs [He _] _ IH]; cbn; [done|]. by rewrite He.
Qed.

Lemma readsOnly_extractions s s' :
  readsOnly s s' -> extractions (events s') = extractions (events s).
Proof.
  intros (_ & evs & -> & Hquiet).
  rewrite extractions_app, (extractions_quiet _ Hquiet). lia.
Qed.

(** C5. [loadPluginFromPackage] hashes the package file.  When the
    manifest unpacked earlier at the canonical target carries that hash,
    nothing is wiped or extracted and the plugin is loaded from the
    existing directory.  Otherwise the target is wiped and the archive
    extracted; without a manifest after the extraction the load fails
    with [ExtractionFailure], else the manifest is stamped with the hash
    and written back before the plugin is loaded.  Hence loading the same
    unchanged package twice in a row runs the extraction exactly once. *)
Theorem loadPluginFromPackage_cache (baseDir path archive : string) s :
  files s !! path = Some archive ->
  let hash := md5 archive in
  (cached (files s) path hash ->
     loadPluginFromPackage baseDir path s = loadPluginFromPath (unpackDirOf path) s
     /\ (endsWith (toLowerCase (rtrimSlashes (unpackDirOf path))) ".jpl" = false ->
         readsOnly s (loadPluginFromPackage baseDir path s).2))
  /\ (forall entries,
        ~ cached (files s) path hash ->
        underDir (unpackDirOf path) path = false ->
        tarEntries archive = Some entries ->
        let s1 := unpacked path entries s in
        (JsObj.truthy (manifestObjectAt (files s1) (manifestFilePathOf path)) = false ->
           loadPluginFromPackage baseDir path s
           = (Throw (ExtractionFailure (manifestFilePathOf path)), s1))
        /\ (forall props,
              manifestObjectAt (files s1) (manifestFilePathOf path) = Some (JsObject props) ->
              let text :=
                JSON_stringify (JsObject (JsObj.set "_package_hash" (JsStr hash) props)) in
              loadPluginFromPackage baseDir path s
              = loadPluginFromPath (unpackDirOf path) (stamped path text s1)
              /\ (JSON_parse text
                    = Some (JsObject (JsObj.set "_package_hash" (JsStr hash) props)) ->
                  endsWith (toLowerCase (rtrimSlashes (unpackDirOf path))) ".jpl" = false ->
                  let first := loadPluginFromPackage baseDir path s in
                  let second := loadPluginFromPackage baseDir path first.2 in
                  extractions (events first.2) = S (extractions (events s))
                  /\ extractions (events second.2) = S (extractions (events s))
                  /\ files second.2 = files first.2
                  /\ second = loadPluginFromPath (unpackDirOf path) first.2))).
Proof.
  intros Hfile hash. split.
  - intros Hhit.
    assert (loadPluginFromPackage baseDir path s = loadPluginFromPath (unpackDirOf path) s)
      as Hrun.
    { apply (loadPluginFromPackageWith_hit _ _ _ archive); [done|].
      by apply cacheMiss_false. }
    split; [done|]. intros Hnojpl. rewrite Hrun.
    apply (loadPluginFromPathN_readsOnly fuel (unpackDirOf path) s Hnojpl).
  - intros entries Hmiss Hout Hentries s1.
    assert (cacheMiss (manifestObjectAt (files s) (manifestFilePathOf path)) hash = true)
      as Hmiss'.
    { destruct (cacheMiss _ hash) eqn:Hc; [done|]. by apply cacheMiss_false in Hc. }
    pose proof (loadPluginFromPackageWith_miss loadPluginFromPath baseDir path archive
                  entries s Hfile Hmiss' Hout Hentries) as Hrun.
    cbv zeta in Hrun. fold (unpacked path entries s) in Hrun. fold s1 in Hrun.
    fold (loadPluginFromPackage baseDir path s) in Hrun.
    split.
    + intros Hfalsy. rewrite Hrun.
      destruct (manifestObjectAt (files s1) (manifestFilePathOf path))
        as [[|b|n|str|props]|]; try discriminate Hfalsy; by rewrite ?Hfalsy.
    + intros props Hmanifest text. rewrite Hmanifest in Hrun.
      fold hash in Hrun. fold text in Hrun.
      fold (stamped path text s1) in Hrun.
      split; [done|].
      intros Hround Hnojpl first second.
      pose proof (loadPluginFromPathN_readsOnly fuel (unpackDirOf path)
                    (stamped path text s1) Hnojpl) as Hquiet1.
      unfold wp in Hquiet1. fold (loadPluginFromPath (unpackDirOf path)) in Hquiet1.
      rewrite <- Hrun in Hquiet1. fold first in Hquiet1.
      assert (underDir (unpackDirOf path) (manifestFilePathOf path) = true) as Hin
        by apply (underDir_child (unpackDirOf path) "manifest.json").
      assert (files first.2 !! path = Some archive) as Hfile1.
      { destruct Hquiet1 as [-> _]. unfold stamped. cbn [files withFiles].
        rewrite lookup_insert_ne by (intros Heq; rewrite Heq in Hin; congruence).
        subst s1. unfold unpacked. cbn [files withFiles].
        by rewrite fsExtracted_outside, fsRemoved_outside. }
      assert (cached (files first.2) path hash) as Hhit.
      { exists (JsObj.set "_package_hash" (JsStr hash) props). split.
        - destruct Hquiet1 as [-> _]. unfold stamped, manifestObjectAt.
          cbn [files withFiles]. by rewrite lookup_insert_eq.
        - apply JsObj_get_set_eq. }
      assert (second = loadPluginFromPath (unpackDirOf path) first.2) as Hsecond.
      { apply (loadPluginFromPackageWith_hit _ _ _ archive); [done|].
        by apply cacheMiss_false. }
      pose proof (loadPluginFromPathN_readsOnly fuel (unpackDirOf path) first.2 Hnojpl)
        as Hquiet2.
      unfold wp in Hquiet2. fold (loadPluginFromPath (unpackDirOf path)) in Hquiet2.
      rewrite <- Hsecond in Hquiet2.
      assert (extractions (events first.2) = S (extractions (events s))) as Hone.
      { rewrite (readsOnly_extractions _ _ Hquiet1).
        unfold stamped. cbn [events withFiles withEvents].
        subst s1. unfold unpacked. cbn [events withFiles withEvents].
        rewrite !extractions_app. cbn. lia. }
      split; [done|]. split; [|split; [|done]].
      * by rewrite (readsOnly_extractions _ _ Hquiet2).
      * by destruct Hquiet2 as [-> _].
Qed.

End Package.

(** ** SettingsCodec *)

Lemma JsObj_get_notin (k : string) (o : JsObj.Props) :
  k ∉ JsObj.keys o -> JsObj.get k o = None.
Proof.
  induction o as [|[k' v] o IH]; cbn; [done|].
  intros Hnotin. apply not_elem_of_cons in Hnotin as [Hne Hnotin].
  destruct (String.eqb k' k) eqn:Hk; [|auto].
  apply String.eqb_eq in Hk. congruence.
Qed.

Lemma JsObj_get_app_notin (k : string) (pre o : JsObj.Props) :
  k ∉ JsObj.keys pre -> JsObj.get k (pre ++ o) = JsObj.get k o.
Proof.
  induction pre as [|[k' v] pre IH]; cbn; [done|].
  intros Hnotin. apply not_elem_of_cons in Hnotin as [Hne Hnotin].
  destruct (String.eqb k' k) eqn:Hk; [|auto].
  apply String.eqb_eq in Hk. congruence.
Qed.

Lemma JsObj_set_app_notin (k : string) (v : JsAny) (pre o : JsObj.Props) :
  k ∉ JsObj.keys pre -> JsObj.set k v (pre ++ o) = pre ++ JsObj.set k v o.
Proof.
  induction pre as [|[k' v'] pre IH]; cbn; [done|].
  intros Hnotin. apply not_elem_of_cons in Hnotin as [Hne Hnotin].
  destruct (String.eqb k' k) eqn:Hk.
  - apply String.eqb_eq in Hk. congruence.
  - by rewrite IH.
Qed.

Lemma JsObj_assign_get (k : string) (a b : JsObj.Props) :
  NoDup (JsObj.keys b) ->
  JsObj.get k (JsObj.assign a b)
  = match JsObj.get k b with Some v => Some v | None => JsObj.get k a end.
Proof.
  unfold JsObj.assign. revert a.
  induction b as [|[k' v'] b IH]; intros a Hnodup; cbn [fold_left JsObj.get fst snd].
  - done.
  - cbn in Hnodup. apply NoDup_cons in Hnodup as [Hnotin Hnodup].
    rewrite IH by done.
    destruct (String.eqb k' k) eqn:Hk.
    + apply String.eqb_eq in Hk. subst k'.
      by rewrite JsObj_get_notin, JsObj_get_set_eq.
    + apply String.eqb_neq in Hk. by rewrite JsObj_get_set_ne.
Qed.

Lemma unserialize_fold (pre rest : JsObj.Props) :
  NoDup (JsObj.keys (pre ++ rest)) ->
  fold_left
    (fun output pluginId =>
       JsObj.set pluginId (mergeOverDefault (JsObj.get pluginId output)) output)
    (JsObj.keys rest) (pre ++ rest)
  = pre ++ mergedEntries rest.
Proof.
  revert pre. induction rest as [|[k v] rest IH]; intros pre Hnodup; cbn [JsObj.keys map fold_left fst].
  - done.
  - assert (k ∉ JsObj.keys pre) as Hnotin.
    { unfold JsObj.keys in *. rewrite map_app in Hnodup.
      apply NoDup_app in Hnodup as (_ & Hdisj & _).
      intros Hin. apply (Hdisj _ Hin). cbn. left. }
    rewrite JsObj_get_app_notin, JsObj_set_app_notin by done.
    cbn [JsObj.get JsObj.set]. rewrite String.eqb_refl.
    change (pre ++ (k, mergeOverDefault (Some v)) :: rest)
      with (pre ++ [(k, mergeOverDefault (Some v))] ++ rest).
    rewrite app_assoc. fold (JsObj.keys rest). rewrite IH.
    + by rewrite <- app_assoc.
    + rewrite <- app_assoc. cbn.
      unfold JsObj.keys in *. rewrite map_app in *. done.
Qed.

Lemma unserializePluginSettings_object (stored : JsObj.Props) :
  NoDup (JsObj.keys stored) ->
  unserializePluginSettings (JsObject stored) = JsObject (mergedEntries stored).
Proof.
  intros Hnodup. unfold unserializePluginSettings. cbn [JsObj.spread].
  f_equal. by apply (unserialize_fold [] stored).
Qed.

Lemma mergeOverDefault_setting (setting : PluginSetting) :
  mergeOverDefault (Some (settingToJs setting)) = settingToJs setting.
Proof. reflexivity. Qed.

Lemma mergedEntries_settings (settings : PluginSettings) :
  JsObject (mergedEntries (map (fun kv => (fst kv, settingToJs (snd kv))) settings))
  = settingsToJs settings.
Proof.
  unfold settingsToJs, mergedEntries. f_equal. rewrite map_map.
  apply map_ext. intros [k setting]. cbn [fst snd]. by rewrite mergeOverDefault_setting.
Qed.

Section Codec.

Context `{Host}.

(** C9 (amended). [unserializePluginSettings] takes the decoded settings
    object, not the text written by [serializePluginSettings].  For every
    settings object with distinct ids whose JSON text parses back to it,
    decoding the parsed encoding yields the object with each entry merged
    over the default [{enabled: true, deleted: false}]: a field of a merged
    entry is the stored field when there is one and the default otherwise.
    For a mapping whose entries carry both fields this is the identity. *)
Theorem settings_codec_round_trip (stored : JsObj.Props) :
  NoDup (JsObj.keys stored) ->
  (forall text,
      serializePluginSettings (JsObject stored) = JsStr text ->
      JSON_parse text = Some (JsObject stored) ->
      unserializePluginSettings <$> JSON_parse text = Some (JsObject (mergedEntries stored)))
  /\ (forall entry field,
        NoDup (JsObj.keys entry) ->
        JsObj.prop (Some (mergeOverDefault (Some (JsObject entry)))) field
        = match JsObj.get field entry with
          | Some v => Some v
          | None => JsObj.get field defaultPluginSettingObj
          end)
  /\ (forall settings : PluginSettings,
        stored = map (fun kv => (fst kv, settingToJs (snd kv))) settings ->
        JsObject (mergedEntries stored) = settingsToJs settings).
Proof.
  intros Hnodup. split; [|split].
  - intros text _ Hparse. rewrite Hparse. cbn.
    by rewrite unserializePluginSettings_object.
  - intros entry field Hentry. unfold mergeOverDefault. cbn [JsObj.prop JsObj.spread].
    by apply JsObj_assign_get.
  - intros settings ->. apply mergedEntries_settings.
Qed.

End Codec.

(** ** [uninstallPlugins] and the settings objects *)

Lemma deletePluginAt_settingsObjs (pluginId : string) s :
  settingsObjs (deletePluginAt pluginId s).2 = settingsObjs s.
Proof.
  destruct (currentPlugins s !! pluginId) eqn:Hcur.
  - by rewrite deletePluginAt_present by eauto.
  - by rewrite deletePluginAt_absent.
Qed.

Section Uninstall.

Context `{Host}.

Lemma uninstallPlugin_settingsObjs (pluginId : string) s :
  wp (uninstallPlugin pluginId) s (fun _ s' => settingsObjs s' = settingsObjs s).
Proof.
  unfold uninstallPlugin, pluginPath.
  repeat (wp_step; cbv beta iota); try reflexivity;
    unfold wp; by rewrite deletePluginAt_settingsObjs.
Qed.

(** The loop leaves the input object alone, and what it returns is the
    input without the last id it found flagged deleted. *)
Lemma uninstallPluginsLoop_settings (settings : loc) (o : PluginSettings)
    (pluginIds : list string) (newSettings : loc) (acc : option string) s :
  settingsObjs s !! settings = Some o ->
  settingsObjs s !! newSettings
  = Some (match acc with Some k => Settings.remove k o | None => o end) ->
  wp (uninstallPluginsLoop settings pluginIds newSettings) s
    (fun r s' =>
       settingsObjs s' !! settings = Some o
       /\ match r with
          | Return l =>
              settingsObjs s' !! l
              = Some (match lastDeleted o pluginIds acc with
                      | Some k => Settings.remove k o
                      | None => o
                      end)
          | Throw _ => True
          end).
Proof.
  revert newSettings acc s.
  induction pluginIds as [|pluginId rest IH]; intros newSettings acc s Hin Hnew;
    cbn [uninstallPluginsLoop lastDeleted].
  - by apply wp_ret.
  - unfold readSettings.
    apply wp_bind, wp_bind, wp_gets. cbv beta iota.
    apply wp_orThrow. rewrite Hin.
    apply wp_bind, wp_orThrow.
    destruct (Settings.get pluginId o) as [setting|]; [|done].
    destruct (deleted setting); [|by apply IH].
    apply wp_bind. eapply wp_mono; [apply uninstallPlugin_settingsObjs|].
    intros [[]|e] s1 Hs1; [|by rewrite Hs1].
    unfold copySettingsWithout, readSettings.
    apply wp_bind, wp_bind, wp_bind, wp_gets. cbv beta iota.
    apply wp_orThrow. rewrite Hs1, Hin.
    unfold wp at 1. cbn [fst snd].
    assert (fresh (dom (settingsObjs s1)) <> settings) as Hfresh.
    { intros Heq. pose proof (is_fresh (dom (settingsObjs s1))) as Hnotin.
      rewrite Heq in Hnotin. apply Hnotin, elem_of_dom. rewrite Hs1. eauto. }
    apply IH; cbn [settingsObjs withSettingsObjs].
    + rewrite alter_insert_eq, lookup_insert_ne by done. by rewrite Hs1.
    + by rewrite alter_insert_eq, lookup_insert_eq.
Qed.

Lemma uninstallPlugins_settings (settings : loc) (o : PluginSettings) s :
  settingsObjs s !! settings = Some o ->
  wp (uninstallPlugins settings) s
    (fun r s' =>
       settingsObjs s' !! settings = Some o
       /\ match r with
          | Return l =>
              settingsObjs s' !! l
              = Some (match lastDeleted o (Settings.keys o) None with
                      | Some k => Settings.remove k o
                      | None => o
                      end)
          | Throw _ => True
          end).
Proof.
  intros Hin. unfold uninstallPlugins, readSettings.
  apply wp_bind, wp_bind, wp_gets. cbv beta iota.
  apply wp_orThrow. rewrite Hin.
  by apply (uninstallPluginsLoop_settings settings o (Settings.keys o) settings None).
Qed.

End Uninstall.

Section Uniqueness.

Context `{Host}.

(** C2 (amended). In every reachable state every registry entry is stored
    under the id of the plugin it refers to, so no two entries share an id,
    ids being compared as exact strings; and neither [loadAndRunPlugins]
    nor [installPlugin] replaces the entry of an id that is registered
    already. *)
Theorem registry_exact_id_uniqueness s :
  reachable s ->
  registryWf s
  /\ (forall id1 id2 l1 l2 p1 p2,
        currentPlugins s !! id1 = Some l1 -> currentPlugins s !! id2 = Some l2 ->
        pluginObjs s !! l1 = Some p1 -> pluginObjs s !! l2 = Some p2 ->
        plugin_id p1 = plugin_id p2 -> id1 = id2 /\ l1 = l2)
  /\ (forall pluginDirOrPaths settings devMode id l,
        currentPlugins s !! id = Some l ->
        currentPlugins (loadAndRunPlugins pluginDirOrPaths settings devMode s).2 !! id = Some l)
  /\ (forall jplPath id l,
        currentPlugins s !! id = Some l ->
        currentPlugins (installPlugin jplPath s).2 !! id = Some l).
Proof.
  intros Hreach. pose proof (reachable_registryWf s Hreach) as Hwf.
  split; [done|]. split; [|split].
  - intros id1 id2 l1 l2 p1 p2 Hl1 Hl2 Hp1 Hp2 Hid.
    destruct (Hwf _ _ Hl1) as (p1' & Hp1' & Hid1).
    destruct (Hwf _ _ Hl2) as (p2' & Hp2' & Hid2).
    assert (id1 = id2) as -> by congruence.
    split; [done|congruence].
  - intros arg settings devMode id l Hl.
    by apply (batch_entries _ _ (proj1 (loadAndRunPlugins_frame arg settings devMode s))).
  - intros jplPath id l Hl.
    by apply (batch_entries _ _ (proj1 (installPlugin_frame jplPath s))).
Qed.

End Uniqueness.

(** ** The properties on the demo host *)


(** C2, as the specification words it, fails: two bundles whose manifest
    ids differ only in letter case are both registered. *)
Lemma case_variant_ids_both_registered :
  let s := (loadAndRunPlugins (H := Demo.host) (inr ["/p/a.js"; "/p/b.js"]) [] false
              Demo.start).2 in
  reachable (H := Demo.host) s
  /\ toLowerCase "MyPlugin" = toLowerCase "myplugin"
  /\ is_Some (currentPlugins s !! "MyPlugin")
  /\ is_Some (currentPlugins s !! "myplugin")
  /\ ~ normalizedIdsUnique (H := Demo.host) s.
Proof.
  cbv zeta. split; [|split; [|split; [|split]]].
  - apply reachable_loadAndRunPlugins, reachable_initial.
  - reflexivity.
  - vm_compute. eauto.
  - vm_compute. eauto.
  - intros Hunique.
    assert ("MyPlugin" = "myplugin") as Heq; [|discriminate Heq].
    apply Hunique; [vm_compute; eauto|vm_compute; eauto|reflexivity].
Qed.

(** The registry reached by loading two bundles is well formed. *)
Lemma registry_exact_id_uniqueness_witness :
  let s := (loadAndRunPlugins (H := Demo.host) (inr ["/p/a.js"; "/p/b.js"]) [] false
              Demo.start).2 in
  registryWf s.
Proof.
  cbv zeta.
  apply (registry_exact_id_uniqueness (H := Demo.host)).
  apply reachable_loadAndRunPlugins, reachable_initial.
Defined.

(** The initial mapping, and the mapping after an insertion, read the
    same after the next mutation. *)
Lemma registry_snapshot_isolation_witness :
  registries (setPluginAt "a" 5%positive Demo.start).2 !! 1%positive = Some ∅
  /\ registries (deletePluginAt "a" (setPluginAt "a" 5%positive Demo.start).2).2 !! 2%positive
     = Some {[ "a" := 5%positive ]}.
Proof.
  split.
  - apply (registry_snapshot_isolation Demo.start 1%positive ∅); reflexivity.
  - apply (registry_snapshot_isolation (setPluginAt "a" 5%positive Demo.start).2
             2%positive {[ "a" := 5%positive ]}).
    vm_compute. reflexivity.
Defined.

(** Loading the package [/p/c.jpl] twice in a row extracts it once. *)
Lemma loadPluginFromPackage_cache_witness :
  let first := loadPluginFromPackage (H := Demo.host) "/p" "/p/c.jpl" Demo.start in
  let second := loadPluginFromPackage (H := Demo.host) "/p" "/p/c.jpl" first.2 in
  extractions (events first.2) = 1%nat /\ extractions (events second.2) = 1%nat.
Proof.
  pose proof (loadPluginFromPackage_cache (H := Demo.host) "/p" "/p/c.jpl"
                (Demo.package (Demo.manifestJson "org.pkg" "1.4") "c()") Demo.start
                eq_refl) as [_ Hmiss].
  specialize (Hmiss [("manifest.json", Demo.manifestJson "org.pkg" "1.4"); ("index.js", "c()")]).
  destruct Hmiss as [_ Hstamp].
  - intros (props & Hfound & _). vm_compute in Hfound. discriminate Hfound.
  - reflexivity.
  - reflexivity.
  - destruct (Hstamp [("id", JsStr "org.pkg"); ("app_min_version", JsStr "1.4")])
      as [_ Htwice].
    + vm_compute. reflexivity.
    + destruct Htwice as (Hfirst & Hsecond & _).
      * vm_compute. reflexivity.
      * reflexivity.
      * split; [exact Hfirst|exact Hsecond].
Defined.

(** The manifest block of a bundle. *)
Lemma parsePluginJsBundle_contract_witness :
  parsePluginJsBundle (Demo.bundle (Demo.manifestJson "MyPlugin" "1.4") "a()")
  = Return (mkParsedBundle (Demo.bundle (Demo.manifestJson "MyPlugin" "1.4") "a()")
              (Demo.manifestJson "MyPlugin" "1.4")).
Proof.
  destruct (parsePluginJsBundle_contract
              (Demo.bundle (Demo.manifestJson "MyPlugin" "1.4") "a()"))
    as (_ & Hblock & _).
  apply (Hblock [] [Demo.manifestJson "MyPlugin" "1.4"] "*/" ["a()"]).
  - vm_compute. reflexivity.
  - constructor.
  - repeat constructor.
  - reflexivity.
  - discriminate.
Defined.

(** An empty manifest object gets the fallback id and version 1.4. *)
Lemma loadPlugin_defaulting_witness :
  let r := loadPlugin (H := Demo.host) "/p/" "{}" "code()" "fallback" Demo.start in
  exists plugin p,
    r.1 = Return plugin /\ pluginObjs r.2 !! plugin = Some p
    /\ plugin_id p = "fallback"
    /\ manifest_app_min_version (plugin_manifest p) = "1.4".
Proof.
  destruct (loadPlugin_defaulting (H := Demo.host) "/p/" "{}" "code()" "fallback" []
              Demo.start eq_refl) as [_ Hok].
  destruct Hok as (plugin & p & Hret & Hp & Hid & Hmin & Hfallback).
  - discriminate.
  - exists plugin, p. split; [exact Hret|]. split; [exact Hp|].
    split; [exact Hid|]. apply Hmin. reflexivity.
Defined.

(** A plugin that asks for version 9.0 is registered but not run by a
    host at version 1.5. *)
Lemma runPlugin_version_gate_witness :
  let s := (loadAndRunPlugins (H := Demo.host) (inr ["/p/new.js"]) [] false Demo.start).2 in
  (runPlugin (H := Demo.host) 1%positive s).1 = Throw (VersionTooOld "new")
  /\ pluginById "new" (runPlugin (H := Demo.host) 1%positive s).2
     = (Return 1%positive, (runPlugin (H := Demo.host) 1%positive s).2).
Proof.
  cbv zeta.
  set (s := (loadAndRunPlugins (H := Demo.host) (inr ["/p/new.js"]) [] false Demo.start).2).
  assert (exists p, pluginObjs s !! 1%positive = Some p /\ plugin_id p = "new"
                    /\ manifest_app_min_version (plugin_manifest p) = "9.0")
    as (p & Hp & Hid & Hmin).
  { vm_compute. eexists. split; [reflexivity|]. split; reflexivity. }
  destruct (runPlugin_version_gate (H := Demo.host) "new" 1%positive p (-1)%Z s)
    as [Hold _].
  - vm_compute. reflexivity.
  - exact Hp.
  - rewrite Hmin. vm_compute. reflexivity.
  - destruct Hold as (Hthrow & _ & _ & _ & Hget); [lia|].
    rewrite Hid in Hthrow. split; [exact Hthrow|exact Hget].
Defined.

(** The bundle [/p/_off.js] is skipped. *)
Lemma underscore_candidate_skipped_witness :
  loadAndRunCandidate (H := Demo.host) [] false "/p/_off.js" Demo.start
  = (Return tt,
     withEvents (events Demo.start ++ [Log (NameStartsWithUnderscore "/p/_off.js")]) Demo.start).
Proof.
  apply (underscore_candidate_skipped (H := Demo.host) [] false "/p/_off.js").
  reflexivity.
Defined.

(** An entry stored without its [deleted] field is completed on decoding. *)
Lemma settings_codec_round_trip_witness :
  unserializePluginSettings
    <$> @JSON_parse Demo.host
          (@JSON_stringify Demo.host
             (JsObject [("a", JsObject [("enabled", JsBoolean false)])]))
  = Some (JsObject [("a", JsObject [("enabled", JsBoolean false); ("deleted", JsBoolean false)])]).
Proof.
  destruct (settings_codec_round_trip (H := Demo.host)
              [("a", JsObject [("enabled", JsBoolean false)])]) as [Hround _].
  - repeat constructor. set_solver.
  - apply Hround; [reflexivity|vm_compute; reflexivity].
Defined.

(** C9, as the specification words it, fails: applied to the text that
    [serializePluginSettings] returns, [unserializePluginSettings] spreads
    the characters of the text, and yields neither the original mapping nor
    its entries merged over the default. *)
Lemma settings_codec_direct_composition_fails :
  let settings := [("a", mkPluginSetting false true)] in
  unserializePluginSettings (serializePluginSettings (H := Demo.host) (settingsToJs settings))
  <> settingsToJs settings
  /\ unserializePluginSettings (serializePluginSettings (H := Demo.host) (settingsToJs settings))
     <> JsObject (mergedEntries (JsObj.spread (Some (settingsToJs settings)))).
Proof.
  cbv zeta. split; vm_compute; discriminate.
Qed.

(** C4. With two ids flagged deleted, [uninstallPlugins] uninstalls both
    but returns a copy of the input that lacks only the second: each copy
    is taken from [settings], not from [newSettings].  The input object is
    unmodified. *)
Theorem uninstallPlugins_two_deleted :
  let settings := [("a", mkPluginSetting true true); ("b", mkPluginSetting true true)] in
  let s := withSettingsObjs {[1%positive := settings]} Demo.start in
  let r := uninstallPlugins (H := Demo.host) 1%positive s in
  r.1 = Return 3%positive
  /\ settingsObjs r.2 !! 3%positive = Some [("a", mkPluginSetting true true)]
  /\ settingsObjs r.2 !! 1%positive = Some settings
  /\ In (Log (UninstallingPlugin "a")) (events r.2)
  /\ In (Log (UninstallingPlugin "b")) (events r.2).
Proof.
  vm_compute. repeat split; auto.
Qed.

(* ================================================================= *)
(** * Further properties *)

(** ** PluginRegistry: insertion, lookup, removal *)




(** ** IdAllocator *)

Lemma substring_length_le (n m : nat) (s : string) :
  String.length (String.substring n m s) <= m.
Proof.
  revert n m. induction s as [|c s IH]; intros n m.
  - destruct n, m; cbn; lia.
  - destruct n as [|n]; destruct m as [|m]; cbn; try lia.
    + specialize (IH 0 m). lia.
    + apply IH.
    + apply IH.
Qed.

Lemma substring_all (m : nat) (s : string) :
  String.length s <= m -> String.substring 0 m s = s.
Proof.
  revert m. induction s as [|c s IH]; intros m Hlen.
  - by destruct m.
  - destruct m as [|m]; cbn in *; [lia|]. rewrite IH; [done|lia].
Qed.

Section IdAllocator.

Context `{Host}.

(** X2. An id made by [makePluginId] has at most 32 characters, and it is
    the slug itself when the slug has no more than that. *)
Theorem makePluginId_bound (source : string) :
  String.length (makePluginId source) <= 32
  /\ (String.length (uslug source) <= 32 -> makePluginId source = uslug source).
Proof.
  unfold makePluginId, substr0. split.
  - apply substring_length_le.
  - apply substring_all.
Qed.

End IdAllocator.

(** ** What loading does and does not do *)

Lemma isEmpty_false (x : string) : isEmpty x = false <-> x <> "".
Proof. destruct x; simpl; split; congruence. Qed.


Lemma runsNothing_refl s : runsNothing s s.
Proof. exists []. by rewrite app_nil_r. Qed.

Lemma runsNothing_trans s1 s2 s3 : runsNothing s1 s2 -> runsNothing s2 s3 -> runsNothing s1 s3.
Proof.
  intros (e1 & He1 & Hq1) (e2 & He2 & Hq2). exists (e1 ++ e2).
  rewrite He2, He1, app_assoc. split; [done|]. by apply Forall_app.
Qed.

Lemma runsNothing_event s0 s e :
  runsNothing s0 s -> isRunEvent e = false ->
  runsNothing s0 (withEvents (events s ++ [e]) s).
Proof.
  intros Hr He. eapply runsNothing_trans; [done|].
  exists [e]. split; [done|]. by constructor.
Qed.

Lemma runsNothing_files s0 s fs : runsNothing s0 s -> runsNothing s0 (withFiles fs s).
Proof. done. Qed.

Lemma runsNothing_pluginObjs s0 s objs :
  runsNothing s0 s -> runsNothing s0 (withPluginObjs objs s).
Proof. done. Qed.

Lemma runsNothing_settingsObjs s0 s objs :
  runsNothing s0 s -> runsNothing s0 (withSettingsObjs objs s).
Proof. done. Qed.

Ltac quiet_solve :=
  repeat first
    [ assumption
    | apply runsNothing_refl
    | apply runsNothing_files
    | apply runsNothing_pluginObjs
    | apply runsNothing_settingsObjs
    | (apply runsNothing_event; [|reflexivity]) ].

Section Loading.

Context `{Host}.

(** [loadPlugin] changes nothing but the plugin instances. *)
Lemma loadPlugin_state (baseDir manifestText scriptText fallbackId : string) s :
  exists objs,
    (loadPlugin baseDir manifestText scriptText fallbackId s).2 = withPluginObjs objs s.
Proof.
  destruct (JSON_parse manifestText) as [parsed|] eqn:Hparse.
  - destruct parsed as [| | | |o];
      try (exists (pluginObjs s); unfold loadPlugin, bind, orThrow; rewrite Hparse;
           by destruct s).
    rewrite (loadPlugin_decoded _ _ _ _ _ _ Hparse). by eexists.
  - exists (pluginObjs s). unfold loadPlugin, bind, orThrow. rewrite Hparse. by destruct s.
Qed.

Lemma loadPlugin_loadedWithId (baseDir manifestText scriptText fallbackId : string) s :
  wp (loadPlugin baseDir manifestText scriptText fallbackId) s loadedWithId.
Proof.
  unfold wp.
  destruct (JSON_parse manifestText) as [parsed|] eqn:Hparse.
  - destruct parsed as [| | | |o];
      try (unfold loadPlugin, bind, orThrow; by rewrite Hparse).
    rewrite (loadPlugin_decoded _ _ _ _ _ _ Hparse). cbv zeta. cbn [fst snd].
    destruct (isEmpty (idAfterDefaulting fallbackId o)) eqn:He; [done|].
    eexists. split; [apply lookup_insert_eq|].
    unfold plugin_id. cbn [plugin_manifest manifestFromObject manifest_id].
    rewrite idAfterDefaulting_get. by apply isEmpty_false.
  - unfold loadPlugin, bind, orThrow. by rewrite Hparse.
Qed.

Lemma loadPlugin_runsNothing (baseDir manifestText scriptText fallbackId : string) s0 s :
  runsNothing s0 s ->
  wp (loadPlugin baseDir manifestText scriptText fallbackId) s (fun _ s' => runsNothing s0 s').
Proof.
  intros Hr. unfold wp.
  destruct (loadPlugin_state baseDir manifestText scriptText fallbackId s) as [objs ->].
  done.
Qed.

Lemma loadPluginFromJsBundle_loadedWithId (baseDir jsBundleString fallbackId : string) s :
  wp (loadPluginFromJsBundle baseDir jsBundleString fallbackId) s loadedWithId.
Proof.
  unfold loadPluginFromJsBundle. repeat wp_load_step.
  destruct (parsePluginJsBundle jsBundleString) as [r|e]; [|done].
  apply loadPlugin_loadedWithId.
Qed.

Lemma loadPluginFromJsBundle_runsNothing (baseDir jsBundleString fallbackId : string) s0 s :
  runsNothing s0 s ->
  wp (loadPluginFromJsBundle baseDir jsBundleString fallbackId) s
    (fun _ s' => runsNothing s0 s').
Proof.
  intros Hr. unfold loadPluginFromJsBundle. repeat wp_load_step.
  destruct (parsePluginJsBundle jsBundleString) as [r|e]; [|done].
  by apply loadPlugin_runsNothing.
Qed.

Lemma loadPluginFromPackageWith_loadedWithId (load : string -> M loc) (baseDir path : string) s :
  (forall path s, wp (load path) s loadedWithId) ->
  wp (loadPluginFromPackageWith load baseDir path) s loadedWithId.
Proof.
  intros Hload. unfold loadPluginFromPackageWith.
  repeat wp_load_step; try done; apply Hload.
Qed.

Lemma loadPluginFromPackageWith_runsNothing (load : string -> M loc)
    (baseDir path : string) s0 s :
  (forall path s, runsNothing s0 s -> wp (load path) s (fun _ s' => runsNothing s0 s')) ->
  runsNothing s0 s ->
  wp (loadPluginFromPackageWith load baseDir path) s (fun _ s' => runsNothing s0 s').
Proof.
  intros Hload Hr. unfold loadPluginFromPackageWith.
  repeat wp_load_step; try (apply Hload); quiet_solve.
Qed.

Lemma loadPluginFromPathN_loadedWithId (n : nat) (path : string) s :
  wp (loadPluginFromPathN n path) s loadedWithId.
Proof.
  revert path s. induction n as [|n IH]; intros path s; cbn [loadPluginFromPathN].
  - by apply wp_throw.
  - cbv zeta.
    destruct (endsWith (toLowerCase (rtrimSlashes path)) ".js").
    { repeat wp_load_step; [apply loadPluginFromJsBundle_loadedWithId|done]. }
    destruct (endsWith (toLowerCase (rtrimSlashes path)) ".jpl").
    { by apply loadPluginFromPackageWith_loadedWithId. }
    repeat wp_load_step; try done; apply loadPlugin_loadedWithId.
Qed.

Lemma loadPluginFromPathN_runsNothing (n : nat) (path : string) s0 s :
  runsNothing s0 s ->
  wp (loadPluginFromPathN n path) s (fun _ s' => runsNothing s0 s').
Proof.
  revert path s. induction n as [|n IH]; intros path s Hr; cbn [loadPluginFromPathN].
  - by apply wp_throw.
  - cbv zeta.
    destruct (endsWith (toLowerCase (rtrimSlashes path)) ".js").
    { repeat wp_load_step; [by apply loadPluginFromJsBundle_runsNothing|done]. }
    destruct (endsWith (toLowerCase (rtrimSlashes path)) ".jpl").
    { by apply loadPluginFromPackageWith_runsNothing. }
    repeat wp_load_step; try (apply loadPlugin_runsNothing); quiet_solve.
Qed.

Lemma loadPluginFromPath_runsNothing (path : string) s0 s :
  runsNothing s0 s ->
  wp (loadPluginFromPath path) s (fun _ s' => runsNothing s0 s').
Proof. apply loadPluginFromPathN_runsNothing. Qed.

(** X3. Loading, from a bundle, a package or a directory, never touches
    the registry: [this.plugins_], the mapping objects, the settings
    objects and the plugin instances that exist are as before.  A plugin
    it returns is a new instance, and its id is not empty. *)
Theorem loadPluginFromPath_separate_from_registry (path : string) s :
  let r := loadPluginFromPath path s in
  plugins_ r.2 = plugins_ s
  /\ registries r.2 = registries s
  /\ settingsObjs r.2 = settingsObjs s
  /\ (forall l p, pluginObjs s !! l = Some p -> pluginObjs r.2 !! l = Some p)
  /\ (forall plugin,
        r.1 = Return plugin ->
        pluginObjs s !! plugin = None
        /\ exists p, pluginObjs r.2 !! plugin = Some p /\ plugin_id p <> "").
Proof.
  cbv zeta.
  pose proof (loadPluginFromPath_post path s) as [[_ Hp Hr Hs Ho _] Hres].
  pose proof (loadPluginFromPathN_loadedWithId fuel path s) as Hid.
  unfold wp in *. fold (loadPluginFromPath path s) in Hid.
  split; [done|]. split; [done|]. split; [done|]. split; [done|].
  intros plugin Hret. rewrite Hret in Hres, Hid. by destruct Hres.
Qed.

End Loading.

Lemma runsNothing_plugins_ s0 s l : runsNothing s0 s -> runsNothing s0 (withPlugins_ l s).
Proof. done. Qed.

Lemma runsNothing_registries s0 s r : runsNothing s0 s -> runsNothing s0 (withRegistries r s).
Proof. done. Qed.

Ltac quiet_solve' :=
  repeat first
    [ assumption
    | apply runsNothing_refl
    | apply runsNothing_files
    | apply runsNothing_pluginObjs
    | apply runsNothing_settingsObjs
    | apply runsNothing_plugins_
    | apply runsNothing_registries
    | (apply runsNothing_event; [|reflexivity]) ].

Section NeverRuns.

Context `{Host}.

Lemma installPlugin_runsNothing (jplPath : string) s :
  wp (installPlugin jplPath) s (fun _ s' => runsNothing s s').
Proof.
  unfold installPlugin.
  repeat (wp_step; cbv beta iota).
  eapply wp_mono; [apply (loadPluginFromPath_runsNothing _ s); quiet_solve'|].
  intros [preloaded|e] s1 Hs1; [|done].
  apply wp_bind, wp_readPlugin.
  destruct (pluginObjs s1 !! preloaded) as [pre|]; [|done].
  repeat (wp_step; cbv beta iota); [|done].
  eapply wp_mono; [apply (loadPluginFromPath_runsNothing _ s); quiet_solve'|].
  intros [plugin|e] s2 Hs2; [|done].
  apply wp_bind, wp_readPlugin.
  destruct (pluginObjs s2 !! plugin) as [p|]; [|done].
  unfold setPluginAt.
  repeat (wp_step; cbv beta iota); quiet_solve'.
Qed.

Lemma uninstallPlugin_runsNothing (pluginId : string) s0 s :
  runsNothing s0 s ->
  wp (uninstallPlugin pluginId) s (fun _ s' => runsNothing s0 s').
Proof.
  intros Hr. unfold uninstallPlugin, pluginPath, deletePluginAt.
  repeat (wp_step; cbv beta iota); quiet_solve'.
Qed.

Lemma uninstallPluginsLoop_runsNothing (settings : loc) (pluginIds : list string)
    (newSettings : loc) s0 s :
  runsNothing s0 s ->
  wp (uninstallPluginsLoop settings pluginIds newSettings) s (fun _ s' => runsNothing s0 s').
Proof.
  revert newSettings s.
  induction pluginIds as [|pluginId rest IH]; intros newSettings s Hr;
    cbn [uninstallPluginsLoop].
  - by apply wp_ret.
  - unfold readSettings.
    repeat (wp_step; cbv beta iota); try done; [|by apply IH].
    eapply wp_mono; [by apply (uninstallPlugin_runsNothing _ s0)|].
    intros [[]|e] s1 Hs1; [|done].
    unfold copySettingsWithout, readSettings.
    repeat (wp_step; cbv beta iota); try done.
    unfold wp at 1. cbn [fst snd]. apply IH. quiet_solve'.
Qed.

(** X4. Loading, installing and uninstalling never announce a plugin to
    the store and never call the runner: whatever they add to the trace, no
    [StoreDispatch] and no [RunnerRun] is among it. *)
Theorem only_running_dispatches :
  (forall path s, runsNothing s (loadPluginFromPath path s).2)
  /\ (forall baseDir jsBundleString fallbackId s,
        runsNothing s (loadPluginFromJsBundle baseDir jsBundleString fallbackId s).2)
  /\ (forall baseDir path s, runsNothing s (loadPluginFromPackage baseDir path s).2)
  /\ (forall jplPath s, runsNothing s (installPlugin jplPath s).2)
  /\ (forall pluginId s, runsNothing s (uninstallPlugin pluginId s).2)
  /\ (forall settings s, runsNothing s (uninstallPlugins settings s).2).
Proof.
  split; [|split; [|split; [|split; [|split]]]].
  - intros path s. apply (loadPluginFromPath_runsNothing path s s), runsNothing_refl.
  - intros baseDir text fallbackId s.
    apply (loadPluginFromJsBundle_runsNothing baseDir text fallbackId s s), runsNothing_refl.
  - intros baseDir path s.
    apply (loadPluginFromPackageWith_runsNothing loadPluginFromPath baseDir path s s);
      [intros path' s'; apply loadPluginFromPath_runsNothing|apply runsNothing_refl].
  - intros jplPath s. apply (installPlugin_runsNothing jplPath s).
  - intros pluginId s. apply (uninstallPlugin_runsNothing pluginId s s), runsNothing_refl.
  - intros settings s. unfold uninstallPlugins, readSettings.
    change (wp (o <- (objs <- gets settingsObjs ;; orThrow (objs !! settings) TypeError) ;;
                uninstallPluginsLoop settings (Settings.keys o) settings) s
              (fun _ s' => runsNothing s s')).
    repeat (wp_step; cbv beta iota); [|apply runsNothing_refl].
    apply uninstallPluginsLoop_runsNothing, runsNothing_refl.
Qed.

End NeverRuns.

(** ** Loading a bundle or a directory *)

Section LoadFormats.

Context `{Host}.

Lemma loadPluginFromJsBundle_run (baseDir jsBundleString fallbackId : string) s :
  loadPluginFromJsBundle baseDir jsBundleString fallbackId s
  = match manifestBlock jsBundleString with
    | [] => (Throw ManifestNotFound, s)
    | block =>
        loadPlugin (rtrimSlashes baseDir) (joinLines block) jsBundleString fallbackId s
    end.
Proof.
  unfold loadPluginFromJsBundle, bind, liftResult.
  rewrite parsePluginJsBundle_manifestBlock.
  by destruct (manifestBlock jsBundleString).
Qed.

Lemma loadPluginFromPath_bundle (path : string) s :
  fuel <> 0%nat ->
  endsWith (toLowerCase (rtrimSlashes path)) ".js" = true ->
  loadPluginFromPath path s
  = match files s !! rtrimSlashes path with
    | None => (Throw (FileNotFound (rtrimSlashes path)), s)
    | Some jsBundleString =>
        loadPluginFromJsBundle (dirname (rtrimSlashes path)) jsBundleString
          (filename (rtrimSlashes path)) s
    end.
Proof.
  intros Hfuel Hjs. unfold loadPluginFromPath.
  destruct fuel as [|n]; [done|]. cbn [loadPluginFromPathN]. cbv zeta. rewrite Hjs.
  unfold bind at 1, fsReadFile, bind at 1, gets, orThrow.
  by destruct (files s !! rtrimSlashes path).
Qed.

Lemma loadPluginFromPath_directory (path : string) s :
  fuel <> 0%nat ->
  endsWith (toLowerCase (rtrimSlashes path)) ".js" = false ->
  endsWith (toLowerCase (rtrimSlashes path)) ".jpl" = false ->
  let p := rtrimSlashes path in
  let distPath :=
    if bool_decide (is_Some (files s !! (p +:+ "/manifest.json"))) then p else p +:+ "/dist" in
  let s1 := withEvents (events s ++ [Log (LoadingPluginFrom p)]) s in
  loadPluginFromPath path s
  = match files s !! (distPath +:+ "/index.js") with
    | None => (Throw (FileNotFound (distPath +:+ "/index.js")), s1)
    | Some scriptText =>
        match files s !! (distPath +:+ "/manifest.json") with
        | None => (Throw (FileNotFound (distPath +:+ "/manifest.json")), s1)
        | Some manifestText =>
            loadPlugin distPath manifestText scriptText (makePluginId (filename p)) s1
        end
    end.
Proof.
  intros Hfuel Hjs Hjpl p distPath s1. unfold loadPluginFromPath.
  destruct fuel as [|n]; [done|]. cbn [loadPluginFromPathN]. cbv zeta. rewrite Hjs, Hjpl.
  fold p.
  cbv [bind fsExists gets ret logger emit modify fsReadFile orThrow throw].
  cbn [files withEvents]. fold distPath. fold s1.
  destruct (files s !! (distPath +:+ "/index.js")); [|done].
  change (files s1) with (files s).
  by destruct (files s !! (distPath +:+ "/manifest.json")).
Qed.

(** X5. A path that ends in [.js], in any letter case, is loaded as a
    bundle: when the manifest block of the file decodes to an object with
    an id (its own, or else the file name), the plugin returned is a new
    instance that carries the whole text of the file as its script, the
    directory of the file as its base directory; nothing but the plugin
    instances changes. *)
Theorem loadPluginFromPath_bundle_loaded (path jsBundleString : string) (o : JsObj.Props) s :
  fuel <> 0%nat ->
  let p := rtrimSlashes path in
  endsWith (toLowerCase p) ".js" = true ->
  files s !! p = Some jsBundleString ->
  manifestBlock jsBundleString <> [] ->
  JSON_parse (joinLines (manifestBlock jsBundleString)) = Some (JsObject o) ->
  idAfterDefaulting (filename p) o <> "" ->
  exists pl,
    loadPluginFromPath path s
    = (Return (fresh (dom (pluginObjs s))),
       withPluginObjs (<[fresh (dom (pluginObjs s)) := pl]> (pluginObjs s)) s)
    /\ plugin_scriptText pl = jsBundleString
    /\ plugin_id pl = idAfterDefaulting (filename p) o
    /\ plugin_baseDir pl = rtrimSlashes (rtrimSlashes (dirname p)).
Proof.
  intros Hfuel p Hjs Hfile Hblock Hparse Hid.
  rewrite (loadPluginFromPath_bundle _ _ Hfuel Hjs). fold p. rewrite Hfile.
  rewrite loadPluginFromJsBundle_run.
  destruct (manifestBlock jsBundleString) as [|l block] eqn:Hb; [done|].
  rewrite (loadPlugin_decoded _ _ _ _ _ _ Hparse). cbv zeta.
  apply isEmpty_false in Hid. rewrite Hid.
  eexists. split; [reflexivity|]. split; [done|]. split; [|done].
  unfold plugin_id. cbn [plugin_manifest manifestFromObject manifest_id].
  apply idAfterDefaulting_get.
Qed.

(** X6. A bundle that cannot be loaded leaves no trace: when the file is
    missing, has no manifest block, or its manifest is not JSON or not an
    object, [loadPluginFromPath] fails with the matching error and the
    state is exactly as before. *)
Theorem loadPluginFromPath_bundle_failures (path : string) s :
  fuel <> 0%nat ->
  let p := rtrimSlashes path in
  endsWith (toLowerCase p) ".js" = true ->
  (files s !! p = None -> loadPluginFromPath path s = (Throw (FileNotFound p), s))
  /\ (forall jsBundleString,
        files s !! p = Some jsBundleString ->
        (manifestBlock jsBundleString = [] ->
           loadPluginFromPath path s = (Throw ManifestNotFound, s))
        /\ (manifestBlock jsBundleString <> [] ->
            JSON_parse (joinLines (manifestBlock jsBundleString)) = None ->
            loadPluginFromPath path s = (Throw ManifestDecodeError, s))
        /\ (forall v,
              manifestBlock jsBundleString <> [] ->
              JSON_parse (joinLines (manifestBlock jsBundleString)) = Some v ->
              (forall o, v <> JsObject o) ->
              loadPluginFromPath path s = (Throw TypeError, s))).
Proof.
  intros Hfuel p Hjs.
  rewrite (loadPluginFromPath_bundle _ _ Hfuel Hjs). fold p. split.
  - by intros ->.
  - intros text ->. rewrite loadPluginFromJsBundle_run. split; [|split].
    + by intros ->.
    + intros Hblock Hparse.
      destruct (manifestBlock text) as [|l block] eqn:Hb; [done|].
      unfold loadPlugin, bind, orThrow. by rewrite Hparse.
    + intros v Hblock Hparse Hobj.
      destruct (manifestBlock text) as [|l block] eqn:Hb; [done|].
      unfold loadPlugin, bind, orThrow. rewrite Hparse. unfold ret.
      destruct v as [| | | |o]; try done. by destruct (Hobj o).
Qed.

(** X7. Any other path is loaded as a directory: from the directory itself
    when it holds a [manifest.json], from its [dist] subdirectory
    otherwise.  A missing [index.js] is reported before the manifest is
    read.  When both files are there and the manifest decodes to an object
    with an id, the plugin has the script of [index.js] and the directory
    read from as base directory; a manifest without id gets the slug of the
    directory name, of at most 32 characters. *)
Theorem loadPluginFromPath_directory_loaded (path : string) s :
  fuel <> 0%nat ->
  let p := rtrimSlashes path in
  endsWith (toLowerCase p) ".js" = false ->
  endsWith (toLowerCase p) ".jpl" = false ->
  let distPath :=
    if bool_decide (is_Some (files s !! (p +:+ "/manifest.json"))) then p else p +:+ "/dist" in
  let s1 := withEvents (events s ++ [Log (LoadingPluginFrom p)]) s in
  (files s !! (distPath +:+ "/index.js") = None ->
     loadPluginFromPath path s = (Throw (FileNotFound (distPath +:+ "/index.js")), s1))
  /\ (forall scriptText manifestText o,
        files s !! (distPath +:+ "/index.js") = Some scriptText ->
        files s !! (distPath +:+ "/manifest.json") = Some manifestText ->
        JSON_parse manifestText = Some (JsObject o) ->
        idAfterDefaulting (makePluginId (filename p)) o <> "" ->
        exists pl,
          loadPluginFromPath path s
          = (Return (fresh (dom (pluginObjs s))),
             withPluginObjs (<[fresh (dom (pluginObjs s)) := pl]> (pluginObjs s)) s1)
          /\ plugin_scriptText pl = scriptText
          /\ plugin_baseDir pl = rtrimSlashes distPath
          /\ plugin_id pl = idAfterDefaulting (makePluginId (filename p)) o
          /\ (JsObj.truthy (JsObj.get "id" o) = false ->
              plugin_id pl = makePluginId (filename p)
              /\ String.length (plugin_id pl) <= 32)).
Proof.
  intros Hfuel p Hjs Hjpl distPath s1.
  rewrite (loadPluginFromPath_directory _ _ Hfuel Hjs Hjpl). cbv zeta.
  fold p. fold distPath. fold s1. split.
  - by intros ->.
  - intros scriptText manifestText o -> -> Hparse Hid.
    rewrite (loadPlugin_decoded _ _ _ _ _ _ Hparse). cbv zeta.
    apply isEmpty_false in Hid. rewrite Hid.
    eexists. split; [reflexivity|]. split; [done|]. split; [done|].
    unfold plugin_id. cbn [plugin_manifest manifestFromObject manifest_id].
    rewrite idAfterDefaulting_get. split; [done|].
    intros Hnoid. unfold idAfterDefaulting. rewrite Hnoid. split; [done|].
    unfold makePluginId, substr0. apply substring_length_le.
Qed.

End LoadFormats.

(** ** Packages that cannot be unpacked *)

Section PackageErrors.

Context `{Host}.



End PackageErrors.

(** ** Uninstalling *)

Lemma deletePluginAt_returns (pluginId : string) s :
  (deletePluginAt pluginId s).1 = Return tt.
Proof.
  destruct (currentPlugins s !! pluginId) eqn:Hcur.
  - by rewrite deletePluginAt_present by eauto.
  - by rewrite deletePluginAt_absent.
Qed.

Lemma deletePluginAt_rest (pluginId : string) s :
  let s' := (deletePluginAt pluginId s).2 in
  files s' = files s /\ pluginObjs s' = pluginObjs s /\ events s' = events s.
Proof.
  cbv zeta. destruct (currentPlugins s !! pluginId) eqn:Hcur.
  - by rewrite deletePluginAt_present by eauto.
  - by rewrite deletePluginAt_absent.
Qed.

Lemma Settings_get_key (pluginId : string) (o : PluginSettings) :
  pluginId ∈ Settings.keys o -> is_Some (Settings.get pluginId o).
Proof.
  induction o as [|[k v] o IH]; cbn.
  - by intros ?%elem_of_nil.
  - intros Hin. destruct (String.eqb k pluginId) eqn:Hk; [eauto|].
    apply elem_of_cons in Hin as [->|Hin]; [|auto].
    by rewrite String.eqb_refl in Hk.
Qed.

Lemma Settings_get_in (pluginId : string) (setting : PluginSetting) (o : PluginSettings) :
  Settings.get pluginId o = Some setting -> (pluginId, setting) ∈ o.
Proof.
  induction o as [|[k v] o IH]; cbn; [done|].
  destruct (String.eqb k pluginId) eqn:Hk.
  - apply String.eqb_eq in Hk. intros [= ->]. subst. left.
  - intros Hget. right. auto.
Qed.

Section Uninstalling.

Context `{Host}.

Lemma uninstallPlugin_run (pluginId : string) s :
  uninstallPlugin pluginId s
  = let s1 := withEvents (events s ++ [Log (UninstallingPlugin pluginId)]) s in
    match readDirStats (files s) pluginDir with
    | None => (Throw (FileNotFound pluginDir), s1)
    | Some stats =>
        deletePluginAt pluginId
          match findPluginStat pluginId stats with
          | Some path =>
              withFiles (fsRemoved path (files s1)) (withEvents (events s1 ++ [FsRemove path]) s1)
          | None => withEvents (events s1 ++ [Log (CouldNotFindPluginPath pluginId)]) s1
          end
    end.
Proof.
  unfold uninstallPlugin, pluginPath.
  cbv [bind logger emit modify gets orThrow ret fsRemove]. cbn [files withEvents].
  destruct (readDirStats (files s) pluginDir) as [stats|]; [|done].
  by destruct (findPluginStat pluginId stats).
Qed.


Lemma uninstallPlugin_registry (pluginId : string) s :
  wp (uninstallPlugin pluginId) s
    (fun r s' =>
       settingsObjs s' = settingsObjs s
       /\ match r with
          | Return _ => currentPlugins s' = delete pluginId (currentPlugins s)
          | Throw e => e = FileNotFound pluginDir
          end).
Proof.
  unfold uninstallPlugin, pluginPath.
  repeat (wp_step; cbv beta iota); try done;
    unfold wp; rewrite deletePluginAt_settingsObjs, deletePluginAt_returns,
      deletePluginAt_current; done.
Qed.

Lemma copySettingsWithout_registry (settings : loc) (pluginId : string) (o : PluginSettings) s :
  settingsObjs s !! settings = Some o ->
  wp (copySettingsWithout settings pluginId) s
    (fun r s' =>
       is_Some (match r with Return l => Some l | Throw _ => None end)
       /\ settingsObjs s' !! settings = Some o
       /\ currentPlugins s' = currentPlugins s).
Proof.
  intros Hin. unfold copySettingsWithout, readSettings.
  apply wp_bind, wp_bind, wp_gets. cbv beta iota.
  apply wp_orThrow. rewrite Hin.
  unfold wp. cbn [fst snd settingsObjs withSettingsObjs].
  assert (fresh (dom (settingsObjs s)) <> settings) as Hfresh.
  { intros Heq. pose proof (is_fresh (dom (settingsObjs s))) as Hnotin.
    rewrite Heq in Hnotin. apply Hnotin, elem_of_dom. eauto. }
  split; [eauto|]. split; [|done].
  by rewrite alter_insert_eq, lookup_insert_ne.
Qed.

Lemma uninstallPluginsLoop_registry (settings : loc) (o : PluginSettings)
    (pluginIds : list string) (newSettings : loc) s :
  settingsObjs s !! settings = Some o ->
  (forall id, id ∈ pluginIds -> is_Some (Settings.get id o)) ->
  wp (uninstallPluginsLoop settings pluginIds newSettings) s
    (fun r s' =>
       match r with
       | Return _ =>
           forall id, currentPlugins s' !! id
                      = if bool_decide (id ∈ pluginIds) && flaggedDeleted o id then None
                        else currentPlugins s !! id
       | Throw e => e = FileNotFound pluginDir
       end).
Proof.
  revert newSettings s.
  induction pluginIds as [|pluginId rest IH]; intros newSettings s Hin Hkeys;
    cbn [uninstallPluginsLoop].
  - apply wp_ret. intros id. by rewrite bool_decide_eq_false_2 by apply not_elem_of_nil.
  - assert (forall id, id ∈ rest -> is_Some (Settings.get id o)) as Hrest.
    { intros id Hid. apply Hkeys. set_solver. }
    assert (forall s1 l,
              settingsObjs s1 !! settings = Some o ->
              currentPlugins s1
              = (if flaggedDeleted o pluginId then delete pluginId (currentPlugins s)
                 else currentPlugins s) ->
              wp (uninstallPluginsLoop settings rest l) s1
                (fun r s' =>
                   match r with
                   | Return _ =>
                       forall id, currentPlugins s' !! id
                                  = if bool_decide (id ∈ pluginId :: rest) && flaggedDeleted o id
                                    then None else currentPlugins s !! id
                   | Throw e => e = FileNotFound pluginDir
                   end)) as Hgo.
    { intros s1 l Hin1 Hcur1. eapply wp_mono; [by apply IH|].
      intros [l'|e] s' Hpost; [|done]. intros id. rewrite Hpost, Hcur1.
      destruct (decide (id = pluginId)) as [->|Hne].
      - rewrite (bool_decide_eq_true_2 (pluginId ∈ pluginId :: rest)) by set_solver.
        cbn [andb]. destruct (flaggedDeleted o pluginId) eqn:Hflag.
        + rewrite lookup_delete_eq. by destruct (_ && _).
        + by rewrite andb_false_r.
      - assert (bool_decide (id ∈ pluginId :: rest) = bool_decide (id ∈ rest)) as ->.
        { apply bool_decide_ext. rewrite elem_of_cons. tauto. }
        destruct (bool_decide (id ∈ rest) && flaggedDeleted o id); [done|].
        destruct (flaggedDeleted o pluginId); [|done].
        by rewrite lookup_delete_ne. }
    unfold readSettings.
    apply wp_bind, wp_bind, wp_gets. cbv beta iota.
    apply wp_orThrow. rewrite Hin.
    apply wp_bind, wp_orThrow.
    destruct (Hkeys pluginId) as [setting Hsetting]; [set_solver|].
    rewrite Hsetting.
    assert (flaggedDeleted o pluginId = deleted setting) as Hflag
      by (unfold flaggedDeleted; by rewrite Hsetting).
    destruct (deleted setting).
    + apply wp_bind. eapply wp_mono; [apply uninstallPlugin_registry|].
      intros [[]|e] s1 [Hs1 Hcur1]; [|done].
      apply wp_bind. eapply wp_mono;
        [apply (copySettingsWithout_registry settings pluginId o); by rewrite Hs1|].
      intros [l|e] s2 (Hsome & Hin2 & Hcur2); [|by destruct Hsome].
      apply Hgo; [done|]. by rewrite Hflag, Hcur2.
    + apply Hgo; [done|]. by rewrite Hflag.
Qed.

Lemma uninstallPluginsLoop_idle (settings : loc) (o : PluginSettings)
    (pluginIds : list string) (newSettings : loc) s :
  settingsObjs s !! settings = Some o ->
  (forall id, id ∈ pluginIds -> is_Some (Settings.get id o)) ->
  (forall id, flaggedDeleted o id = false) ->
  uninstallPluginsLoop settings pluginIds newSettings s = (Return newSettings, s).
Proof.
  intros Hin Hkeys Hnone.
  induction pluginIds as [|pluginId rest IH]; cbn [uninstallPluginsLoop]; [done|].
  destruct (Hkeys pluginId) as [setting Hsetting]; [set_solver|].
  pose proof (Hnone pluginId) as Hflag. unfold flaggedDeleted in Hflag.
  rewrite Hsetting in Hflag.
  unfold readSettings. cbv [bind gets orThrow]. rewrite Hin. cbv [ret].
  rewrite Hsetting. cbv [ret]. rewrite Hflag.
  apply IH. intros id Hid. apply Hkeys. set_solver.
Qed.

(** X10. What [uninstallPlugins] does to the registry, for a settings
    object [o]: the only way it fails is the listing of the plugin
    directory; when it returns, the registry has lost exactly the ids that
    [o] flags deleted - every one of them, not only the last - and every
    other entry is as before.  When [o] flags nothing it returns the very
    object it was given and does nothing at all. *)
Theorem uninstallPlugins_registry (settings : loc) (o : PluginSettings) s :
  settingsObjs s !! settings = Some o ->
  let r := uninstallPlugins settings s in
  match r.1 with
  | Return _ =>
      forall id, currentPlugins r.2 !! id
                 = if flaggedDeleted o id then None else currentPlugins s !! id
  | Throw e => e = FileNotFound pluginDir
  end
  /\ ((forall id, flaggedDeleted o id = false) -> r = (Return settings, s)).
Proof.
  intros Hin. cbv zeta. split.
  - change (wp (uninstallPlugins settings) s
              (fun r s' =>
                 match r with
                 | Return _ =>
                     forall id, currentPlugins s' !! id
                                = if flaggedDeleted o id then None else currentPlugins s !! id
                 | Throw e => e = FileNotFound pluginDir
                 end)).
    unfold uninstallPlugins, readSettings.
    apply wp_bind, wp_bind, wp_gets. cbv beta iota.
    apply wp_orThrow. rewrite Hin.
    eapply wp_mono;
      [apply (uninstallPluginsLoop_registry settings o); [done|intros id; apply Settings_get_key]|].
    intros [l|e] s' Hpost; [|done]. intros id. rewrite Hpost.
    destruct (flaggedDeleted o id) eqn:Hflag; [|by rewrite andb_false_r].
    rewrite bool_decide_eq_true_2; [done|].
    unfold flaggedDeleted in Hflag.
    destruct (Settings.get id o) as [setting|] eqn:Hget; [|done].
    apply Settings_get_in in Hget. unfold Settings.keys.
    apply (list_elem_of_fmap_2 fst) in Hget. exact Hget.
  - intros Hnone. unfold uninstallPlugins, readSettings, bind at 1 2, gets, orThrow.
    rewrite Hin. by apply (uninstallPluginsLoop_idle settings o); [|intros id; apply Settings_get_key|].
Qed.

End Uninstalling.

(** ** Installing *)

Section Installing.

Context `{Host}.



End Installing.

(** ** Which plugins a batch starts *)

Lemma dispatchedIds_app (e1 e2 : list Event) :
  dispatchedIds (e1 ++ e2) = dispatchedIds e1 ++ dispatchedIds e2.
Proof. apply omap_app. Qed.

Lemma runnerCalls_app (e1 e2 : list Event) :
  runnerCalls (e1 ++ e2) = runnerCalls e1 ++ runnerCalls e2.
Proof. apply omap_app. Qed.

Lemma quiet_events (evs : list Event) :
  Forall (fun e => isRunEvent e = false) evs ->
  dispatchedIds evs = [] /\ runnerCalls evs = [].
Proof.
  induction 1 as [|e evs He _ [IH1 IH2]]; [done|].
  unfold dispatchedIds, runnerCalls in *. cbn [omap list_omap].
  rewrite IH1, IH2. by destruct e as [| | | | |[]| |].
Qed.

Lemma startsFresh_quiet (settings : PluginSettings) s s' :
  runsNothing s s' -> exists evs, startsFresh settings s s' evs.
Proof.
  intros (evs & Hevs & Hq). exists evs. destruct (quiet_events _ Hq) as [Hd Hr].
  unfold startsFresh. rewrite Hd, Hr.
  split; [done|]. split; [constructor|]. split; intros ? ?%elem_of_nil; done.
Qed.

Lemma startsFresh_trans (settings : PluginSettings) s1 s2 s3 e1 e2 :
  batchFrame s1 s2 -> batchFrame s2 s3 ->
  startsFresh settings s1 s2 e1 -> startsFresh settings s2 s3 e2 ->
  startsFresh settings s1 s3 (e1 ++ e2).
Proof.
  intros Hb1 Hb2 (He1 & Hn1 & Hd1 & Hr1) (He2 & Hn2 & Hd2 & Hr2).
  unfold startsFresh. rewrite dispatchedIds_app, runnerCalls_app.
  split; [by rewrite He2, He1, app_assoc|]. split; [|split].
  - apply NoDup_app. split; [done|]. split; [|done].
    intros id Hid1 Hid2.
    destruct (Hd1 id Hid1) as (_ & _ & [l Hl]). destruct (Hd2 id Hid2) as (_ & Hnone & _).
    congruence.
  - intros id [Hid|Hid]%elem_of_app.
    + destruct (Hd1 id Hid) as (Hon & Hnone & [l Hl]).
      split; [done|]. split; [done|]. exists l. by apply (batch_entries _ _ Hb2).
    + destruct (Hd2 id Hid) as (Hon & Hnone & Hsome).
      split; [done|]. split; [|done].
      destruct (currentPlugins s1 !! id) as [l|] eqn:Hl; [|done].
      apply (batch_entries _ _ Hb1) in Hl. congruence.
  - intros plugin [Hin|Hin]%elem_of_app.
    + destruct (Hr1 plugin Hin) as (p & Hp & Hreg & Hid).
      exists p. split; [by apply (batch_pluginObjs _ _ Hb2)|].
      split; [by apply (batch_entries _ _ Hb2)|]. apply elem_of_app. by left.
    + destruct (Hr2 plugin Hin) as (p & Hp & Hreg & Hid).
      exists p. split; [done|]. split; [done|]. apply elem_of_app. by right.
Qed.

Section Starts.

Context `{Host}.

Variables (settings : PluginSettings) (devMode : bool).

(** [runPlugin] under the handler of the loop: nothing but events, and
    either no start at all or the dispatch followed by the runner call. *)
Lemma runPlugin_logged_events (plugin : loc) (p : Plugin) (pluginPath : string) s :
  pluginObjs s !! plugin = Some p ->
  exists evs,
    (tryCatch (runPlugin plugin)
       (fun error => logger (CouldNotLoadPlugin pluginPath error)) s).2
    = withEvents (events s ++ evs) s
    /\ ((dispatchedIds evs = [] /\ runnerCalls evs = [])
        \/ (dispatchedIds evs = [plugin_id p] /\ runnerCalls evs = [plugin])).
Proof.
  intros Hp.
  destruct (compareVersions (appVersion_ s) (manifest_app_min_version (plugin_manifest p)))
    as [c|] eqn:Hc.
  - destruct (Z.lt_ge_cases c 0) as [Hlt|Hge].
    + exists [Log (CouldNotLoadPlugin pluginPath (VersionTooOld (plugin_id p)))].
      unfold tryCatch. rewrite (runPlugin_too_old _ _ _ _ Hp Hc Hlt). split; [done|by left].
    + unfold tryCatch. rewrite (runPlugin_compatible _ _ _ _ Hp Hc Hge).
      destruct (runnerRun p) as [[]|e].
      * exists [StoreDispatch (PLUGIN_ADD (plugin_id p)); RunnerRun plugin].
        split; [done|by right].
      * exists [StoreDispatch (PLUGIN_ADD (plugin_id p)); RunnerRun plugin;
                Log (CouldNotLoadPlugin pluginPath e)].
        split; [|by right].
        unfold logger, emit, modify. cbn. by rewrite <- app_assoc.
  - exists [Log (CouldNotLoadPlugin pluginPath InvalidVersion)].
    split; [|by left].
    unfold tryCatch, runPlugin, bind, readPlugin, gets, orThrow. by rewrite Hp, Hc.
Qed.

Lemma loadAndRunCandidate_starts (pluginPath : string) s :
  exists evs, startsFresh settings s (loadAndRunCandidate settings devMode pluginPath s).2 evs.
Proof.
  destruct (startsWith (filename pluginPath) "_") eqn:Hu.
  { rewrite loadAndRunCandidate_underscore by done. cbn [snd].
    apply startsFresh_quiet. apply runsNothing_event; [apply runsNothing_refl|done]. }
  pose proof (loadPluginFromPath_post pluginPath s) as Hpost.
  pose proof (loadPluginFromPath_runsNothing pluginPath s s (runsNothing_refl s)) as Hquiet.
  unfold wp in Hpost, Hquiet.
  destruct (loadPluginFromPath pluginPath s) as [[plugin|e] s1] eqn:Hload;
    cbn [fst snd] in Hpost, Hquiet; destruct Hpost as [Hf Hres].
  2:{ rewrite (loadAndRunCandidate_load_fails _ _ _ _ _ _ Hu Hload). cbn [snd].
      apply startsFresh_quiet. by apply runsNothing_event. }
  destruct Hres as [Hnew [p Hp]].
  pose proof (loadFrame_current _ _ Hf) as Hcur1.
  destruct (currentPlugins s1 !! plugin_id p) as [l0|] eqn:Hcur.
  { rewrite (loadAndRunCandidate_duplicate _ _ _ _ _ _ _ Hu Hload Hp) by eauto. cbn [snd].
    apply startsFresh_quiet. by apply runsNothing_event. }
  destruct (pluginEnabled settings (plugin_id p)) eqn:Hon.
  - rewrite (loadAndRunCandidate_enabled _ _ _ _ _ _ _ Hu Hload Hp Hcur Hon).
    cbv zeta. cbn [snd].
    pose proof (setPluginAt_current (plugin_id p) plugin s1) as Hset.
    rewrite setPluginAt_state in *. cbn [snd] in *.
    set (s2 := withPlugins_ _ _) in *.
    set (s3 := withPluginObjs (alter (setDevMode devMode) plugin (pluginObjs s2)) s2).
    assert (pluginObjs s3 !! plugin = Some (setDevMode devMode p)) as Hp3.
    { subst s3 s2. cbn. by rewrite lookup_alter_eq, Hp. }
    destruct (runPlugin_logged_events plugin _ pluginPath s3 Hp3) as (evs & -> & Hcases).
    destruct Hquiet as (evs0 & Hevs0 & Hq). destruct (quiet_events _ Hq) as [Hd0 Hr0].
    exists (evs0 ++ evs). unfold startsFresh. rewrite dispatchedIds_app, runnerCalls_app, Hd0, Hr0.
    cbn [app]. split; [subst s3 s2; cbn; by rewrite Hevs0, app_assoc|].
    change (currentPlugins (withEvents (events s3 ++ evs) s3)) with (currentPlugins s2).
    rewrite Hset.
    destruct Hcases as [[-> ->]|[-> ->]].
    + split; [constructor|]. split; intros ? ?%elem_of_nil; done.
    + rewrite setDevMode_id. split; [apply NoDup_singleton|]. split.
      * intros id ->%list_elem_of_singleton.
        split; [done|]. split; [by rewrite <- Hcur1|]. rewrite lookup_insert_eq. eauto.
      * intros l ->%list_elem_of_singleton. exists (setDevMode devMode p).
        split; [done|]. rewrite setDevMode_id. split; [by rewrite lookup_insert_eq|].
        by apply list_elem_of_singleton.
  - rewrite (loadAndRunCandidate_disabled _ _ _ _ _ _ _ Hu Hload Hp Hcur Hon).
    cbv zeta. cbn [snd]. rewrite setPluginAt_state. cbn [snd].
    apply startsFresh_quiet.
    apply runsNothing_event; [|done]. exact Hquiet.
Qed.

Lemma forEach_starts (pluginPaths : list string) s :
  exists evs,
    startsFresh settings s (forEach pluginPaths (loadAndRunCandidate settings devMode) s).2 evs.
Proof.
  revert s. induction pluginPaths as [|pluginPath rest IH]; intros s; cbn [forEach].
  - apply startsFresh_quiet, runsNothing_refl.
  - unfold bind.
    pose proof (loadAndRunCandidate_returns settings devMode pluginPath s) as Hret.
    pose proof (loadAndRunCandidate_frame settings devMode pluginPath s) as [Hf _].
    destruct (loadAndRunCandidate_starts pluginPath s) as [e1 He1].
    destruct (loadAndRunCandidate settings devMode pluginPath s) as [r s1].
    cbn [fst snd] in *. subst r.
    destruct (IH s1) as [e2 He2].
    destruct (forEach_candidates settings devMode rest s1) as (_ & Hf' & _).
    exists (e1 ++ e2). by eapply startsFresh_trans.
Qed.

(** X12. Whatever a batch is given - a list of paths or a directory to
    scan - the plugins it starts are plugins it has registered itself:
    every id it dispatches [PLUGIN_ADD] for was free before the batch, is
    registered after it and is not disabled by the settings; no id is
    dispatched twice; and every plugin handed to the runner is the
    registered plugin of an id that was dispatched. *)
Theorem loadAndRunPlugins_starts_once (pluginDirOrPaths : string + list string) s :
  let s' := (loadAndRunPlugins pluginDirOrPaths settings devMode s).2 in
  exists evs,
    events s' = events s ++ evs
    /\ NoDup (dispatchedIds evs)
    /\ (forall id, id ∈ dispatchedIds evs ->
          pluginEnabled settings id = true
          /\ currentPlugins s !! id = None
          /\ is_Some (currentPlugins s' !! id))
    /\ (forall plugin, plugin ∈ runnerCalls evs ->
          exists p, pluginObjs s' !! plugin = Some p
                    /\ currentPlugins s' !! plugin_id p = Some plugin
                    /\ plugin_id p ∈ dispatchedIds evs).
Proof.
  cbv zeta. fold (startsFresh settings s).
  change (exists evs,
             startsFresh settings s
               (loadAndRunPlugins pluginDirOrPaths settings devMode s).2 evs).
  destruct pluginDirOrPaths as [dir|paths].
  - destruct (readDirStats (files s) dir) as [stats|] eqn:Hstats.
    + rewrite (loadAndRunPlugins_scan _ _ _ _ _ Hstats), loadAndRunPlugins_paths.
      apply forEach_starts.
    + unfold loadAndRunPlugins, scanPluginDir, bind, gets, orThrow. rewrite Hstats.
      apply startsFresh_quiet, runsNothing_refl.
  - rewrite loadAndRunPlugins_paths. apply forEach_starts.
Qed.

End Starts.

(** ** The settings codec as a normalisation *)

Lemma JsObj_keys_set (k : string) (v : JsAny) (o : JsObj.Props) :
  JsObj.keys (JsObj.set k v o)
  = if bool_decide (k ∈ JsObj.keys o) then JsObj.keys o else JsObj.keys o ++ [k].
Proof.
  induction o as [|[k' v'] o IH]; cbn.
  - by rewrite bool_decide_eq_false_2 by apply not_elem_of_nil.
  - destruct (String.eqb k' k) eqn:Hk.
    + apply String.eqb_eq in Hk. subst k'. cbn.
      by rewrite bool_decide_eq_true_2 by apply list_elem_of_here.
    + apply String.eqb_neq in Hk. cbn. unfold JsObj.keys in IH. rewrite IH.
      destruct (decide (k ∈ map fst o)) as [Hin|Hnotin].
      * rewrite !bool_decide_eq_true_2; [done| |done]. by apply list_elem_of_further.
      * rewrite !bool_decide_eq_false_2; [done| |done].
        rewrite elem_of_cons. intros [?|?]; congruence.
Qed.

Lemma filter_iff_in {A} (P1 P2 : A -> Prop)
    `{!forall x, Decision (P1 x), !forall x, Decision (P2 x)} (l : list A) :
  (forall x, x ∈ l -> P1 x <-> P2 x) -> filter P1 l = filter P2 l.
Proof.
  induction l as [|a l IH]; intros Hiff; [done|].
  rewrite !filter_cons.
  rewrite IH by (intros x Hx; apply Hiff; by apply list_elem_of_further).
  pose proof (Hiff a (list_elem_of_here a l)) as Ha.
  destruct (decide (P1 a)), (decide (P2 a)); tauto || done.
Qed.

Lemma filter_none {A} (P : A -> Prop) `{!forall x, Decision (P x)} (l : list A) :
  (forall x, x ∈ l -> ~ P x) -> filter P l = [].
Proof.
  induction l as [|a l IH]; intros Hnone; [done|].
  rewrite filter_cons_False by (apply Hnone, list_elem_of_here).
  apply IH. intros x Hx. apply Hnone. by apply list_elem_of_further.
Qed.

Lemma JsObj_keys_assign (a b : JsObj.Props) :
  NoDup (JsObj.keys b) ->
  JsObj.keys (JsObj.assign a b)
  = JsObj.keys a ++ filter (fun k => k ∉ JsObj.keys a) (JsObj.keys b).
Proof.
  unfold JsObj.assign. revert a.
  induction b as [|[k v] b IH]; intros a Hnodup; cbn [fold_left fst snd].
  - cbn. by rewrite app_nil_r.
  - cbn in Hnodup. apply NoDup_cons in Hnodup as [Hnotin Hnodup].
    rewrite IH by done. rewrite JsObj_keys_set.
    change (JsObj.keys ((k, v) :: b)) with (k :: JsObj.keys b).
    rewrite filter_cons.
    destruct (decide (k ∈ JsObj.keys a)) as [Hin|Hout].
    + rewrite bool_decide_eq_true_2 by done.
      by rewrite decide_False by (by intros ?).
    + rewrite bool_decide_eq_false_2 by done.
      rewrite decide_True by done. rewrite <- app_assoc. cbn [app]. do 2 f_equal.
      apply filter_iff_in. intros k' Hk'. rewrite elem_of_app, list_elem_of_singleton.
      split; [tauto|]. intros Hk'a [?|Heq]; [done|]. by subst k'.
Qed.

Lemma JsObj_get_keys (k : string) (o : JsObj.Props) :
  is_Some (JsObj.get k o) <-> k ∈ JsObj.keys o.
Proof.
  induction o as [|[k' v] o IH]; cbn.
  - split; [by intros [? ?]|by intros ?%elem_of_nil].
  - destruct (String.eqb k' k) eqn:Hk.
    + apply String.eqb_eq in Hk. subst. split; [intros _; apply list_elem_of_here|eauto].
    + apply String.eqb_neq in Hk. rewrite IH, elem_of_cons. unfold JsObj.keys.
      split; [tauto|]. intros [?|?]; [congruence|done].
Qed.

(** Objects with the same keys, in the same order, holding the same
    values are the same object. *)
Lemma JsObj_props_ext (x y : JsObj.Props) :
  NoDup (JsObj.keys x) ->
  JsObj.keys x = JsObj.keys y ->
  (forall k, JsObj.get k x = JsObj.get k y) ->
  x = y.
Proof.
  revert y. induction x as [|[k v] x IH]; intros [|[k' v'] y] Hnodup Hkeys Hget;
    cbn in Hkeys; try done.
  injection Hkeys as <- Hkeys.
  cbn in Hnodup. apply NoDup_cons in Hnodup as [Hnotin Hnodup].
  pose proof (Hget k) as Hk. cbn in Hk. rewrite String.eqb_refl in Hk. injection Hk as <-.
  f_equal. apply IH; [done|done|].
  intros k0. specialize (Hget k0). cbn in Hget.
  destruct (String.eqb k k0) eqn:Hk0; [|done].
  apply String.eqb_eq in Hk0. subst k0.
  rewrite (JsObj_get_notin k x) by done.
  rewrite (JsObj_get_notin k y); [done|]. unfold JsObj.keys. by rewrite <- Hkeys.
Qed.

Lemma JsObj_assign_NoDup (a b : JsObj.Props) :
  NoDup (JsObj.keys a) -> NoDup (JsObj.keys b) -> NoDup (JsObj.keys (JsObj.assign a b)).
Proof.
  intros Ha Hb. rewrite JsObj_keys_assign by done.
  apply NoDup_app. split; [done|]. split; [|by apply NoDup_filter].
  intros k Hin [Hout _]%list_elem_of_filter. done.
Qed.

Lemma JsObj_assign_idem (a b : JsObj.Props) :
  NoDup (JsObj.keys a) -> NoDup (JsObj.keys b) ->
  JsObj.assign a (JsObj.assign a b) = JsObj.assign a b.
Proof.
  intros Ha Hb. pose proof (JsObj_assign_NoDup a b Ha Hb) as Hm.
  apply JsObj_props_ext.
  - by apply JsObj_assign_NoDup.
  - rewrite (JsObj_keys_assign a (JsObj.assign a b)) by done.
    rewrite (JsObj_keys_assign a b) by done.
    rewrite filter_app. rewrite (filter_none _ (JsObj.keys a)) by (intros k Hk Hnot; done).
    cbn [app]. f_equal. rewrite list_filter_filter. apply list_filter_iff. tauto.
  - intros k. rewrite (JsObj_assign_get k a (JsObj.assign a b)) by done.
    destruct (JsObj.get k (JsObj.assign a b)) as [v|] eqn:Hget; [done|].
    rewrite (JsObj_assign_get k a b) in Hget by done.
    by destruct (JsObj.get k b).
Qed.

Lemma defaultPluginSettingObj_NoDup : NoDup (JsObj.keys defaultPluginSettingObj).
Proof. cbn. apply NoDup_cons. split; [|apply NoDup_singleton]. by intros ?%list_elem_of_singleton. Qed.

Lemma mergeOverDefault_idem (entry : option JsAny) :
  NoDup (JsObj.keys (JsObj.spread entry)) ->
  mergeOverDefault (Some (mergeOverDefault entry)) = mergeOverDefault entry.
Proof.
  intros Hnodup. unfold mergeOverDefault at 1 3. cbn [JsObj.spread mergeOverDefault]. f_equal.
  unfold mergeOverDefault. apply JsObj_assign_idem; [apply defaultPluginSettingObj_NoDup|done].
Qed.

Lemma mergedEntries_keys (stored : JsObj.Props) :
  JsObj.keys (mergedEntries stored) = JsObj.keys stored.
Proof. unfold mergedEntries, JsObj.keys. rewrite map_map. by apply map_ext. Qed.

(** X13. [unserializePluginSettings] normalises.  Given [null], a boolean
    or a number it yields the empty object.  Given an object, it keeps
    the ids and their order, makes every entry an object that has both
    [enabled] and [deleted], and leaves its own output as it is: applying it
    a second time changes nothing. *)
Theorem unserializePluginSettings_normal_form :
  (forall v, match v with JsObject _ | JsStr _ => False | _ => True end ->
             unserializePluginSettings v = JsObject [])
  /\ (forall stored,
        NoDup (JsObj.keys stored) ->
        Forall (fun kv => NoDup (JsObj.keys (JsObj.spread (Some (snd kv))))) stored ->
        exists props,
          unserializePluginSettings (JsObject stored) = JsObject props
          /\ JsObj.keys props = JsObj.keys stored
          /\ Forall (fun kv => exists entry,
                        snd kv = JsObject entry
                        /\ is_Some (JsObj.get "enabled" entry)
                        /\ is_Some (JsObj.get "deleted" entry)) props
          /\ unserializePluginSettings (JsObject props) = JsObject props).
Proof.
  split; [by intros [| | | |]|].
  intros stored Hnodup Hentries. exists (mergedEntries stored).
  split; [by apply unserializePluginSettings_object|].
  split; [apply mergedEntries_keys|]. split.
  - unfold mergedEntries. apply Forall_map. eapply Forall_impl; [exact Hentries|].
    intros [k v] Hv. cbn [fst snd] in *. eexists. split; [reflexivity|].
    rewrite !JsObj_assign_get by done.
    split; by destruct (JsObj.get _ (JsObj.spread (Some v))).
  - rewrite unserializePluginSettings_object by (by rewrite mergedEntries_keys).
    f_equal. unfold mergedEntries. rewrite map_map.
    apply map_ext_Forall. eapply Forall_impl; [exact Hentries|].
    intros [k v] Hv. cbn [fst snd] in *. f_equal. by apply mergeOverDefault_idem.
Qed.

(** ** Objects survive the public methods *)

Lemma objectsKept_refl s : objectsKept s s.
Proof. by split. Qed.

Lemma objectsKept_trans s1 s2 s3 : objectsKept s1 s2 -> objectsKept s2 s3 -> objectsKept s1 s3.
Proof. intros [Hr1 Ho1] [Hr2 Ho2]. split; eauto. Qed.

Lemma objectsKept_batchFrame s s' : batchFrame s s' -> objectsKept s s'.
Proof. intros Hb. split; [apply (batch_snapshots _ _ Hb)|apply (batch_pluginObjs _ _ Hb)]. Qed.

Lemma objectsKept_loadFrame s s' : loadFrame s s' -> objectsKept s s'.
Proof. intros Hf. by apply objectsKept_batchFrame, loadFrame_batchFrame. Qed.

Lemma objectsKept_deletePluginAt (pluginId : string) s :
  objectsKept s (deletePluginAt pluginId s).2.
Proof.
  split.
  - intros l m Hl. rewrite deletePluginAt_snapshot; eauto.
  - intros l p Hl. by rewrite (proj1 (proj2 (deletePluginAt_rest pluginId s))).
Qed.

Section Survive.

Context `{Host}.

Lemma uninstallPlugin_objectsKept (pluginId : string) s :
  objectsKept s (uninstallPlugin pluginId s).2.
Proof.
  rewrite uninstallPlugin_run. cbv zeta.
  destruct (readDirStats (files s) pluginDir) as [stats|]; [|by split].
  eapply objectsKept_trans; [|apply objectsKept_deletePluginAt].
  by destruct (findPluginStat pluginId stats).
Qed.

Lemma uninstallPluginsLoop_objectsKept (settings : loc) (pluginIds : list string)
    (newSettings : loc) s0 s :
  objectsKept s0 s ->
  wp (uninstallPluginsLoop settings pluginIds newSettings) s (fun _ s' => objectsKept s0 s').
Proof.
  revert newSettings s.
  induction pluginIds as [|pluginId rest IH]; intros newSettings s Hk;
    cbn [uninstallPluginsLoop].
  - by apply wp_ret.
  - unfold readSettings.
    repeat (wp_step; cbv beta iota); try done; [|by apply IH].
    pose proof (uninstallPlugin_objectsKept pluginId s) as Hun. unfold wp at 1.
    destruct (uninstallPlugin pluginId s) as [[[]|e] s1]; cbn [fst snd] in *;
      [|by eapply objectsKept_trans].
    assert (objectsKept s0 s1) as Hk1 by (by eapply objectsKept_trans).
    unfold copySettingsWithout, readSettings.
    repeat (wp_step; cbv beta iota); try done.
    unfold wp at 1. cbn [fst snd]. apply IH. done.
Qed.

(** X14. No public method of the service changes a mapping object or a
    plugin instance that exists when it is called: after any sequence of
    calls, a reference to the registry taken before still shows the same
    entries, and a plugin loaded before is as it was. *)
Theorem snapshots_survive s s' :
  rtc serviceStep s s' -> objectsKept s s'.
Proof.
  induction 1 as [s|s s1 s2 Hstep _ IH]; [apply objectsKept_refl|].
  eapply objectsKept_trans; [|exact IH]. clear IH s2.
  destruct Hstep as [s baseDir jsBundleString fallbackId|s baseDir path|s path
                     |s arg settings devMode|s plugin|s jplPath|s pluginId|s settings].
  - apply objectsKept_loadFrame.
    apply (loadPluginFromJsBundle_post baseDir jsBundleString fallbackId s s (loadFrame_refl s)).
  - apply objectsKept_loadFrame.
    apply (loadPluginFromPackageWith_post loadPluginFromPath baseDir path s s);
      [|apply loadFrame_refl].
    intros path' s1 Hf. by apply loadPluginFromPathN_post.
  - apply objectsKept_loadFrame. apply (loadPluginFromPath_post path s).
  - apply objectsKept_batchFrame. apply (loadAndRunPlugins_frame arg settings devMode s).
  - apply objectsKept_loadFrame.
    apply (runPlugin_frame plugin s s (fun _ s' => loadFrame s s') (loadFrame_refl s)). auto.
  - apply objectsKept_batchFrame. apply (installPlugin_frame jplPath s).
  - apply uninstallPlugin_objectsKept.
  - change (wp (uninstallPlugins settings) s (fun _ s' => objectsKept s s')).
    unfold uninstallPlugins, readSettings.
    repeat (wp_step; cbv beta iota); try apply objectsKept_refl.
    apply uninstallPluginsLoop_objectsKept, objectsKept_refl.
Qed.

End Survive.

(** ** Finding the plugin of a content script *)

Section ContentScripts.

Context `{Host} `{PluginApi}.

Lemma findContentScript_finds (contentScriptId : string) (pluginIds : list string) s :
  registryWf s ->
  (forall id, id ∈ pluginIds -> is_Some (currentPlugins s !! id)) ->
  let r := findContentScript contentScriptId pluginIds s in
  r.2 = s
  /\ match r.1 with
     | Return (Some id) =>
         id ∈ pluginIds
         /\ exists plugin p,
              currentPlugins s !! id = Some plugin /\ pluginObjs s !! plugin = Some p
              /\ contentScriptById p contentScriptId = true
     | Return None =>
         forall id plugin p,
           id ∈ pluginIds ->
           currentPlugins s !! id = Some plugin -> pluginObjs s !! plugin = Some p ->
           contentScriptById p contentScriptId = false
     | Throw _ => False
     end.
Proof.
  intros Hwf. cbv zeta.
  induction pluginIds as [|pluginId rest IH]; intros Hkeys; cbn [findContentScript].
  - split; [done|]. cbn. by intros ? ? ? ?%elem_of_nil.
  - destruct (Hkeys pluginId (list_elem_of_here _ _)) as [plugin Hplugin].
    destruct (Hwf _ _ Hplugin) as (p & Hp & Hid).
    cbv [bind gets orThrow ret]. rewrite Hplugin. cbv [readPlugin]. rewrite Hp.
    destruct (contentScriptById p contentScriptId) eqn:Hcs.
    + cbn. split; [done|]. split; [apply list_elem_of_here|]. by exists plugin, p.
    + destruct IH as [Hs Hr];
        [intros id Hin; apply Hkeys; by apply list_elem_of_further|].
      split; [done|].
      destruct (findContentScript contentScriptId rest s) as [[[id|]|e] s']; cbn [fst] in *.
      * destruct Hr as [Hin Hfound]. split; [by apply list_elem_of_further|done].
      * intros id plugin' p' [->|Hin]%elem_of_cons Hreg Hobj; [congruence|eauto].
      * done.
Qed.

(** X15. In a state whose registry is well formed, and with [for ... in]
    visiting exactly the registered ids, [pluginIdByContentScriptId]
    never throws and changes nothing; the id it returns is registered to a
    plugin that has the content script, and it returns [null] only when no
    registered plugin has it. *)
Theorem pluginIdByContentScriptId_finds (contentScriptId : string) s :
  registryWf s ->
  (forall id, id ∈ forInKeys (currentPlugins s) <-> is_Some (currentPlugins s !! id)) ->
  let r := pluginIdByContentScriptId contentScriptId s in
  r.2 = s
  /\ match r.1 with
     | Return (Some id) =>
         exists plugin p,
           currentPlugins s !! id = Some plugin /\ pluginObjs s !! plugin = Some p
           /\ contentScriptById p contentScriptId = true
     | Return None =>
         forall id plugin p,
           currentPlugins s !! id = Some plugin -> pluginObjs s !! plugin = Some p ->
           contentScriptById p contentScriptId = false
     | Throw _ => False
     end.
Proof.
  intros Hwf Hkeys. cbv zeta.
  unfold pluginIdByContentScriptId. cbv [bind gets].
  destruct (findContentScript_finds contentScriptId (forInKeys (currentPlugins s)) s Hwf)
    as [Hs Hr]; [intros id; apply Hkeys|].
  split; [done|].
  destruct (findContentScript contentScriptId (forInKeys (currentPlugins s)) s)
    as [[[id|]|e] s']; cbn [fst] in *.
  - by destruct Hr.
  - intros id plugin p Hreg Hobj. apply (Hr id plugin p); [apply Hkeys; eauto|done|done].
  - done.
Qed.

End ContentScripts.

(** ** Installing from a repository *)

Lemma underDir_self (path : string) : underDir path path = true.
Proof. unfold underDir. by rewrite String.eqb_refl. Qed.

Section Repository.

Context `{Host} `{RepositoryApi}.

(** X16. [installPluginFromRepo] returns what [installPlugin] returns for
    the downloaded package and leaves the registry as [installPlugin] left
    it.  It removes the download only after a successful installation:
    then nothing is left at the downloaded path and every other file is as
    the installation left it; when the installation throws, the download
    stays where it is. *)
Theorem installPluginFromRepo_cleanup (pluginId path : string) s s0 :
  downloadPlugin pluginId s = (Return path, s0) ->
  let r := installPluginFromRepo pluginId s in
  let i := installPlugin path s0 in
  r.1 = i.1
  /\ currentPlugins r.2 = currentPlugins i.2
  /\ pluginObjs r.2 = pluginObjs i.2
  /\ match i.1 with
     | Return _ =>
         files r.2 !! path = None
         /\ (forall f, underDir path f = false -> files r.2 !! f = files i.2 !! f)
         /\ events r.2 = events i.2 ++ [FsRemove path]
     | Throw _ => r.2 = i.2
     end.
Proof.
  intros Hdl. cbv zeta.
  assert (installPluginFromRepo pluginId s
          = match installPlugin path s0 with
            | (Return plugin, s1) =>
                (Return plugin,
                 withFiles (fsRemoved path (files s1))
                   (withEvents (events s1 ++ [FsRemove path]) s1))
            | (Throw e, s1) => (Throw e, s1)
            end) as ->.
  { unfold installPluginFromRepo. cbv [bind]. rewrite Hdl.
    destruct (installPlugin path s0) as [[plugin|e] s1]; [|done].
    by rewrite fsRemove_run. }
  destruct (installPlugin path s0) as [[plugin|e] s1]; cbn [fst snd]; [|done].
  split; [done|]. split; [done|]. split; [done|]. cbn.
  split; [apply fsRemoved_inside, underDir_self|]. split; [|done].
  intros f Hf. by apply fsRemoved_outside.
Qed.

End Repository.

(** ** A manifest comment that is never closed *)

(** X17. The parser does not ask for the closing marker: when no line
    after the opening marker starts with it, every line after the opening
    marker, trimmed, is taken for the manifest - the code of the bundle
    included. *)
Theorem parsePluginJsBundle_unterminated (scriptText : string) (pre rest : list string) :
  map trim (splitLines scriptText) = pre ++ manifestOpening :: rest ->
  Forall (fun l => l <> manifestOpening) pre ->
  Forall (fun l => startsWith l manifestClosing = false) rest ->
  rest <> [] ->
  parsePluginJsBundle scriptText = Return (mkParsedBundle scriptText (joinLines rest)).
Proof.
  intros Hlines Hpre Hrest Hne.
  rewrite parsePluginJsBundle_manifestBlock. unfold manifestBlock.
  rewrite Hlines, afterOpening_first, beforeClosing_all by done.
  by destruct rest.
Qed.

(** ** A candidate that the application is too old for *)

Section TooOld.

Context `{Host}.

Variables (settings : PluginSettings) (devMode : bool).


End TooOld.

(** ** The further properties on the demo host *)


Lemma makePluginId_bound_witness :
  makePluginId (H := Demo.host) "My Plugin" = "my-plugin".
Proof.
  apply (makePluginId_bound (H := Demo.host) "My Plugin"). vm_compute. lia.
Defined.

Lemma loadPluginFromPath_separate_from_registry_witness :
  let r := loadPluginFromPath (H := Demo.host) "/p/a.js" Demo.start in
  r.1 = Return 1%positive /\ pluginObjs Demo.start !! 1%positive = None.
Proof.
  cbv zeta. split; [vm_compute; reflexivity|].
  apply (loadPluginFromPath_separate_from_registry (H := Demo.host) "/p/a.js" Demo.start).
  vm_compute. reflexivity.
Defined.

(** Installing a package announces and runs nothing. *)
Lemma only_running_dispatches_witness :
  runsNothing Demo.start (installPlugin (H := Demo.host) "/p/c.jpl" Demo.start).2.
Proof.
  destruct (only_running_dispatches (H := Demo.host)) as (_ & _ & _ & Hinstall & _).
  apply Hinstall.
Defined.

(** The bundle [/p/a.js] is loaded under the id of its manifest, with the
    whole file as its script. *)
Lemma loadPluginFromPath_bundle_loaded_witness :
  exists pl,
    (loadPluginFromPath (H := Demo.host) "/p/a.js" Demo.start).1 = Return 1%positive
    /\ plugin_id pl = "MyPlugin"
    /\ plugin_scriptText pl = Demo.bundle (Demo.manifestJson "MyPlugin" "1.4") "a()".
Proof.
  destruct (loadPluginFromPath_bundle_loaded (H := Demo.host) "/p/a.js"
              (Demo.bundle (Demo.manifestJson "MyPlugin" "1.4") "a()")
              [("id", JsStr "MyPlugin"); ("app_min_version", JsStr "1.4")] Demo.start)
    as (pl & Hrun & Hscript & Hid & _).
  - discriminate.
  - reflexivity.
  - reflexivity.
  - vm_compute. discriminate.
  - vm_compute. reflexivity.
  - vm_compute. discriminate.
  - exists pl. split; [by rewrite Hrun|]. split; [exact Hid|exact Hscript].
Defined.

(** A bundle without a manifest block fails and leaves no trace. *)
Lemma loadPluginFromPath_bundle_failures_witness :
  loadPluginFromPath (H := Demo.host) "/p/broken.js" Demo.start
  = (Throw ManifestNotFound, Demo.start).
Proof.
  destruct (loadPluginFromPath_bundle_failures (H := Demo.host) "/p/broken.js" Demo.start)
    as [_ Hfile].
  - discriminate.
  - reflexivity.
  - destruct (Hfile "console.log(1)") as [Hnone _]; [reflexivity|].
    apply Hnone. reflexivity.
Defined.

(** A directory without [manifest.json] is loaded from its [dist], and a
    manifest without id gets the slug of the directory name. *)
Lemma loadPluginFromPath_directory_loaded_witness :
  exists pl,
    (loadPluginFromPath (H := Demo.host) "/d/My Folder/" Samples.folderStart).1
    = Return 1%positive
    /\ plugin_scriptText pl = "f()"
    /\ plugin_baseDir pl = "/d/My Folder/dist"
    /\ plugin_id pl = "my-folder".
Proof.
  destruct (loadPluginFromPath_directory_loaded (H := Demo.host) "/d/My Folder/"
              Samples.folderStart) as [_ Hload].
  - discriminate.
  - reflexivity.
  - reflexivity.
  - destruct (Hload "f()" "{}" []) as (pl & Hrun & Hscript & Hbase & Hid & _).
    + reflexivity.
    + reflexivity.
    + vm_compute. reflexivity.
    + vm_compute. discriminate.
    + exists pl. split; [by rewrite Hrun|]. split; [exact Hscript|].
      split; [exact Hbase|exact Hid].
Defined.



(** With [x] flagged deleted and [y] not, [uninstallPlugins] takes [x]
    out of the registry. *)
Lemma uninstallPlugins_registry_witness :
  let r := uninstallPlugins (H := Demo.host) 1%positive Samples.installedStart in
  r.1 = Return 2%positive /\ currentPlugins r.2 !! "x" = None.
Proof.
  cbv zeta.
  assert ((uninstallPlugins (H := Demo.host) 1%positive Samples.installedStart).1
          = Return 2%positive) as Hr by (vm_compute; reflexivity).
  split; [exact Hr|].
  destruct (uninstallPlugins_registry (H := Demo.host) 1%positive Samples.flagged
              Samples.installedStart) as [Hreg _].
  - reflexivity.
  - rewrite Hr in Hreg. apply (Hreg "x").
Defined.


(** Of three bundles, two of them with the same id, the batch starts two
    plugins, each once. *)
Lemma loadAndRunPlugins_starts_once_witness :
  NoDup (dispatchedIds
           (events (loadAndRunPlugins (H := Demo.host)
                      (inr ["/p/a.js"; "/p/a2.js"; "/p/b.js"]) [] false Demo.start).2)).
Proof.
  destruct (loadAndRunPlugins_starts_once (H := Demo.host) [] false
              (inr ["/p/a.js"; "/p/a2.js"; "/p/b.js"]) Demo.start)
    as (evs & Hevs & Hnodup & _).
  rewrite Hevs. exact Hnodup.
Defined.

(** An entry that only disables its plugin is completed once and for all. *)
Lemma unserializePluginSettings_normal_form_witness :
  let stored := JsObject [("a", JsObject [("enabled", JsBoolean false)]); ("b", JsNull)] in
  unserializePluginSettings (unserializePluginSettings stored)
  = unserializePluginSettings stored.
Proof.
  cbv zeta.
  destruct unserializePluginSettings_normal_form as [_ Hobject].
  destruct (Hobject [("a", JsObject [("enabled", JsBoolean false)]); ("b", JsNull)])
    as (props & Hrun & _ & _ & Hidem).
  - apply NoDup_cons. split; [by intros ?%list_elem_of_singleton|apply NoDup_singleton].
  - repeat constructor. by intros ?%elem_of_nil.
  - rewrite Hrun. exact Hidem.
Defined.

(** The first mapping object of the service is still empty after a batch
    has registered a plugin and after the plugin was uninstalled. *)
Lemma snapshots_survive_witness :
  let s1 := (loadAndRunPlugins (H := Demo.host) (inl "/plugins") [] false Demo.start).2 in
  let s2 := (uninstallPlugin (H := Demo.host) "x" s1).2 in
  plugins_ s2 <> 1%positive /\ registries s2 !! 1%positive = Some ∅.
Proof.
  cbv zeta. split; [vm_compute; discriminate|].
  apply (snapshots_survive (H := Demo.host) Demo.start).
  - eapply rtc_l; [apply (step_loadAndRunPlugins Demo.start (inl "/plugins") [] false)|].
    apply rtc_once. apply step_uninstallPlugin.
  - reflexivity.
Defined.

(** The content script of the plugin [x] is found under its id. *)
Lemma pluginIdByContentScriptId_finds_witness :
  let r := pluginIdByContentScriptId (H0 := Samples.api) "x/script"
             Samples.installedStart in
  r.1 = Return (Some "x") /\ r.2 = Samples.installedStart.
Proof.
  cbv zeta. split; [vm_compute; reflexivity|].
  apply (pluginIdByContentScriptId_finds (H0 := Samples.api)).
  - apply (reachable_registryWf (H := Demo.host)). unfold Samples.installedStart.
    apply reachable_settings, reachable_loadAndRunPlugins, reachable_initial.
  - intros id. change (forInKeys ?m) with (fst <$> map_to_list m).
    rewrite list_elem_of_fmap. split.
    + intros ([k l] & -> & Hin). apply elem_of_map_to_list in Hin. eauto.
    + intros [l Hl]. exists (id, l). split; [done|]. by apply elem_of_map_to_list.
Defined.

(** After the package [c] was installed from the repository, the download
    is gone. *)
Lemma installPluginFromRepo_cleanup_witness :
  let r := installPluginFromRepo (H := Demo.host) (H1 := Samples.repo) "c" Demo.start in
  r.1 = Return 2%positive /\ files r.2 !! "/p/c.jpl" = None.
Proof.
  cbv zeta.
  assert ((installPlugin (H := Demo.host) "/p/c.jpl" Demo.start).1 = Return 2%positive) as Hr
    by (vm_compute; reflexivity).
  destruct (installPluginFromRepo_cleanup (H := Demo.host) (H0 := Samples.repo) "c" "/p/c.jpl"
              Demo.start Demo.start eq_refl) as (Hsame & _ & _ & Hclean).
  rewrite Hr in Hclean. destruct Hclean as [Hgone _].
  split; [by rewrite Hsame|exact Hgone].
Defined.

(** A manifest comment left open takes the code after it with it. *)
Lemma parsePluginJsBundle_unterminated_witness :
  let scriptText := manifestOpening +:+ Demo.nl +:+ "{}" +:+ Demo.nl +:+ "run()" in
  parsePluginJsBundle scriptText
  = Return (mkParsedBundle scriptText ("{}" +:+ Demo.nl +:+ "run()")).
Proof.
  cbv zeta.
  apply (parsePluginJsBundle_unterminated _ [] ["{}"; "run()"]).
  - vm_compute. reflexivity.
  - constructor.
  - repeat constructor.
  - discriminate.
Defined.

